(** * Cart service: tiered offer pricing, cart aggregation and checkout

    A shallow embedding of the cart service module - the functions
    [calculatePaidAndFree], [calculateDiscount], [calculateCartTotals],
    [formatCartResponse], [getCart], [addToCart], [updateCartItem],
    [removeFromCart], [clearCart] and [checkout] - with the documents of
    [models/fruit.ts] and [models/transactionHistory.ts] and the DTOs of
    [types/index.ts], and the properties its specification states.
    Further sections embed [getTransactionHistory] and [clearAllCarts],
    the fruit service ([updateStock], [updateFruit], [deleteFruit],
    [getFruits]) and the rating service ([rateFruit] and the functions
    it calls), with properties read off the code.

    Conventions of the embedding.
    - Quantities ([quantity], [freeItems], [stockQuantity], [totalItems])
      are JavaScript numbers that hold integers; they are modelled as [Z].
      The model agrees with the code while magnitudes stay below 2^53,
      where every integer is a binary64 value and [+], [-], [Math.floor],
      [Math.ceil], [%] on them are exact.
    - Prices and money totals are JavaScript numbers with fractions; they
      are modelled as binary64 values ([PrimFloat.float]), with the IEEE
      operations of the kernel, so [*], [+], [-], [/] round as in the
      code.
    - The collections ([inMemoryCarts], the cart collection, the fruit
      collection) are finite maps; reads and writes on them succeed.
      Schema validation, driver failures, generated [_id]s and the [Date]
      fields ([addedAt], [updatedAt]) are not part of the model.
    - Of the schemas only the rating schema is modelled: the [save] of
      the rating service runs its validators.
    - An exception is a value [inl message] of a sum type; the HTTP
      collaborators of [checkout] answer through a record of responses
      and every request sent is appended to a log. *)

From Stdlib Require Import ZArith Lia Bool.
From Stdlib Require Import Floats.PrimFloat Floats.FloatOps Floats.SpecFloat Floats.FloatAxioms.
From stdpp Require Import base option list strings gmap fin_maps.

Local Open Scope Z_scope.

(** ** Offer tiers ([models/fruit.ts]) *)

Inductive OfferType : Set :=
  | NONE
  | BUY_1_GET_1_FREE
  | BUY_2_GET_3_FREE
  | BUY_3_GET_5_FREE.

#[global] Instance OfferType_eq_dec : EqDecision OfferType.
Proof. solve_decision. Defined.

(** ** Numbers

    [Z2F] is the binary64 value of an integer (round to nearest, ties to
    even; exact below 2^53). *)

Definition Z2F (z : Z) : float :=
  SF2Prim (binary_normalize prec emax z 0 false).

Module Math.

(** [Math.floor(a / b)] for integers [a] and [b > 0]. *)
Definition floor_div (a b : Z) : Z := a / b.

(** [Math.ceil(a / b)] for integers [a] and [b > 0]: the least integer
    not below the quotient. *)
Definition ceil_div (a b : Z) : Z := - ((- a) / b).

(** [a % b]: the remainder takes the sign of the dividend. *)
Definition rem (a b : Z) : Z := Z.rem a b.

Definition min (a b : Z) : Z := Z.min a b.

(** [Math.round(x)]: the integer nearest to [x], ties towards
    +infinity; NaN, the infinities, the zeros and integers are returned
    as they are, and a result of zero keeps the sign of [x].  A finite
    [x] is [(-1)^s * m * 2^e]; for [e < 0] the result is
    [floor(x + 1/2)], computed on integers. *)
Definition round (x : float) : float :=
  match Prim2SF x with
  | S754_finite s m e =>
      if 0 <=? e then x
      else
        let twice := (if s then Z.neg m else Z.pos m) * 2 in
        let r := (twice + 2 ^ (- e)) / 2 ^ (1 - e) in
        if r =? 0 then (if s then (-0)%float else 0%float) else Z2F r
  | _ => x
  end.

End Math.

(** ** The resolver [calculatePaidAndFree] *)

Record PaidFree : Set := mkPaidFree { paid : Z; free : Z }.

Definition calculatePaidAndFree (totalQuantity : Z) (offerType : OfferType)
  : PaidFree :=
  if totalQuantity <=? 0 then {| paid := 0; free := 0 |}
  else
    match offerType with
    | BUY_1_GET_1_FREE =>
        let cycleSize := 2 in
        let paidPerCycle := 1 in
        let completeCycles := Math.floor_div totalQuantity cycleSize in
        let remainder := Math.rem totalQuantity cycleSize in
        let paid := completeCycles * paidPerCycle + remainder in
        let free := totalQuantity - paid in
        {| paid := paid; free := free |}
    | BUY_2_GET_3_FREE =>
        let cycleSize := 5 in
        let firstCyclePaid := 2 in
        if totalQuantity <=? cycleSize then
          let paid := Math.min totalQuantity firstCyclePaid in
          let free := totalQuantity - paid in
          {| paid := paid; free := free |}
        else
          let afterFirstCycle := totalQuantity - cycleSize in
          let additionalPaid := Math.ceil_div afterFirstCycle cycleSize in
          let paid := firstCyclePaid + additionalPaid in
          let free := totalQuantity - paid in
          {| paid := paid; free := free |}
    | BUY_3_GET_5_FREE =>
        let cycleSize := 8 in
        let firstCyclePaid := 3 in
        if totalQuantity <=? cycleSize then
          let paid := Math.min totalQuantity firstCyclePaid in
          let free := totalQuantity - paid in
          {| paid := paid; free := free |}
        else
          let afterFirstCycle := totalQuantity - cycleSize in
          let additionalPaid := Math.ceil_div afterFirstCycle cycleSize in
          let paid := firstCyclePaid + additionalPaid in
          let free := totalQuantity - paid in
          {| paid := paid; free := free |}
    | NONE => {| paid := totalQuantity; free := 0 |}
    end.

(** ** The policy as the specification words it

    For a tier with first-cycle total [C] and [firstPaid = F]: below or at
    [C] the paid count is [min(totalQuantity, F)]; above it,
    [extra = totalQuantity - C], [additionalPaid = ceil(extra / C)] and
    [paid = F + additionalPaid]; [free] is the rest.  The ceiling is
    written here as quotient plus one when the division leaves a
    remainder. *)

Definition spec_ceil (a b : Z) : Z :=
  if a mod b =? 0 then a / b else a / b + 1.

Definition spec_policy (C F totalQuantity : Z) : PaidFree :=
  if totalQuantity <=? C then
    let p := Z.min totalQuantity F in
    {| paid := p; free := totalQuantity - p |}
  else
    let extra := totalQuantity - C in
    let additionalPaid := spec_ceil extra C in
    let p := F + additionalPaid in
    {| paid := p; free := totalQuantity - p |}.

(** The uniform cycle of two, as the specification words the special
    case of [BUY_1_GET_1_FREE]. *)
Definition spec_uniform2 (totalQuantity : Z) : PaidFree :=
  let completeCycles := totalQuantity / 2 in
  let remainder := totalQuantity mod 2 in
  let p := completeCycles + remainder in
  {| paid := p; free := totalQuantity - p |}.


(** ** Documents and DTOs ([models/fruit.ts], [types/index.ts]) *)

Module IFruit.
Record t : Type := mk {
  name : string;
  price : float;
  offerType : OfferType;
  inStock : bool;
  stockQuantity : Z
}.
End IFruit.

Record CartItem : Type := mkCartItem {
  fruitId : string;
  name : string;
  price : float;
  quantity : Z;
  offerType : OfferType;
  freeItems : Z
}.

Record Cart : Type := mkCart {
  items : list CartItem;
  totalItems : Z;
  totalPrice : float;
  discountAmount : float;
  finalPrice : float
}.

Module AddToCartDto.
Record t : Type := mk { fruitId : string; quantity : Z }.
End AddToCartDto.

Module UpdateCartItemDto.
Record t : Type := mk { quantity : Z }.
End UpdateCartItemDto.

Module CheckoutDto.
Record t : Type := mk { paymentMethod : string; notes : option string }.
End CheckoutDto.

(** ** Transactions ([models/transactionHistory.ts]) *)

Inductive TransactionStatus : Set :=
  | PENDING | COMPLETED | CANCELLED | REFUNDED | FAILED.

Inductive PaymentMethod : Set :=
  | CASH | CREDIT_CARD | DEBIT_CARD | UPI | NET_BANKING | WALLET.

#[global] Instance PaymentMethod_eq_dec : EqDecision PaymentMethod.
Proof. solve_decision. Defined.

(** [Object.values(PaymentMethod).includes(s)], returning the member. *)
Definition PaymentMethod_of_string (s : string) : option PaymentMethod :=
  if String.eqb s "CASH" then Some CASH
  else if String.eqb s "CREDIT_CARD" then Some CREDIT_CARD
  else if String.eqb s "DEBIT_CARD" then Some DEBIT_CARD
  else if String.eqb s "UPI" then Some UPI
  else if String.eqb s "NET_BANKING" then Some NET_BANKING
  else if String.eqb s "WALLET" then Some WALLET
  else None.

Module ITransactionItem.
Record t : Type := mk {
  fruitId : string;
  fruitName : string;
  quantity : Z;
  pricePerUnit : float;
  offerApplied : OfferType;
  freeItemsReceived : Z;
  subtotal : float
}.
End ITransactionItem.

Module ITransactionHistory.
Record t : Type := mk {
  userId : string;
  items : list ITransactionItem.t;
  totalAmount : float;
  discountAmount : float;
  finalAmount : float;
  currency : string;
  paymentMethod : PaymentMethod;
  status : TransactionStatus;
  notes : option string
}.
End ITransactionHistory.

(** The validators that [save] runs on a transaction document, on the
    fields the model carries: per item a [fruitName] that is not empty
    ([required]), a [quantity] of at least 1, and [pricePerUnit],
    [freeItemsReceived] and [subtotal] of at least 0; at least one item;
    [totalAmount], [discountAmount] and [finalAmount] of at least 0.
    (Ids are well-formed and the enumerated fields are typed.) *)
Definition validTransactionItem (item : ITransactionItem.t) : bool :=
  negb (String.eqb (ITransactionItem.fruitName item) "")
  && (1 <=? ITransactionItem.quantity item)
  && PrimFloat.leb 0 (ITransactionItem.pricePerUnit item)
  && (0 <=? ITransactionItem.freeItemsReceived item)
  && PrimFloat.leb 0 (ITransactionItem.subtotal item).

Definition validTransaction (t : ITransactionHistory.t) : bool :=
  negb (length (ITransactionHistory.items t) =? 0)%nat
  && forallb validTransactionItem (ITransactionHistory.items t)
  && PrimFloat.leb 0 (ITransactionHistory.totalAmount t)
  && PrimFloat.leb 0 (ITransactionHistory.discountAmount t)
  && PrimFloat.leb 0 (ITransactionHistory.finalAmount t).

(** ** Totals *)

Definition calculateDiscount (items : list CartItem) : float :=
  fold_left
    (fun discount item =>
       let freeItemValue := PrimFloat.mul (Z2F (freeItems item)) (price item) in
       PrimFloat.add discount freeItemValue)
    items 0%float.

Module Totals.
Record t : Type := mk {
  totalItems : Z;
  totalPrice : float;
  discountAmount : float;
  finalPrice : float
}.
End Totals.

(** [Math.round(x * 100) / 100]. *)
Definition round2 (x : float) : float :=
  PrimFloat.div (Math.round (PrimFloat.mul x 100%float)) 100%float.

Definition calculateCartTotals (items : list CartItem) : Totals.t :=
  let totalItems :=
    fold_left (fun sum item => sum + quantity item + freeItems item) items 0 in
  let totalPrice :=
    fold_left
      (fun sum item =>
         PrimFloat.add sum
           (PrimFloat.mul (price item) (Z2F (quantity item + freeItems item))))
      items 0%float in
  let discountAmount := calculateDiscount items in
  let finalPrice := PrimFloat.sub totalPrice discountAmount in
  {| Totals.totalItems := totalItems;
     Totals.totalPrice := round2 totalPrice;
     Totals.discountAmount := round2 discountAmount;
     Totals.finalPrice := round2 finalPrice |}.

(** The statements [cart.totalItems = totals.totalItems; ...] that end
    every mutation. *)
Definition assignTotals (items : list CartItem) (totals : Totals.t) : Cart :=
  {| items := items;
     totalItems := Totals.totalItems totals;
     totalPrice := Totals.totalPrice totals;
     discountAmount := Totals.discountAmount totals;
     finalPrice := Totals.finalPrice totals |}.

Definition emptyCart : Cart :=
  {| items := [];
     totalItems := 0;
     totalPrice := 0%float;
     discountAmount := 0%float;
     finalPrice := 0%float |}.

Definition formatCartResponse (cart : option Cart) : Cart :=
  match cart with
  | None => emptyCart
  | Some cart =>
      {| items :=
           map (fun item =>
                  {| fruitId := fruitId item;
                     name := name item;
                     price := price item;
                     quantity := quantity item;
                     offerType := offerType item;
                     freeItems := freeItems item |})
               (items cart);
         totalItems := totalItems cart;
         totalPrice := totalPrice cart;
         discountAmount := discountAmount cart;
         finalPrice := finalPrice cart |}
  end.

(** [items.findIndex(p)]: the first index whose element satisfies [p];
    [None] stands for [-1]. *)
Fixpoint findIndex {A : Type} (p : A -> bool) (l : list A) : option nat :=
  match l with
  | [] => None
  | x :: l' => if p x then Some 0%nat else S <$> findIndex p l'
  end.

(** ** Line updates shared by the two storage paths *)

(** The branch of [addToCart] on [existingItemIndex]: an existing line
    gets the split of its old total plus the requested quantity under the
    fruit's tier; otherwise a new line is pushed. *)
Definition addItem (fruit : IFruit.t) (itemData : AddToCartDto.t)
  (items : list CartItem) : list CartItem :=
  match findIndex (fun item => String.eqb (fruitId item) (AddToCartDto.fruitId itemData)) items with
  | Some existingItemIndex =>
      alter
        (fun existingItem =>
           let totalQuantity :=
             quantity existingItem + freeItems existingItem
               + AddToCartDto.quantity itemData in
           let pf := calculatePaidAndFree totalQuantity (IFruit.offerType fruit) in
           {| fruitId := fruitId existingItem;
              name := name existingItem;
              price := price existingItem;
              quantity := paid pf;
              offerType := offerType existingItem;
              freeItems := free pf |})
        existingItemIndex items
  | None =>
      let pf :=
        calculatePaidAndFree (AddToCartDto.quantity itemData) (IFruit.offerType fruit) in
      let newItem :=
        {| fruitId := AddToCartDto.fruitId itemData;
           name := IFruit.name fruit;
           price := IFruit.price fruit;
           quantity := paid pf;
           offerType := IFruit.offerType fruit;
           freeItems := free pf |} in
      items ++ [newItem]
  end.

(** The branch of [updateCartItem] on [updateData.quantity], for a line
    found at [itemIndex]. *)
Definition setItemQuantity (itemIndex : nat) (updateData : UpdateCartItemDto.t)
  (items : list CartItem) : list CartItem :=
  if UpdateCartItemDto.quantity updateData <=? 0 then
    delete itemIndex items
  else
    alter
      (fun item =>
         let pf :=
           calculatePaidAndFree (UpdateCartItemDto.quantity updateData) (offerType item) in
         {| fruitId := fruitId item;
            name := name item;
            price := price item;
            quantity := paid pf;
            offerType := offerType item;
            freeItems := free pf |})
      itemIndex items.

(** ** The stores and the outside world *)

(** A request sent to the auth service, with its [Authorization]
    header. *)
Inductive Request : Type :=
  | GET_profile (authHeader : option string)
  | POST_deduct_balance (amount : float) (authHeader : option string)
  | POST_notify_order (amount : float) (authHeader : option string).

(** What the auth service answers during one [checkout].  [inl message]
    is a call that throws; [message] is what the handler reads from
    [error.response?.data?.message || error.message]. *)
Record AuthService : Type := mkAuthService {
  profile_walletBalance : string + float;
  deduct_balance : float -> string + unit;
  notify_order : float -> string + unit
}.

Record State : Type := mkState {
  inMemoryCarts : gmap string Cart;
  CartModel : gmap string Cart;
  Fruit : gmap string IFruit.t;
  TransactionHistory : list ITransactionHistory.t;
  requests : list Request
}.

Definition set_inMemoryCarts (f : gmap string Cart -> gmap string Cart) (s : State) : State :=
  {| inMemoryCarts := f (inMemoryCarts s);
     CartModel := CartModel s;
     Fruit := Fruit s;
     TransactionHistory := TransactionHistory s;
     requests := requests s |}.

Definition set_CartModel (f : gmap string Cart -> gmap string Cart) (s : State) : State :=
  {| inMemoryCarts := inMemoryCarts s;
     CartModel := f (CartModel s);
     Fruit := Fruit s;
     TransactionHistory := TransactionHistory s;
     requests := requests s |}.

Definition set_Fruit (f : gmap string IFruit.t -> gmap string IFruit.t) (s : State) : State :=
  {| inMemoryCarts := inMemoryCarts s;
     CartModel := CartModel s;
     Fruit := f (Fruit s);
     TransactionHistory := TransactionHistory s;
     requests := requests s |}.

Definition set_TransactionHistory
  (f : list ITransactionHistory.t -> list ITransactionHistory.t) (s : State) : State :=
  {| inMemoryCarts := inMemoryCarts s;
     CartModel := CartModel s;
     Fruit := Fruit s;
     TransactionHistory := f (TransactionHistory s);
     requests := requests s |}.

Definition set_requests (f : list Request -> list Request) (s : State) : State :=
  {| inMemoryCarts := inMemoryCarts s;
     CartModel := CartModel s;
     Fruit := Fruit s;
     TransactionHistory := TransactionHistory s;
     requests := f (requests s) |}.

(** ** Computations that read and write the stores and may throw *)

Definition M (A : Type) : Type := State -> (string + A) * State.

#[global] Instance M_ret : MRet M := fun A a s => (inr a, s).

#[global] Instance M_bind : MBind M :=
  fun A B k m s =>
    match m s with
    | (inr a, s') => k a s'
    | (inl message, s') => (inl message, s')
    end.

Definition throw {A : Type} (message : string) : M A :=
  fun s => (inl message, s).

Definition try_catch {A : Type} (body : M A) (handler : string -> M A) : M A :=
  fun s =>
    match body s with
    | (inl message, s') => handler message s'
    | (inr a, s') => (inr a, s')
    end.

Definition gets {A : Type} (f : State -> A) : M A := fun s => (inr (f s), s).

Definition modify (f : State -> State) : M unit := fun s => (inr tt, f s).

Fixpoint forEach {A : Type} (body : A -> M unit) (l : list A) : M unit :=
  match l with
  | [] => mret tt
  | x :: l' => body x ≫= fun _ => forEach body l'
  end.

(** The axios calls: the request is logged, then the service answers. *)
Definition axios_get_profile (auth : AuthService) (authHeader : option string) : M float :=
  modify (set_requests (fun log => log ++ [GET_profile authHeader])) ≫= fun _ =>
  match profile_walletBalance auth with
  | inl message => throw message
  | inr walletBalance => mret walletBalance
  end.

Definition axios_post_deduct_balance (auth : AuthService) (amount : float)
  (authHeader : option string) : M unit :=
  modify (set_requests (fun log => log ++ [POST_deduct_balance amount authHeader])) ≫= fun _ =>
  match deduct_balance auth amount with
  | inl message => throw message
  | inr _ => mret tt
  end.

Definition axios_post_notify_order (auth : AuthService) (amount : float)
  (authHeader : option string) : M unit :=
  modify (set_requests (fun log => log ++ [POST_notify_order amount authHeader])) ≫= fun _ =>
  match notify_order auth amount with
  | inl message => throw message
  | inr _ => mret tt
  end.

(** [Fruit.findByIdAndUpdate(id, { $inc: { stockQuantity: delta } })]. *)
Definition Fruit_inc_stockQuantity (id : string) (delta : Z) : M unit :=
  modify (set_Fruit (alter
    (fun fruit =>
       {| IFruit.name := IFruit.name fruit;
          IFruit.price := IFruit.price fruit;
          IFruit.offerType := IFruit.offerType fruit;
          IFruit.inStock := IFruit.inStock fruit;
          IFruit.stockQuantity := IFruit.stockQuantity fruit + delta |})
    id)).

(** ASCII upper-casing, the restriction of [String.prototype.toUpperCase]
    to ASCII text. *)
Definition ascii_upper (c : Ascii.ascii) : Ascii.ascii :=
  let n := Ascii.nat_of_ascii c in
  if ((97 <=? n)%nat && (n <=? 122)%nat)%bool
  then Ascii.ascii_of_nat (n - 32) else c.

Fixpoint ascii_toUpperCase (s : string) : string :=
  match s with
  | EmptyString => EmptyString
  | String c s' => String (ascii_upper c) (ascii_toUpperCase s')
  end.

(** ** The totals as the specification words them

    A sum over binary64 values adds the terms in line order, starting
    from zero; a sum over integers is the usual one. *)

Definition sumZ (l : list Z) : Z := foldr Z.add 0 l.

Definition sumF (l : list float) : float := fold_left PrimFloat.add l 0%float.

Definition grossValue (line : CartItem) : float :=
  PrimFloat.mul (price line) (Z2F (quantity line + freeItems line)).

Definition freeValue (line : CartItem) : float :=
  PrimFloat.mul (price line) (Z2F (freeItems line)).

Record totals_invariant (cart : Cart) : Prop := mkTotalsInvariant {
  inv_totalItems :
    totalItems cart = sumZ (map (fun line => quantity line + freeItems line) (items cart));
  inv_totalPrice :
    totalPrice cart = round2 (sumF (map grossValue (items cart)));
  inv_discountAmount :
    discountAmount cart = round2 (sumF (map freeValue (items cart)));
  inv_finalPrice :
    finalPrice cart =
      round2 (PrimFloat.sub (sumF (map grossValue (items cart)))
                            (sumF (map freeValue (items cart))))
}.

(** Every stored cart, in either storage, has consistent totals. *)
Definition stores_consistent (s : State) : Prop :=
  map_Forall (fun _ cart => totals_invariant cart) (inMemoryCarts s)
  /\ map_Forall (fun _ cart => totals_invariant cart) (CartModel s).

(** ** Sample documents *)

Definition apple : IFruit.t :=
  {| IFruit.name := "Apple"; IFruit.price := 10%float;
     IFruit.offerType := BUY_1_GET_1_FREE;
     IFruit.inStock := true; IFruit.stockQuantity := 4 |}.

Definition orange : IFruit.t :=
  {| IFruit.name := "Orange"; IFruit.price := 20%float;
     IFruit.offerType := BUY_2_GET_3_FREE;
     IFruit.inStock := true; IFruit.stockQuantity := 100 |}.

(** A fruit priced at an eighth of a rupee. *)
Definition berry : IFruit.t :=
  {| IFruit.name := "Berry"; IFruit.price := 0.125%float;
     IFruit.offerType := BUY_1_GET_1_FREE;
     IFruit.inStock := true; IFruit.stockQuantity := 100 |}.

Definition shop : State :=
  {| inMemoryCarts := ∅;
     CartModel := ∅;
     Fruit := {[ "apple" := apple; "orange" := orange; "berry" := berry ]};
     TransactionHistory := [];
     requests := [] |}.

(** A cart of three apples, two paid and one free, and a shop that
    holds it for the user asha in the cart collection. *)
Definition ashaCart : Cart :=
  {| items :=
       [ {| fruitId := "apple"; name := "Apple"; price := 10%float;
            quantity := 2; offerType := BUY_1_GET_1_FREE; freeItems := 1 |} ];
     totalItems := 3;
     totalPrice := 30%float;
     discountAmount := 10%float;
     finalPrice := 20%float |}.

Definition shopWithCart : State :=
  {| inMemoryCarts := ∅;
     CartModel := {[ "asha" := ashaCart ]};
     Fruit := {[ "apple" := apple; "orange" := orange; "berry" := berry ]};
     TransactionHistory := [];
     requests := [] |}.

(** An auth service that reports the given wallet balance and accepts
    every deduction and notification. *)
Definition walletOf (balance : float) : AuthService :=
  {| profile_walletBalance := inr balance;
     deduct_balance := fun _ => inr tt;
     notify_order := fun _ => inr tt |}.

(** ** The fruit service

    [updateStock], [updateFruit] and [deleteFruit] act on the fruit
    collection; of the fields of a fruit the model carries the five the
    cart reads.  [getFruits] is modelled from the point where the
    database has answered: [found] is the list of fruits that match the
    filter, in the requested order, before [skip] and [limit]; its
    length is what [countDocuments] counts.  [skip] and [limit] take a
    prefix off and keep a prefix, as the database does for counts that
    are not negative.  [findByIdAndUpdate] runs the setters of the
    schema on the update, not its validators: a new [name] is trimmed,
    and a price or stock below zero is stored as given. *)


Module UpdateFruitDto.
Record t : Type := mk {
  name : option string;
  price : option float;
  offerType : option OfferType;
  inStock : option bool;
  stockQuantity : option Z
}.
End UpdateFruitDto.

Section UpdateFruit.

(** [String.prototype.trim], the setter of [trim: true]. *)
Variable trim : string -> string.

Definition updateFruit (id : string) (updateData : UpdateFruitDto.t)
  : M (option IFruit.t) :=
  fruit ← gets (fun s => Fruit s !! id);
  match fruit with
  | None => mret None
  | Some fruit =>
      let updated :=
        {| IFruit.name :=
             default (IFruit.name fruit) (trim <$> UpdateFruitDto.name updateData);
           IFruit.price := default (IFruit.price fruit) (UpdateFruitDto.price updateData);
           IFruit.offerType :=
             default (IFruit.offerType fruit) (UpdateFruitDto.offerType updateData);
           IFruit.inStock :=
             default (IFruit.inStock fruit) (UpdateFruitDto.inStock updateData);
           IFruit.stockQuantity :=
             default (IFruit.stockQuantity fruit)
               (UpdateFruitDto.stockQuantity updateData) |} in
      modify (set_Fruit (insert id updated));;
      mret (Some updated)
  end.

End UpdateFruit.

Definition deleteFruit (id : string) : M (option IFruit.t) :=
  fruit ← gets (fun s => Fruit s !! id);
  match fruit with
  | None => mret None
  | Some fruit => modify (set_Fruit (delete id));; mret (Some fruit)
  end.

(** [x || d] on a number that may be absent: zero is falsy. *)
Definition or_default (x : option Z) (d : Z) : Z :=
  match x with
  | None => d
  | Some 0 => d
  | Some n => n
  end.

Module Pagination.
Record t : Type := mk {
  page : Z;
  limit : Z;
  total : Z;
  totalPages : Z;
  hasMore : bool
}.
End Pagination.

Module GetFruitsResult.
Record t : Type := mk {
  fruits : list IFruit.t;
  fruit : option IFruit.t;
  pagination : Pagination.t
}.
End GetFruitsResult.

(** [getFruits]: [id] is the id option of the query (an empty string is
    falsy), [page] and [limit] the page options. *)
Definition getFruits (id : option string) (page limit : option Z)
  (found : list IFruit.t) : M GetFruitsResult.t :=
  let page := or_default page 1 in
  let limit := or_default limit 10 in
  let limit := if 50 <? limit then 50 else limit in
  let skip := (page - 1) * limit in
  match id with
  | Some (String c id') =>
      fruit ← gets (fun s => Fruit s !! String c id');
      mret {| GetFruitsResult.fruits := match fruit with Some f => [f] | None => [] end;
              GetFruitsResult.fruit := fruit;
              GetFruitsResult.pagination :=
                {| Pagination.page := 1;
                   Pagination.limit := 1;
                   Pagination.total := match fruit with Some _ => 1 | None => 0 end;
                   Pagination.totalPages := match fruit with Some _ => 1 | None => 0 end;
                   Pagination.hasMore := false |} |}
  | _ =>
      let total := Z.of_nat (length found) in
      let totalPages := Math.ceil_div total limit in
      let fruits := take (Z.to_nat limit) (drop (Z.to_nat skip) found) in
      mret {| GetFruitsResult.fruits := fruits;
              GetFruitsResult.fruit := None;
              GetFruitsResult.pagination :=
                {| Pagination.page := page;
                   Pagination.limit := limit;
                   Pagination.total := total;
                   Pagination.totalPages := totalPages;
                   Pagination.hasMore := page <? totalPages |} |}
  end.

(** The fruits of the pages 1 to [k] of a listing, one after the
    other. *)
Definition pagesUpTo (k : nat) (limit : Z) (found : list IFruit.t) (s : State)
  : list IFruit.t :=
  concat
    (map (fun p =>
            match fst (getFruits None (Some (Z.of_nat p)) (Some limit) found s) with
            | inr result => GetFruitsResult.fruits result
            | inl _ => []
            end)
       (seq 1 k)).

(** ** The rating service

    A rating document refers to the transaction of the purchase by the
    position of that transaction in the collection, which stands for its
    [_id].  The [rating] field that [updateFruitAverageRating] writes on
    a fruit is kept in a table of its own, [Fruit_rating], beside the
    fruit documents.  [$avg] is the database's: the service is modelled
    for any averaging function [avg].  [save] validates a rating
    document against its schema ([models/fruitRating.ts]): the [review]
    is trimmed when it is set, and a document whose [rating] is not
    from 1 to 5, or whose [review] is longer than 500 characters, is
    refused with a ValidationError and not stored.  The length that
    [maxlength] compares is the [length] of the JavaScript string, its
    number of UTF-16 code units; like [trim] it is the language's, and
    the service is modelled for any such function [codeUnits]. *)

Module CreateRatingDto.
Record t : Type := mk {
  fruitId : string;
  rating : float;
  review : option string
}.
End CreateRatingDto.

Module IFruitRating.
Record t : Type := mk {
  userId : string;
  fruitId : string;
  rating : float;
  review : option string;
  transactionId : nat
}.
End IFruitRating.

Module RatingResult.
Record t : Type := mk {
  rating : IFruitRating.t;
  averageRating : float;
  totalRatings : Z
}.
End RatingResult.

Record Ratings : Type := mkRatings {
  FruitRating : list IFruitRating.t;
  Fruit_rating : gmap string float
}.

(** [Model.findOne(query)]: the first document that matches, with its
    position. *)
Fixpoint findOne {A : Type} (p : A -> bool) (l : list A) : option (nat * A) :=
  match l with
  | [] => None
  | x :: l' =>
      if p x then Some (0%nat, x)
      else match findOne p l' with
           | Some (i, y) => Some (S i, y)
           | None => None
           end
  end.

Definition isCompleted (status : TransactionStatus) : bool :=
  match status with
  | COMPLETED => true
  | _ => false
  end.

(** The query of [hasUserPurchasedFruit]. *)
Definition isPurchase (userId fruitId' : string) (t : ITransactionHistory.t) : bool :=
  String.eqb (ITransactionHistory.userId t) userId
  && existsb (fun item => String.eqb (ITransactionItem.fruitId item) fruitId')
       (ITransactionHistory.items t)
  && isCompleted (ITransactionHistory.status t).

Definition hasUserPurchasedFruit (s : State) (userId fruitId' : string) : option nat :=
  fst <$> findOne (isPurchase userId fruitId') (TransactionHistory s).

(** The query [{ userId, fruitId }] on ratings. *)
Definition isRatingOf (userId fruitId' : string) (r : IFruitRating.t) : bool :=
  String.eqb (IFruitRating.userId r) userId
  && String.eqb (IFruitRating.fruitId r) fruitId'.

Definition hasUserRatedFruit (userId fruitId' : string) (r : Ratings) : bool :=
  match findOne (isRatingOf userId fruitId') (FruitRating r) with
  | Some _ => true
  | None => false
  end.

Definition getUserRatingForFruit (userId fruitId' : string) (r : Ratings)
  : option IFruitRating.t :=
  snd <$> findOne (isRatingOf userId fruitId') (FruitRating r).

Section RatingService.

(** [$avg] over the ratings of a fruit, which are not empty. *)
Variable avg : list float -> float.

(** [String.prototype.trim], the setter of [trim: true]. *)
Variable trim : string -> string.

(** [String.prototype.length]: the number of UTF-16 code units. *)
Variable codeUnits : string -> nat.

(** The message of the ValidationError for a document that [save]
    refuses. *)
Variable validationMessage : IFruitRating.t -> string.

(** The validators of the paths that [rateFruit] sets: [min: 1] and
    [max: 5] on [rating], [maxlength: 500] on [review]. *)
Definition validRating (rating : float) (review : option string) : bool :=
  PrimFloat.leb 1 rating && PrimFloat.leb rating 5
  && match review with
     | Some v => (codeUnits v <=? 500)%nat
     | None => true
     end.

Definition updateFruitAverageRating (s : State) (fruitId' : string) (r : Ratings)
  : (float * Z) * Ratings :=
  let matching :=
    List.filter (fun x => String.eqb (IFruitRating.fruitId x) fruitId') (FruitRating r) in
  let stats :=
    match matching with
    | [] => (0%float, 0)
    | _ => (avg (map IFruitRating.rating matching), Z.of_nat (length matching))
    end in
  let averageRating :=
    PrimFloat.div (Math.round (PrimFloat.mul (fst stats) 10%float)) 10%float in
  let r' :=
    match Fruit s !! fruitId' with
    | Some _ =>
        {| FruitRating := FruitRating r;
           Fruit_rating := <[fruitId' := averageRating]> (Fruit_rating r) |}
    | None => r
    end in
  ((averageRating, snd stats), r').

Definition rateFruit (s : State) (userId : string) (ratingData : CreateRatingDto.t)
  (r : Ratings) : (string + RatingResult.t) * Ratings :=
  let fruitId' := CreateRatingDto.fruitId ratingData in
  let rating := CreateRatingDto.rating ratingData in
  let review := trim <$> CreateRatingDto.review ratingData in
  match Fruit s !! fruitId' with
  | None => (inl "FRUIT_NOT_FOUND", r)
  | Some _ =>
      match hasUserPurchasedFruit s userId fruitId' with
      | None => (inl "NOT_PURCHASED", r)
      | Some transactionId =>
          let saved :=
            match findOne (isRatingOf userId fruitId') (FruitRating r) with
            | Some (i, existingRating) =>
                let savedRating :=
                  {| IFruitRating.userId := IFruitRating.userId existingRating;
                     IFruitRating.fruitId := IFruitRating.fruitId existingRating;
                     IFruitRating.rating := rating;
                     IFruitRating.review :=
                       match review with
                       | Some _ => review
                       | None => IFruitRating.review existingRating
                       end;
                     IFruitRating.transactionId :=
                       IFruitRating.transactionId existingRating |} in
                (savedRating, <[i := savedRating]> (FruitRating r))
            | None =>
                let newRating :=
                  {| IFruitRating.userId := userId;
                     IFruitRating.fruitId := fruitId';
                     IFruitRating.rating := rating;
                     IFruitRating.review := review;
                     IFruitRating.transactionId := transactionId |} in
                (newRating, FruitRating r ++ [newRating])
            end in
          if validRating rating review then
            let r1 := {| FruitRating := snd saved; Fruit_rating := Fruit_rating r |} in
            let '((averageRating, totalRatings), r2) :=
              updateFruitAverageRating s fruitId' r1 in
            (inr {| RatingResult.rating := fst saved;
                    RatingResult.averageRating := averageRating;
                    RatingResult.totalRatings := totalRatings |},
             r2)
          else (inl (validationMessage (fst saved)), r)
      end
  end.

End RatingService.

(** A completed purchase of the fruit by the user is on record. *)
Definition bought (s : State) (userId fruitId' : string) : Prop :=
  exists t item,
    In t (TransactionHistory s)
    /\ ITransactionHistory.userId t = userId
    /\ ITransactionHistory.status t = COMPLETED
    /\ In item (ITransactionHistory.items t)
    /\ ITransactionItem.fruitId item = fruitId'.

(** No two ratings by one user of one fruit. *)
Definition one_rating_each (r : Ratings) : Prop :=
  NoDup (map (fun x => (IFruitRating.userId x, IFruitRating.fruitId x)) (FruitRating r)).

(** ** Sample ratings

    The state of the sample shop after asha has checked out her cart by
    UPI with the database storage, the transaction that checkout saves,
    and a rating service that takes the first rating as the average and
    counts the code units of ASCII reviews. *)

Definition ashaTransaction : ITransactionHistory.t :=
  {| ITransactionHistory.userId := "asha";
     ITransactionHistory.items :=
       [ {| ITransactionItem.fruitId := "apple";
            ITransactionItem.fruitName := "Apple";
            ITransactionItem.quantity := 2;
            ITransactionItem.pricePerUnit := 10%float;
            ITransactionItem.offerApplied := BUY_1_GET_1_FREE;
            ITransactionItem.freeItemsReceived := 1;
            ITransactionItem.subtotal := 20%float |} ];
     ITransactionHistory.totalAmount := 30%float;
     ITransactionHistory.discountAmount := 10%float;
     ITransactionHistory.finalAmount := 20%float;
     ITransactionHistory.currency := "INR";
     ITransactionHistory.paymentMethod := UPI;
     ITransactionHistory.status := COMPLETED;
     ITransactionHistory.notes := None |}.

Definition shopAfterCheckout : State :=
  {| inMemoryCarts := ∅;
     CartModel := delete "asha" (CartModel shopWithCart);
     Fruit := <["apple" := {| IFruit.name := IFruit.name apple;
                              IFruit.price := IFruit.price apple;
                              IFruit.offerType := IFruit.offerType apple;
                              IFruit.inStock := IFruit.inStock apple;
                              IFruit.stockQuantity := 1 |}]> (Fruit shopWithCart);
     TransactionHistory := [ashaTransaction];
     requests := [POST_notify_order 20%float None] |}.

Definition noRatings : Ratings := {| FruitRating := []; Fruit_rating := ∅ |}.

Definition sampleRateFruit
  : State -> string -> CreateRatingDto.t -> Ratings -> (string + RatingResult.t) * Ratings :=
  rateFruit (fun ratings => hd 0%float ratings) (fun v => v) String.length
    (fun _ => "FruitRating validation failed").

(** ** The service *)

Section CartService.

(** [process.env.NODE_ENV === 'test'] selects the in-memory storage. *)
Variable USE_IN_MEMORY : bool.

(** [String.prototype.toUpperCase]. *)
Variable toUpperCase : string -> string.

Definition getInMemoryCart (userId : string) : M Cart :=
  fun s =>
    match inMemoryCarts s !! userId with
    | Some cart => (inr cart, s)
    | None => (inr emptyCart, set_inMemoryCarts (insert userId emptyCart) s)
    end.

Definition getCart (userId : string) : M Cart :=
  if USE_IN_MEMORY then getInMemoryCart userId
  else
    cart ← gets (fun s => CartModel s !! userId);
    mret (formatCartResponse cart).

Definition addToCart (userId : string) (itemData : AddToCartDto.t) : M Cart :=
  fruit ← gets (fun s => Fruit s !! AddToCartDto.fruitId itemData);
  match fruit with
  | None => throw "Fruit not found"
  | Some fruit =>
      if negb (IFruit.inStock fruit)
         || (IFruit.stockQuantity fruit <? AddToCartDto.quantity itemData)
      then throw "Fruit is out of stock or insufficient quantity available"
      else if USE_IN_MEMORY then
        cart ← getInMemoryCart userId;
        let items := addItem fruit itemData (items cart) in
        let totals := calculateCartTotals items in
        let cart := assignTotals items totals in
        modify (set_inMemoryCarts (insert userId cart));;
        mret cart
      else
        cart ← gets (fun s => CartModel s !! userId);
        let cart := default emptyCart cart in
        let items := addItem fruit itemData (items cart) in
        let totals := calculateCartTotals items in
        let cart := assignTotals items totals in
        modify (set_CartModel (insert userId cart));;
        mret (formatCartResponse (Some cart))
  end.

Definition updateCartItem (userId fruitId' : string)
  (updateData : UpdateCartItemDto.t) : M (option Cart) :=
  if USE_IN_MEMORY then
    cart ← getInMemoryCart userId;
    match findIndex (fun item => String.eqb (fruitId item) fruitId') (items cart) with
    | None => mret None
    | Some itemIndex =>
        let items := setItemQuantity itemIndex updateData (items cart) in
        let totals := calculateCartTotals items in
        let cart := assignTotals items totals in
        modify (set_inMemoryCarts (insert userId cart));;
        mret (Some cart)
    end
  else
    cart ← gets (fun s => CartModel s !! userId);
    match cart with
    | None => mret None
    | Some cart =>
        match findIndex (fun item => String.eqb (fruitId item) fruitId') (items cart) with
        | None => mret None
        | Some itemIndex =>
            let items := setItemQuantity itemIndex updateData (items cart) in
            let totals := calculateCartTotals items in
            let cart := assignTotals items totals in
            modify (set_CartModel (insert userId cart));;
            mret (Some (formatCartResponse (Some cart)))
        end
    end.

Definition removeFromCart (userId fruitId' : string) : M (option Cart) :=
  if USE_IN_MEMORY then
    cart ← getInMemoryCart userId;
    match findIndex (fun item => String.eqb (fruitId item) fruitId') (items cart) with
    | None => mret None
    | Some itemIndex =>
        let items := delete itemIndex (items cart) in
        let totals := calculateCartTotals items in
        let cart := assignTotals items totals in
        modify (set_inMemoryCarts (insert userId cart));;
        mret (Some cart)
    end
  else
    cart ← gets (fun s => CartModel s !! userId);
    match cart with
    | None => mret None
    | Some cart =>
        match findIndex (fun item => String.eqb (fruitId item) fruitId') (items cart) with
        | None => mret None
        | Some itemIndex =>
            let items := delete itemIndex (items cart) in
            let totals := calculateCartTotals items in
            let cart := assignTotals items totals in
            modify (set_CartModel (insert userId cart));;
            mret (Some (formatCartResponse (Some cart)))
        end
    end.

Definition clearCart (userId : string) : M Cart :=
  if USE_IN_MEMORY then
    modify (set_inMemoryCarts (delete userId));;
    mret emptyCart
  else
    modify (set_CartModel (delete userId));;
    mret emptyCart.

(** The first step of [checkout]: the cart the checkout works on. *)
Definition loadCartData (userId : string) : M Cart :=
  if USE_IN_MEMORY then getInMemoryCart userId
  else
    cart ← gets (fun s => CartModel s !! userId);
    match cart with
    | None => throw "Cart is empty"
    | Some cart =>
        if (length (items cart) =? 0)%nat then throw "Cart is empty"
        else
          let totals := calculateCartTotals (items cart) in
          let cart := assignTotals (items cart) totals in
          mret (formatCartResponse (Some cart))
    end.

(** The wallet step of [checkout], a [try] block with its handler. *)
Definition payFromWallet (auth : AuthService) (cartData : Cart)
  (authHeader : option string) : M unit :=
  try_catch
    (userBalance ← axios_get_profile auth authHeader;
     if PrimFloat.ltb userBalance (finalPrice cartData)
     then throw "Insufficient wallet balance"
     else axios_post_deduct_balance auth (finalPrice cartData) authHeader)
    (fun errorMessage => throw ("Wallet payment failed: " +:+ errorMessage)).

Definition transactionItem (item : CartItem) : ITransactionItem.t :=
  {| ITransactionItem.fruitId := fruitId item;
     ITransactionItem.fruitName := name item;
     ITransactionItem.quantity := quantity item;
     ITransactionItem.pricePerUnit := price item;
     ITransactionItem.offerApplied := offerType item;
     ITransactionItem.freeItemsReceived := freeItems item;
     ITransactionItem.subtotal := PrimFloat.mul (price item) (Z2F (quantity item)) |}.

(** [new TransactionHistory({...})] with status COMPLETED. *)
Definition newTransaction (userId : string) (cartData : Cart)
  (paymentMethod : PaymentMethod) (checkoutData : CheckoutDto.t)
  : ITransactionHistory.t :=
  let transactionItems := map transactionItem (items cartData) in
  {| ITransactionHistory.userId := userId;
     ITransactionHistory.items := transactionItems;
     ITransactionHistory.totalAmount := totalPrice cartData;
     ITransactionHistory.discountAmount := discountAmount cartData;
     ITransactionHistory.finalAmount := finalPrice cartData;
     ITransactionHistory.currency := "INR";
     ITransactionHistory.paymentMethod := paymentMethod;
     ITransactionHistory.status := COMPLETED;
     ITransactionHistory.notes := CheckoutDto.notes checkoutData |}.

(** The body of the stock loop: a failed update is swallowed. *)
Definition lowerStock (item : CartItem) : M unit :=
  try_catch
    (Fruit_inc_stockQuantity (fruitId item) (- (quantity item + freeItems item)))
    (fun _ => mret tt).

(** The notification: a failure is swallowed. *)
Definition notify (auth : AuthService) (amount : float)
  (authHeader : option string) : M unit :=
  try_catch (axios_post_notify_order auth amount authHeader) (fun _ => mret tt).

(** Steps 4 to 8 of [checkout]: build and save the transaction, lower
    the stock, notify, delete the cart, answer the transaction.  The
    query that re-reads the saved transaction is the last document of
    the collection. *)
Definition settle (auth : AuthService) (userId : string)
  (checkoutData : CheckoutDto.t) (authHeader : option string)
  (cartData : Cart) (paymentMethod : PaymentMethod) : M ITransactionHistory.t :=
  let transaction := newTransaction userId cartData paymentMethod checkoutData in
  savedTransaction ←
    (if USE_IN_MEMORY then mret transaction
     else
       modify (set_TransactionHistory (fun docs => docs ++ [transaction]));;
       mret transaction);
  forEach lowerStock (items cartData);;
  notify auth (ITransactionHistory.finalAmount savedTransaction) authHeader;;
  if USE_IN_MEMORY then
    modify (set_inMemoryCarts (delete userId));;
    mret savedTransaction
  else
    modify (set_CartModel (delete userId));;
    result ← gets (fun s => last (TransactionHistory s));
    match result with
    | None => throw "Failed to retrieve transaction details"
    | Some result => mret result
    end.

Definition checkout (auth : AuthService) (userId : string)
  (checkoutData : CheckoutDto.t) (authHeader : option string)
  : M ITransactionHistory.t :=
  cartData ← loadCartData userId;
  if (length (items cartData) =? 0)%nat then throw "Cart is empty"
  else
    match PaymentMethod_of_string (toUpperCase (CheckoutDto.paymentMethod checkoutData)) with
    | None => throw "Invalid payment method"
    | Some paymentMethod =>
        (if decide (paymentMethod = WALLET)
         then payFromWallet auth cartData authHeader
         else mret tt);;
        settle auth userId checkoutData authHeader cartData paymentMethod
    end.

(** What [getCart] answers in state [s]. *)
Definition viewCart (s : State) (userId : string) : Cart :=
  if USE_IN_MEMORY then default emptyCart (inMemoryCarts s !! userId)
  else formatCartResponse (CartModel s !! userId).

(** ** Sequences of mutations *)

Inductive Mutation : Type :=
  | Add (userId : string) (itemData : AddToCartDto.t)
  | Update (userId fruitId' : string) (updateData : UpdateCartItemDto.t)
  | Remove (userId fruitId' : string).

Definition mutate (m : Mutation) : M (option Cart) :=
  match m with
  | Add userId itemData => cart ← addToCart userId itemData; mret (Some cart)
  | Update userId fruitId' updateData => updateCartItem userId fruitId' updateData
  | Remove userId fruitId' => removeFromCart userId fruitId'
  end.

(** The state after the mutations [ms], run in order; a mutation that
    throws or answers [null] leaves the state as it left it. *)
Fixpoint run (ms : list Mutation) (s : State) : State :=
  match ms with
  | [] => s
  | m :: ms' => run ms' (snd (mutate m s))
  end.

(** ** Outcomes of a mutation *)

(** The cart that a mutation writes: the lines with their recomputed
    totals. *)
Definition withTotals (items : list CartItem) : Cart :=
  assignTotals items (calculateCartTotals items).

(** [inMemoryCarts.set(userId, cart)], or [cart.save()]. *)
Definition storeCart (userId : string) (cart : Cart) (s : State) : State :=
  if USE_IN_MEMORY then set_inMemoryCarts (insert userId cart) s
  else set_CartModel (insert userId cart) s.

(** The stored cart record of a user, if any. *)
Definition storedCart (s : State) (userId : string) : option Cart :=
  if USE_IN_MEMORY then inMemoryCarts s !! userId else CartModel s !! userId.

(** A line with its paid/free pair replaced. *)
Definition withSplit (line : CartItem) (pf : PaidFree) : CartItem :=
  {| fruitId := fruitId line;
     name := name line;
     price := price line;
     quantity := paid pf;
     offerType := offerType line;
     freeItems := free pf |}.

(** The lines a mutation starts from. *)
Definition currentItems (s : State) (userId : string) : list CartItem :=
  items (default emptyCart (storedCart s userId)).

(** The test a line of the fruit [fruitId'] passes in [findIndex]. *)
Definition isFruit (fruitId' : string) (item : CartItem) : bool :=
  String.eqb (fruitId item) fruitId'.

(** The cart a [checkout] works on when the user's cart has lines: the
    live cart of the in-memory storage, or the stored document with its
    totals recomputed. *)
Definition cartDataOf (s : State) (userId : string) : Cart :=
  if USE_IN_MEMORY then default emptyCart (inMemoryCarts s !! userId)
  else withTotals (currentItems s userId).

(** What a failed or read-only step may change: nothing that a user,
    the catalog, the transactions or the auth service can observe. *)
Definition same_observables (s s' : State) : Prop :=
  (forall u, viewCart s' u = viewCart s u)
  /\ CartModel s' = CartModel s
  /\ Fruit s' = Fruit s
  /\ TransactionHistory s' = TransactionHistory s
  /\ requests s' = requests s.

(** A transaction entry prices the paid quantity of its line and records
    the free quantity. *)
Definition entry_of_line (line : CartItem) (entry : ITransactionItem.t) : Prop :=
  ITransactionItem.quantity entry = quantity line
  /\ ITransactionItem.pricePerUnit entry = price line
  /\ ITransactionItem.freeItemsReceived entry = freeItems line
  /\ ITransactionItem.subtotal entry = PrimFloat.mul (price line) (Z2F (quantity line)).

Definition userOf (m : Mutation) : string :=
  match m with
  | Add userId _ => userId
  | Update userId _ _ => userId
  | Remove userId _ => userId
  end.

(** A mutation throws and leaves the state alone, or answers [null] -
    where the in-memory storage may have created the user's empty cart
    on the way - or stores a cart with recomputed totals and answers
    it. *)
Inductive mutation_outcome (userId : string) (s : State)
  : (string + option Cart) * State -> Prop :=
  | outcome_throw (message : string) :
      mutation_outcome userId s (inl message, s)
  | outcome_null :
      mutation_outcome userId s (inr None, s)
  | outcome_null_created :
      USE_IN_MEMORY = true ->
      inMemoryCarts s !! userId = None ->
      mutation_outcome userId s
        (inr None, set_inMemoryCarts (insert userId emptyCart) s)
  | outcome_stored (items : list CartItem) :
      mutation_outcome userId s
        (inr (Some (withTotals items)), storeCart userId (withTotals items) s).

(** ** The rest of the service *)

(** [clearAllCarts], for tests. *)
Definition clearAllCarts : M unit :=
  if USE_IN_MEMORY then modify (set_inMemoryCarts (fun _ => ∅))
  else modify (set_CartModel (fun _ => ∅)).

(** [TransactionHistory.find({ userId }).sort({ createdAt: -1 })].  The
    collection lists its documents in the order they were saved, so the
    newest come first in the reversed list. *)
Definition getTransactionHistory (userId : string) : M (list ITransactionHistory.t) :=
  gets (fun s =>
          reverse (filter (fun t => ITransactionHistory.userId t = userId)
                     (TransactionHistory s))).

(** ** Properties of carts kept by the mutations *)

(** A property that holds of every stored cart, in either storage. *)
Definition every_cart (P : Cart -> Prop) (s : State) : Prop :=
  map_Forall (fun _ cart => P cart) (inMemoryCarts s)
  /\ map_Forall (fun _ cart => P cart) (CartModel s).

(** At most one line per fruit. *)
Definition unique_fruits (cart : Cart) : Prop :=
  NoDup (map fruitId (items cart)).

(** Every line pays for at least one unit and has no negative count. *)
Definition lines_positive (cart : Cart) : Prop :=
  Forall (fun line => 1 <= quantity line /\ 0 <= freeItems line) (items cart).

(** A mutation that does not add a non-positive quantity. *)
Definition adds_positive (m : Mutation) : Prop :=
  match m with
  | Add _ itemData => 0 < AddToCartDto.quantity itemData
  | _ => True
  end.

(** ** What a checkout leaves behind *)

(** A fruit document with another stock quantity. *)
Definition withStock (fruit : IFruit.t) (stockQuantity : Z) : IFruit.t :=
  {| IFruit.name := IFruit.name fruit;
     IFruit.price := IFruit.price fruit;
     IFruit.offerType := IFruit.offerType fruit;
     IFruit.inStock := IFruit.inStock fruit;
     IFruit.stockQuantity := stockQuantity |}.

(** The catalog after the stock loop has run over the lines. *)
Definition lowered (items : list CartItem) (catalog : gmap string IFruit.t)
  : gmap string IFruit.t :=
  fold_left
    (fun catalog item =>
       alter
         (fun fruit =>
            withStock fruit
              (IFruit.stockQuantity fruit + - (quantity item + freeItems item)))
         (fruitId item) catalog)
    items catalog.

(** The units, paid and free, that the lines hold of one fruit. *)
Definition unitsOf (id : string) (items : list CartItem) : Z :=
  sumZ (map (fun line => quantity line + freeItems line)
          (filter (fun line => fruitId line = id) items)).

(** The requests of the wallet step when it goes through. *)
Definition walletRequests (paymentMethod : PaymentMethod) (amount : float)
  (authHeader : option string) : list Request :=
  if decide (paymentMethod = WALLET)
  then [GET_profile authHeader; POST_deduct_balance amount authHeader]
  else [].

(** The auth service with another answer to the notification. *)
Definition withNotify (auth : AuthService) (answer : float -> string + unit)
  : AuthService :=
  {| profile_walletBalance := profile_walletBalance auth;
     deduct_balance := deduct_balance auth;
     notify_order := answer |}.

(** ** Facts about the integer arithmetic *)

Lemma ceil_div_spec_ceil (a b : Z) :
  0 < b -> Math.ceil_div a b = spec_ceil a b.
Proof.
  intros Hb. unfold Math.ceil_div, spec_ceil.
  destruct (Z.eqb_spec (a mod b) 0) as [H0 | Hn].
  - rewrite Z.div_opp_l_z by lia. lia.
  - rewrite Z.div_opp_l_nz by lia. lia.
Qed.

Lemma ceil_div_bounds (a b : Z) :
  0 < b -> a <= b * Math.ceil_div a b < a + b.
Proof.
  intros Hb. unfold Math.ceil_div.
  pose proof (Z.div_mod (- a) b ltac:(lia)) as Hdm.
  pose proof (Z.mod_pos_bound (- a) b Hb) as Hm.
  nia.
Qed.

Lemma rem2_nonneg (n : Z) : 0 <= n -> Math.rem n 2 = n mod 2.
Proof. intros Hn. unfold Math.rem. apply Z.rem_mod_nonneg; lia. Qed.

Lemma half_parts (n : Z) : 0 <= n -> 0 <= n / 2 /\ 0 <= n mod 2 < 2 /\ n = 2 * (n / 2) + n mod 2.
Proof.
  intros Hn. split; [apply Z.div_pos; lia|].
  split; [apply Z.mod_pos_bound; lia|]. apply Z.div_mod; lia.
Qed.

(** ** The resolver's contract *)

Lemma resolver_split (totalQuantity : Z) (offerType : OfferType) :
  0 <= totalQuantity ->
  paid (calculatePaidAndFree totalQuantity offerType)
    + free (calculatePaidAndFree totalQuantity offerType) = totalQuantity
  /\ 0 <= paid (calculatePaidAndFree totalQuantity offerType)
  /\ 0 <= free (calculatePaidAndFree totalQuantity offerType).
Proof.
  intros Hn. unfold calculatePaidAndFree.
  destruct (Z.leb_spec totalQuantity 0) as [H0 | Hpos]; [simpl; lia|].
  destruct offerType; simpl.
  - lia.
  - rewrite rem2_nonneg by lia. unfold Math.floor_div.
    pose proof (half_parts totalQuantity Hn). lia.
  - destruct (Z.leb_spec totalQuantity 5); simpl; unfold Math.min; [lia|].
    pose proof (ceil_div_bounds (totalQuantity - 5) 5 ltac:(lia)). lia.
  - destruct (Z.leb_spec totalQuantity 8); simpl; unfold Math.min; [lia|].
    pose proof (ceil_div_bounds (totalQuantity - 8) 8 ltac:(lia)). lia.
Qed.

Lemma resolver_nothing (totalQuantity : Z) (offerType : OfferType) :
  totalQuantity <= 0 ->
  calculatePaidAndFree totalQuantity offerType = {| paid := 0; free := 0 |}.
Proof.
  intros Hn. unfold calculatePaidAndFree.
  destruct (Z.leb_spec totalQuantity 0); [reflexivity | lia].
Qed.

(** C1. For every non-negative integer [totalQuantity] and every tier the
    resolver returns a pair with [paid + free = totalQuantity],
    [paid >= 0] and [free >= 0]; for [totalQuantity <= 0] it returns
    [(0, 0)]. *)
Theorem calculatePaidAndFree_contract (totalQuantity : Z) (offerType : OfferType) :
  (0 <= totalQuantity ->
     paid (calculatePaidAndFree totalQuantity offerType)
       + free (calculatePaidAndFree totalQuantity offerType) = totalQuantity
     /\ 0 <= paid (calculatePaidAndFree totalQuantity offerType)
     /\ 0 <= free (calculatePaidAndFree totalQuantity offerType))
  /\ (totalQuantity <= 0 ->
        calculatePaidAndFree totalQuantity offerType = {| paid := 0; free := 0 |}).
Proof. split; [apply resolver_split | apply resolver_nothing]. Qed.

Lemma calculatePaidAndFree_contract_witness :
  (paid (calculatePaidAndFree 11 BUY_2_GET_3_FREE)
     + free (calculatePaidAndFree 11 BUY_2_GET_3_FREE) = 11
   /\ 0 <= paid (calculatePaidAndFree 11 BUY_2_GET_3_FREE)
   /\ 0 <= free (calculatePaidAndFree 11 BUY_2_GET_3_FREE))
  /\ calculatePaidAndFree 0 BUY_3_GET_5_FREE = {| paid := 0; free := 0 |}.
Proof.
  split.
  - apply (proj1 (calculatePaidAndFree_contract 11 BUY_2_GET_3_FREE)). lia.
  - apply (proj2 (calculatePaidAndFree_contract 0 BUY_3_GET_5_FREE)). lia.
Defined.

(** ** The worked values and the general policy *)

Ltac split_resolver :=
  unfold calculatePaidAndFree, spec_policy, Math.min, Math.floor_div;
  repeat match goal with
         | |- context [?a <=? ?b] => destruct (Z.leb_spec a b); try lia
         end;
  cbv zeta.

Ltac resolver_range :=
  intros; split_resolver;
  try match goal with
      | |- context [Math.ceil_div ?a ?b] =>
          pose proof (ceil_div_bounds a b ltac:(lia))
      end;
  f_equal; lia.

Lemma policy_BUY_2_GET_3_FREE (totalQuantity : Z) :
  0 <= totalQuantity ->
  calculatePaidAndFree totalQuantity BUY_2_GET_3_FREE = spec_policy 5 2 totalQuantity.
Proof.
  intros Hn. split_resolver; try reflexivity.
  - replace totalQuantity with 0 by lia. reflexivity.
  - rewrite ceil_div_spec_ceil by lia. reflexivity.
Qed.

Lemma policy_BUY_3_GET_5_FREE (totalQuantity : Z) :
  0 <= totalQuantity ->
  calculatePaidAndFree totalQuantity BUY_3_GET_5_FREE = spec_policy 8 3 totalQuantity.
Proof.
  intros Hn. split_resolver; try reflexivity.
  - replace totalQuantity with 0 by lia. reflexivity.
  - rewrite ceil_div_spec_ceil by lia. reflexivity.
Qed.

(** C2. The resolver returns the tabulated splits: under
    BUY_1_GET_1_FREE 1->(1,0), 2->(1,1), 3->(2,1), 4->(2,2), 5->(3,2);
    under BUY_2_GET_3_FREE 1->(1,0), 2->(2,0), 3..5->(2, qty-2),
    6->(3,3), 7..10->(3, qty-3), 11->(4,7); under BUY_3_GET_5_FREE
    1..3->(qty,0), 4..8->(3, qty-3), 9..16->(4, qty-4),
    17..24->(5, qty-5).  For the two larger tiers the general policy
    holds at every total quantity of the resolver's domain, the
    non-negative integers: paid = min(totalQuantity, F) when
    totalQuantity <= C, else paid = F + ceil((totalQuantity - C) / C),
    and free = totalQuantity - paid, with C = 5, F = 2 and C = 8,
    F = 3. *)
Theorem calculatePaidAndFree_worked_values :
  (calculatePaidAndFree 1 BUY_1_GET_1_FREE = {| paid := 1; free := 0 |}
   /\ calculatePaidAndFree 2 BUY_1_GET_1_FREE = {| paid := 1; free := 1 |}
   /\ calculatePaidAndFree 3 BUY_1_GET_1_FREE = {| paid := 2; free := 1 |}
   /\ calculatePaidAndFree 4 BUY_1_GET_1_FREE = {| paid := 2; free := 2 |}
   /\ calculatePaidAndFree 5 BUY_1_GET_1_FREE = {| paid := 3; free := 2 |})
  /\ (calculatePaidAndFree 1 BUY_2_GET_3_FREE = {| paid := 1; free := 0 |}
      /\ calculatePaidAndFree 2 BUY_2_GET_3_FREE = {| paid := 2; free := 0 |}
      /\ (forall qty, 3 <= qty <= 5 ->
            calculatePaidAndFree qty BUY_2_GET_3_FREE = {| paid := 2; free := qty - 2 |})
      /\ calculatePaidAndFree 6 BUY_2_GET_3_FREE = {| paid := 3; free := 3 |}
      /\ (forall qty, 7 <= qty <= 10 ->
            calculatePaidAndFree qty BUY_2_GET_3_FREE = {| paid := 3; free := qty - 3 |})
      /\ calculatePaidAndFree 11 BUY_2_GET_3_FREE = {| paid := 4; free := 7 |})
  /\ ((forall qty, 1 <= qty <= 3 ->
         calculatePaidAndFree qty BUY_3_GET_5_FREE = {| paid := qty; free := 0 |})
      /\ (forall qty, 4 <= qty <= 8 ->
            calculatePaidAndFree qty BUY_3_GET_5_FREE = {| paid := 3; free := qty - 3 |})
      /\ (forall qty, 9 <= qty <= 16 ->
            calculatePaidAndFree qty BUY_3_GET_5_FREE = {| paid := 4; free := qty - 4 |})
      /\ (forall qty, 17 <= qty <= 24 ->
            calculatePaidAndFree qty BUY_3_GET_5_FREE = {| paid := 5; free := qty - 5 |}))
  /\ (forall totalQuantity, 0 <= totalQuantity ->
        calculatePaidAndFree totalQuantity BUY_2_GET_3_FREE = spec_policy 5 2 totalQuantity)
  /\ (forall totalQuantity, 0 <= totalQuantity ->
        calculatePaidAndFree totalQuantity BUY_3_GET_5_FREE = spec_policy 8 3 totalQuantity).
Proof.
  split; [repeat split; reflexivity|].
  split; [repeat split; try reflexivity; resolver_range|].
  split; [repeat split; resolver_range|].
  split; [exact policy_BUY_2_GET_3_FREE | exact policy_BUY_3_GET_5_FREE].
Qed.

(** ** The special case is the general policy at C = 2, F = 1 *)

Lemma uniform2_is_policy (totalQuantity : Z) :
  0 <= totalQuantity -> spec_uniform2 totalQuantity = spec_policy 2 1 totalQuantity.
Proof.
  intros Hn. unfold spec_uniform2, spec_policy, spec_ceil.
  pose proof (half_parts totalQuantity Hn) as (Hq & Hr & Hqr).
  destruct (Z.leb_spec totalQuantity 2) as [Hle | Hgt]; cbv zeta.
  - assert (Hc : totalQuantity = 0 \/ totalQuantity = 1 \/ totalQuantity = 2) by lia.
    destruct Hc as [-> | [-> | ->]]; reflexivity.
  - replace (totalQuantity - 2) with (totalQuantity + (-1) * 2) by lia.
    rewrite Z.div_add, Z.mod_add by lia.
    destruct (Z.eqb_spec (totalQuantity mod 2) 0); f_equal; lia.
Qed.

(** C3. For every non-negative integer [totalQuantity] the special-cased
    BUY_1_GET_1_FREE formula, paid = floor(totalQuantity / 2)
    + totalQuantity mod 2 and free = totalQuantity - paid, which is what
    the resolver computes, gives the same pair as the general
    first-cycle/steady-state policy with firstPaid F = 1 and first-cycle
    total C = 2. *)
Theorem BUY_1_GET_1_FREE_is_general_policy (totalQuantity : Z) :
  0 <= totalQuantity ->
  calculatePaidAndFree totalQuantity BUY_1_GET_1_FREE = spec_uniform2 totalQuantity
  /\ spec_uniform2 totalQuantity = spec_policy 2 1 totalQuantity.
Proof.
  intros Hn. split; [|apply uniform2_is_policy; exact Hn].
  unfold calculatePaidAndFree, spec_uniform2, Math.floor_div.
  destruct (Z.leb_spec totalQuantity 0) as [H0 | Hpos].
  - replace totalQuantity with 0 by lia. reflexivity.
  - cbv zeta. rewrite rem2_nonneg by lia. f_equal; lia.
Qed.

Lemma calculatePaidAndFree_worked_values_witness :
  calculatePaidAndFree 4 BUY_2_GET_3_FREE = {| paid := 2; free := 4 - 2 |}
  /\ calculatePaidAndFree 13 BUY_3_GET_5_FREE = {| paid := 4; free := 13 - 4 |}
  /\ calculatePaidAndFree 23 BUY_2_GET_3_FREE = spec_policy 5 2 23.
Proof.
  destruct calculatePaidAndFree_worked_values as (_ & Hb2 & Hb3 & Hp2 & _).
  split; [apply Hb2; lia|].
  split; [apply Hb3; lia|].
  apply Hp2; lia.
Defined.

Lemma BUY_1_GET_1_FREE_is_general_policy_witness :
  calculatePaidAndFree 7 BUY_1_GET_1_FREE = spec_uniform2 7
  /\ spec_uniform2 7 = spec_policy 2 1 7.
Proof. apply (BUY_1_GET_1_FREE_is_general_policy 7). lia. Defined.

(** ** Binary64 facts *)

Lemma SFmul_comm (x y : spec_float) : SFmul prec emax x y = SFmul prec emax y x.
Proof.
  destruct x as [sx | sx | | sx mx ex], y as [sy | sy | | sy my ey]; simpl;
    try reflexivity; rewrite (xorb_comm sx sy); try reflexivity.
  rewrite (Pos.mul_comm mx my), (Z.add_comm ex ey). reflexivity.
Qed.

Lemma float_mul_comm (x y : float) : PrimFloat.mul x y = PrimFloat.mul y x.
Proof. apply Prim2SF_inj. rewrite !FloatAxioms.mul_spec. apply SFmul_comm. Qed.

(** ** Totals are the sums over the lines *)

Lemma fold_left_pointwise {A B : Type} (f g : A -> B -> A) (l : list B) (a : A) :
  (forall a x, f a x = g a x) -> fold_left f l a = fold_left g l a.
Proof.
  intros Hfg. revert a. induction l as [| x l IH]; intros a; simpl.
  - reflexivity.
  - rewrite Hfg. apply IH.
Qed.

Lemma fold_left_sumZ (g : CartItem -> Z) (l : list CartItem) (a : Z) :
  fold_left (fun sum item => sum + g item) l a = a + sumZ (map g l).
Proof.
  revert a. induction l as [| x l IH]; intros a; simpl.
  - lia.
  - rewrite IH. unfold sumZ. simpl. lia.
Qed.

Lemma fold_left_sumF (g : CartItem -> float) (l : list CartItem) (a : float) :
  fold_left (fun sum item => PrimFloat.add sum (g item)) l a
  = fold_left PrimFloat.add (map g l) a.
Proof.
  revert a. induction l as [| x l IH]; intros a; simpl; [reflexivity | apply IH].
Qed.

Lemma calculateDiscount_sum (l : list CartItem) :
  calculateDiscount l = sumF (map freeValue l).
Proof.
  unfold calculateDiscount, sumF. rewrite <- fold_left_sumF.
  apply fold_left_pointwise. intros discount item. cbv zeta.
  unfold freeValue. rewrite float_mul_comm. reflexivity.
Qed.

Lemma withTotals_invariant (l : list CartItem) : totals_invariant (withTotals l).
Proof.
  unfold withTotals, assignTotals, calculateCartTotals. cbv zeta.
  split; simpl.
  - rewrite (fold_left_pointwise _ (fun sum item => sum + (quantity item + freeItems item)))
      by (intros; lia).
    rewrite (fold_left_sumZ (fun item => quantity item + freeItems item)). lia.
  - rewrite (fold_left_sumF grossValue). reflexivity.
  - rewrite calculateDiscount_sum. reflexivity.
  - rewrite (fold_left_sumF grossValue), calculateDiscount_sum. reflexivity.
Qed.

(** ** The storage paths *)

Ltac unfold_M :=
  unfold mbind, M_bind, mret, M_ret, gets, modify, throw, try_catch.

Lemma formatCartResponse_Some (cart : Cart) : formatCartResponse (Some cart) = cart.
Proof.
  destruct cart as [l ti tp da fp]. unfold formatCartResponse. simpl. f_equal.
  induction l as [| [f n p q o fr] l IH]; simpl; [reflexivity | now rewrite IH].
Qed.

Lemma emptyCart_invariant : totals_invariant emptyCart.
Proof. split; reflexivity. Qed.

Lemma getInMemoryCart_eq (userId : string) (s : State) :
  getInMemoryCart userId s =
    (inr (default emptyCart (inMemoryCarts s !! userId)),
     match inMemoryCarts s !! userId with
     | Some _ => s
     | None => set_inMemoryCarts (insert userId emptyCart) s
     end).
Proof. unfold getInMemoryCart. destruct (inMemoryCarts s !! userId); reflexivity. Qed.

Lemma set_inMemoryCarts_insert_insert (userId : string) (c c' : Cart) (s : State) :
  set_inMemoryCarts (insert userId c) (set_inMemoryCarts (insert userId c') s)
  = set_inMemoryCarts (insert userId c) s.
Proof. unfold set_inMemoryCarts. simpl. now rewrite insert_insert_eq. Qed.

Lemma store_after_getInMemoryCart (userId : string) (c : Cart) (s : State) :
  set_inMemoryCarts (insert userId c)
    (match inMemoryCarts s !! userId with
     | Some _ => s
     | None => set_inMemoryCarts (insert userId emptyCart) s
     end)
  = set_inMemoryCarts (insert userId c) s.
Proof.
  destruct (inMemoryCarts s !! userId); [reflexivity|].
  apply set_inMemoryCarts_insert_insert.
Qed.

(** ** What each mutation does *)

Lemma addToCart_found (userId : string) (itemData : AddToCartDto.t) (s : State)
  (fruit : IFruit.t) :
  Fruit s !! AddToCartDto.fruitId itemData = Some fruit ->
  IFruit.inStock fruit = true ->
  AddToCartDto.quantity itemData <= IFruit.stockQuantity fruit ->
  addToCart userId itemData s =
    (inr (withTotals (addItem fruit itemData (currentItems s userId))),
     storeCart userId
       (withTotals (addItem fruit itemData (currentItems s userId))) s).
Proof.
  intros Hf Hin Hq. unfold addToCart, currentItems, storedCart, storeCart. unfold_M.
  rewrite Hf, Hin. cbn [negb orb].
  destruct (Z.ltb_spec (IFruit.stockQuantity fruit) (AddToCartDto.quantity itemData));
    [lia|].
  destruct USE_IN_MEMORY.
  - rewrite getInMemoryCart_eq. fold (withTotals
      (addItem fruit itemData (items (default emptyCart (inMemoryCarts s !! userId))))).
    rewrite store_after_getInMemoryCart. reflexivity.
  - fold (withTotals
      (addItem fruit itemData (items (default emptyCart (CartModel s !! userId))))).
    rewrite formatCartResponse_Some. reflexivity.
Qed.

Lemma addToCart_throws (userId : string) (itemData : AddToCartDto.t) (s : State) :
  match Fruit s !! AddToCartDto.fruitId itemData with
  | None => True
  | Some fruit =>
      IFruit.inStock fruit = false
      \/ IFruit.stockQuantity fruit < AddToCartDto.quantity itemData
  end ->
  exists message, addToCart userId itemData s = (inl message, s).
Proof.
  intros H. unfold addToCart. unfold_M.
  destruct (Fruit s !! AddToCartDto.fruitId itemData) as [fruit|]; [|eauto].
  destruct (IFruit.inStock fruit); simpl.
  - destruct (Z.ltb_spec (IFruit.stockQuantity fruit) (AddToCartDto.quantity itemData));
      [eauto|]. destruct H; [discriminate | lia].
  - eauto.
Qed.

Lemma updateCartItem_found (userId fruitId' : string)
  (updateData : UpdateCartItemDto.t) (s : State) (cart : Cart) (itemIndex : nat) :
  storedCart s userId = Some cart ->
  findIndex (isFruit fruitId') (items cart) = Some itemIndex ->
  updateCartItem userId fruitId' updateData s =
    (inr (Some (withTotals (setItemQuantity itemIndex updateData (items cart)))),
     storeCart userId
       (withTotals (setItemQuantity itemIndex updateData (items cart))) s).
Proof.
  unfold storedCart, storeCart, updateCartItem, isFruit. unfold_M.
  intros Hc Hi. destruct USE_IN_MEMORY.
  - rewrite getInMemoryCart_eq, Hc. simpl. rewrite Hi. reflexivity.
  - rewrite Hc, Hi.
    fold (withTotals (setItemQuantity itemIndex updateData (items cart))).
    rewrite formatCartResponse_Some. reflexivity.
Qed.

Lemma updateCartItem_absent (userId fruitId' : string)
  (updateData : UpdateCartItemDto.t) (s : State) :
  findIndex (isFruit fruitId') (currentItems s userId) = None ->
  updateCartItem userId fruitId' updateData s =
    (inr None,
     if USE_IN_MEMORY then
       match inMemoryCarts s !! userId with
       | Some _ => s
       | None => set_inMemoryCarts (insert userId emptyCart) s
       end
     else s).
Proof.
  unfold currentItems, storedCart, updateCartItem, isFruit. unfold_M.
  intros Hi. destruct USE_IN_MEMORY.
  - rewrite getInMemoryCart_eq. rewrite Hi. reflexivity.
  - destruct (CartModel s !! userId) as [cart|]; [|reflexivity].
    simpl in Hi. rewrite Hi. reflexivity.
Qed.

Lemma removeFromCart_found (userId fruitId' : string) (s : State) (cart : Cart)
  (itemIndex : nat) :
  storedCart s userId = Some cart ->
  findIndex (isFruit fruitId') (items cart) = Some itemIndex ->
  removeFromCart userId fruitId' s =
    (inr (Some (withTotals (delete itemIndex (items cart)))),
     storeCart userId (withTotals (delete itemIndex (items cart))) s).
Proof.
  unfold storedCart, storeCart, removeFromCart, isFruit. unfold_M.
  intros Hc Hi. destruct USE_IN_MEMORY.
  - rewrite getInMemoryCart_eq, Hc. simpl. rewrite Hi. reflexivity.
  - rewrite Hc, Hi. fold (withTotals (delete itemIndex (items cart))).
    rewrite formatCartResponse_Some. reflexivity.
Qed.

Lemma removeFromCart_absent (userId fruitId' : string) (s : State) :
  findIndex (isFruit fruitId') (currentItems s userId) = None ->
  removeFromCart userId fruitId' s =
    (inr None,
     if USE_IN_MEMORY then
       match inMemoryCarts s !! userId with
       | Some _ => s
       | None => set_inMemoryCarts (insert userId emptyCart) s
       end
     else s).
Proof.
  unfold currentItems, storedCart, removeFromCart, isFruit. unfold_M.
  intros Hi. destruct USE_IN_MEMORY.
  - rewrite getInMemoryCart_eq. rewrite Hi. reflexivity.
  - destruct (CartModel s !! userId) as [cart|]; [|reflexivity].
    simpl in Hi. rewrite Hi. reflexivity.
Qed.

(** ** Lines found by [findIndex] *)

Lemma findIndex_Some {A : Type} (p : A -> bool) (l : list A) (i : nat) :
  findIndex p l = Some i -> exists x, l !! i = Some x /\ p x = true.
Proof.
  revert i. induction l as [| y l IH]; intros i; simpl; [discriminate|].
  destruct (p y) eqn:Hp.
  - intros [= <-]. exists y. split; [reflexivity | exact Hp].
  - destruct (findIndex p l) as [j|]; simpl; [|discriminate].
    intros [= <-]. destruct (IH j eq_refl) as (x & Hx & Hpx). exists x. auto.
Qed.


Lemma stored_of_found (s : State) (userId fruitId' : string) (i : nat) :
  findIndex (isFruit fruitId') (currentItems s userId) = Some i ->
  exists cart, storedCart s userId = Some cart /\ items cart = currentItems s userId.
Proof.
  unfold currentItems. destruct (storedCart s userId) as [cart|]; simpl.
  - eauto.
  - discriminate.
Qed.

(** ** Every mutation ends in one of the outcomes *)

Lemma mutate_outcome (m : Mutation) (s : State) :
  mutation_outcome (userOf m) s (mutate m s).
Proof.
  destruct m as [userId itemData | userId fruitId' updateData | userId fruitId']; simpl.
  - unfold mbind, M_bind, mret, M_ret.
    destruct (Fruit s !! AddToCartDto.fruitId itemData) as [fruit|] eqn:Hf.
    + destruct (IFruit.inStock fruit) eqn:Hin.
      * destruct (Z.ltb_spec (IFruit.stockQuantity fruit) (AddToCartDto.quantity itemData)).
        -- destruct (addToCart_throws userId itemData s) as [message ->];
             [rewrite Hf; auto | constructor].
        -- rewrite (addToCart_found userId itemData s fruit) by assumption.
           constructor.
      * destruct (addToCart_throws userId itemData s) as [message ->];
          [rewrite Hf; auto | constructor].
    + destruct (addToCart_throws userId itemData s) as [message ->];
        [now rewrite Hf | constructor].
  - destruct (findIndex (isFruit fruitId') (currentItems s userId)) as [i|] eqn:Hi.
    + destruct (stored_of_found _ _ _ _ Hi) as (cart & Hc & Hitems).
      rewrite <- Hitems in Hi.
      rewrite (updateCartItem_found _ _ _ _ cart i) by assumption. constructor.
    + rewrite updateCartItem_absent by assumption.
      destruct USE_IN_MEMORY eqn:Huse; [|constructor].
      destruct (inMemoryCarts s !! userId) eqn:Hc; constructor; assumption.
  - destruct (findIndex (isFruit fruitId') (currentItems s userId)) as [i|] eqn:Hi.
    + destruct (stored_of_found _ _ _ _ Hi) as (cart & Hc & Hitems).
      rewrite <- Hitems in Hi.
      rewrite (removeFromCart_found _ _ _ cart i) by assumption. constructor.
    + rewrite removeFromCart_absent by assumption.
      destruct USE_IN_MEMORY eqn:Huse; [|constructor].
      destruct (inMemoryCarts s !! userId) eqn:Hc; constructor; assumption.
Qed.

Lemma storeCart_consistent (userId : string) (cart : Cart) (s : State) :
  totals_invariant cart -> stores_consistent s ->
  stores_consistent (storeCart userId cart s).
Proof.
  intros Hc [Hm Hd]. unfold storeCart, stores_consistent.
  destruct USE_IN_MEMORY; simpl; (split; [|]); try assumption;
    apply map_Forall_insert_2; assumption.
Qed.

Lemma viewCart_storeCart (userId : string) (cart : Cart) (s : State) :
  viewCart (storeCart userId cart s) userId = cart.
Proof.
  unfold viewCart, storeCart. destruct USE_IN_MEMORY; simpl;
    rewrite lookup_insert_eq; [reflexivity | apply formatCartResponse_Some].
Qed.

Lemma outcome_consistent (userId : string) (s : State)
  (r : (string + option Cart) * State) :
  mutation_outcome userId s r -> stores_consistent s ->
  stores_consistent (snd r)
  /\ forall cart, fst r = inr (Some cart) ->
       totals_invariant cart /\ viewCart (snd r) userId = cart.
Proof.
  intros Hout Hs. destruct Hout as [message | | Huse Hnone | l]; simpl.
  - split; [assumption | discriminate].
  - split; [assumption | discriminate].
  - split; [|discriminate]. destruct Hs as [Hm Hd]. split; simpl; [|assumption].
    apply map_Forall_insert_2; [apply emptyCart_invariant | assumption].
  - split.
    + apply storeCart_consistent; [apply withTotals_invariant | assumption].
    + intros cart [= <-]. split; [apply withTotals_invariant|].
      apply viewCart_storeCart.
Qed.

Lemma run_consistent (ms : list Mutation) (s : State) :
  stores_consistent s -> stores_consistent (run ms s).
Proof.
  revert s. induction ms as [| m ms IH]; intros s Hs; simpl; [assumption|].
  apply IH. apply (outcome_consistent (userOf m) s); [apply mutate_outcome | assumption].
Qed.

(** C4. From stores whose carts have consistent totals, after an
    arbitrary sequence of add, update and remove mutations every stored
    cart still has them, and the cart a further successful mutation
    answers is the stored one and satisfies: totalItems is the sum over
    lines of paid + free; totalPrice is the sum of unitPrice x
    (paid + free) and discountAmount the sum of unitPrice x free, each
    rounded to two decimals; finalPrice is round(totalPrice
    - discountAmount, 2), where, as in [calculateCartTotals], the
    difference is taken on the sums before they are rounded.  Taken on
    the stored, rounded totalPrice and discountAmount the equation can
    fail by a paisa. *)
Theorem cart_totals_invariant (s : State) (ms : list Mutation) :
  stores_consistent s ->
  stores_consistent (run ms s)
  /\ forall (m : Mutation) (cart : Cart) (s' : State),
       mutate m (run ms s) = (inr (Some cart), s') ->
       totals_invariant cart
       /\ viewCart s' (userOf m) = cart
       /\ stores_consistent s'.
Proof.
  intros Hs. pose proof (run_consistent ms s Hs) as Hrun.
  split; [assumption|]. intros m cart s' Hm.
  destruct (outcome_consistent (userOf m) (run ms s) (mutate m (run ms s))
              (mutate_outcome m (run ms s)) Hrun) as [Hs' Hcart].
  rewrite Hm in Hs', Hcart. simpl in Hs', Hcart.
  destruct (Hcart cart eq_refl) as [Hinv Hview]. auto.
Qed.

(** ** Adding to an existing line *)

Lemma alter_is_insert {A : Type} (f : A -> A) (l : list A) (i : nat) (x : A) :
  l !! i = Some x -> alter f i l = <[i := f x]> l.
Proof.
  revert i. induction l as [| y l IH]; intros [| i]; simpl; try discriminate.
  - intros [= ->]. reflexivity.
  - intros Hi. f_equal. apply IH. exact Hi.
Qed.

Lemma isFruit_eq (fruitId' : string) (item : CartItem) :
  isFruit fruitId' item = true -> fruitId item = fruitId'.
Proof. unfold isFruit. apply String.eqb_eq. Qed.

Lemma addItem_existing (fruit : IFruit.t) (itemData : AddToCartDto.t)
  (l : list CartItem) (i : nat) (existingItem : CartItem) :
  findIndex (isFruit (AddToCartDto.fruitId itemData)) l = Some i ->
  l !! i = Some existingItem ->
  addItem fruit itemData l =
    <[i := withSplit existingItem
             (calculatePaidAndFree
                (quantity existingItem + freeItems existingItem
                 + AddToCartDto.quantity itemData)
                (IFruit.offerType fruit))]> l.
Proof.
  intros Hi Hx. unfold addItem.
  change (fun item : CartItem => String.eqb (fruitId item) (AddToCartDto.fruitId itemData))
    with (isFruit (AddToCartDto.fruitId itemData)).
  rewrite Hi. rewrite (alter_is_insert _ l i existingItem Hx). reflexivity.
Qed.


Lemma Fruit_storeCart (userId : string) (cart : Cart) (s : State) :
  Fruit (storeCart userId cart s) = Fruit s.
Proof. unfold storeCart. destruct USE_IN_MEMORY; reflexivity. Qed.

Lemma storedCart_storeCart (userId : string) (cart : Cart) (s : State) :
  storedCart (storeCart userId cart s) userId = Some cart.
Proof.
  unfold storedCart, storeCart. destruct USE_IN_MEMORY; simpl; apply lookup_insert_eq.
Qed.

Lemma addToCart_existing (userId : string) (itemData : AddToCartDto.t) (s : State)
  (fruit : IFruit.t) (cart : Cart) (existingItemIndex : nat) :
  Fruit s !! AddToCartDto.fruitId itemData = Some fruit ->
  IFruit.inStock fruit = true ->
  AddToCartDto.quantity itemData <= IFruit.stockQuantity fruit ->
  storedCart s userId = Some cart ->
  findIndex (isFruit (AddToCartDto.fruitId itemData)) (items cart)
    = Some existingItemIndex ->
  exists existingItem,
    items cart !! existingItemIndex = Some existingItem
    /\ fruitId existingItem = AddToCartDto.fruitId itemData
    /\ let newTotal :=
         quantity existingItem + freeItems existingItem
           + AddToCartDto.quantity itemData in
       let cart' :=
         withTotals
           (<[existingItemIndex :=
                withSplit existingItem
                  (calculatePaidAndFree newTotal (IFruit.offerType fruit))]>
              (items cart)) in
       addToCart userId itemData s = (inr cart', storeCart userId cart' s).
Proof.
  intros Hf Hin Hq Hc Hi.
  destruct (findIndex_Some _ _ _ Hi) as (existingItem & Hx & Hp).
  exists existingItem. split; [exact Hx|]. split; [apply isFruit_eq; exact Hp|].
  cbv zeta. rewrite (addToCart_found userId itemData s fruit Hf Hin Hq).
  unfold currentItems. rewrite Hc. simpl.
  rewrite (addItem_existing fruit itemData (items cart) existingItemIndex existingItem Hi Hx).
  reflexivity.
Qed.



(** ** Setting an absolute quantity *)

Lemma setItemQuantity_eq (itemIndex : nat) (updateData : UpdateCartItemDto.t)
  (l : list CartItem) (line : CartItem) :
  l !! itemIndex = Some line ->
  setItemQuantity itemIndex updateData l =
    if UpdateCartItemDto.quantity updateData <=? 0 then delete itemIndex l
    else <[itemIndex :=
             withSplit line
               (calculatePaidAndFree (UpdateCartItemDto.quantity updateData)
                  (offerType line))]> l.
Proof.
  intros Hx. unfold setItemQuantity.
  destruct (UpdateCartItemDto.quantity updateData <=? 0); [reflexivity|].
  rewrite (alter_is_insert _ l itemIndex line Hx). reflexivity.
Qed.

Lemma viewCart_created (userId u : string) (s : State) :
  inMemoryCarts s !! userId = None ->
  viewCart (set_inMemoryCarts (insert userId emptyCart) s) u = viewCart s u.
Proof.
  intros Hnone. unfold viewCart. destruct USE_IN_MEMORY; simpl; [|reflexivity].
  destruct (decide (userId = u)) as [-> | Hne].
  - rewrite lookup_insert_eq, Hnone. reflexivity.
  - rewrite lookup_insert_ne by assumption. reflexivity.
Qed.

Lemma same_observables_refl (s : State) : same_observables s s.
Proof. unfold same_observables. auto. Qed.

Lemma same_observables_lazy (userId : string) (s : State) :
  same_observables s
    (if USE_IN_MEMORY then
       match inMemoryCarts s !! userId with
       | Some _ => s
       | None => set_inMemoryCarts (insert userId emptyCart) s
       end
     else s).
Proof.
  destruct USE_IN_MEMORY eqn:Huse; [|apply same_observables_refl].
  destruct (inMemoryCarts s !! userId) eqn:Hc; [apply same_observables_refl|].
  unfold same_observables. split; [|auto].
  intros u. apply viewCart_created. exact Hc.
Qed.

Lemma updateCartItem_not_found (userId fruitId' : string)
  (updateData : UpdateCartItemDto.t) (s : State) :
  findIndex (isFruit fruitId') (currentItems s userId) = None ->
  exists s',
    updateCartItem userId fruitId' updateData s = (inr None, s')
    /\ same_observables s s'.
Proof.
  intros Hi. rewrite updateCartItem_absent by assumption.
  eexists. split; [reflexivity|]. apply same_observables_lazy.
Qed.

Lemma updateCartItem_line (userId fruitId' : string)
  (updateData : UpdateCartItemDto.t) (s : State) (cart : Cart) (itemIndex : nat) :
  storedCart s userId = Some cart ->
  findIndex (isFruit fruitId') (items cart) = Some itemIndex ->
  exists line,
    items cart !! itemIndex = Some line
    /\ fruitId line = fruitId'
    /\ let items' :=
         if UpdateCartItemDto.quantity updateData <=? 0
         then delete itemIndex (items cart)
         else <[itemIndex :=
                  withSplit line
                    (calculatePaidAndFree (UpdateCartItemDto.quantity updateData)
                       (offerType line))]> (items cart) in
       updateCartItem userId fruitId' updateData s
         = (inr (Some (withTotals items')), storeCart userId (withTotals items') s)
       /\ totals_invariant (withTotals items')
       /\ forall catalog : gmap string IFruit.t,
            fst (updateCartItem userId fruitId' updateData
                   (set_Fruit (fun _ => catalog) s))
            = inr (Some (withTotals items')).
Proof.
  intros Hc Hi. destruct (findIndex_Some _ _ _ Hi) as (line & Hx & Hp).
  exists line. split; [exact Hx|]. split; [apply isFruit_eq; exact Hp|].
  cbv zeta. rewrite <- (setItemQuantity_eq itemIndex updateData (items cart) line Hx).
  split; [apply updateCartItem_found; assumption|].
  split; [apply withTotals_invariant|].
  intros catalog.
  rewrite (updateCartItem_found userId fruitId' updateData
             (set_Fruit (fun _ => catalog) s) cart itemIndex); [reflexivity | | exact Hi].
  unfold storedCart in *. destruct USE_IN_MEMORY; exact Hc.
Qed.

(** C6. [updateCartItem] takes the quantity as the absolute total of
    the line.  Without a line for the fruit it answers [null] and every
    user's cart, the catalog and the transactions are as before.  With
    a line, a quantity [<= 0] removes the line; a positive quantity puts
    on the line the resolver's pair for that quantity under the tier
    stored on the line, whatever the catalog holds; in both cases the
    totals are recomputed from the new lines and the cart is stored. *)
Theorem updateCartItem_sets_absolute_quantity
  (userId fruitId' : string) (updateData : UpdateCartItemDto.t) (s : State) :
  (findIndex (isFruit fruitId') (currentItems s userId) = None ->
     exists s',
       updateCartItem userId fruitId' updateData s = (inr None, s')
       /\ same_observables s s')
  /\ (forall (cart : Cart) (itemIndex : nat),
        storedCart s userId = Some cart ->
        findIndex (isFruit fruitId') (items cart) = Some itemIndex ->
        exists line,
          items cart !! itemIndex = Some line
          /\ fruitId line = fruitId'
          /\ let items' :=
               if UpdateCartItemDto.quantity updateData <=? 0
               then delete itemIndex (items cart)
               else <[itemIndex :=
                        withSplit line
                          (calculatePaidAndFree
                             (UpdateCartItemDto.quantity updateData)
                             (offerType line))]> (items cart) in
             updateCartItem userId fruitId' updateData s
               = (inr (Some (withTotals items')),
                  storeCart userId (withTotals items') s)
             /\ totals_invariant (withTotals items')
             /\ forall catalog : gmap string IFruit.t,
                  fst (updateCartItem userId fruitId' updateData
                         (set_Fruit (fun _ => catalog) s))
                  = inr (Some (withTotals items'))).
Proof.
  split; [apply updateCartItem_not_found|].
  intros cart itemIndex. apply updateCartItem_line.
Qed.

(** ** The stock precondition *)





(** ** Checkout: loading the cart *)

Lemma length_eqb_0 {A : Type} (l : list A) : (length l =? 0)%nat = true <-> l = [].
Proof. destruct l; simpl; split; intros H; try reflexivity; discriminate. Qed.

Lemma loadCartData_lines (userId : string) (s : State) :
  currentItems s userId <> [] ->
  loadCartData userId s = (inr (cartDataOf s userId), s)
  /\ items (cartDataOf s userId) = currentItems s userId.
Proof.
  unfold loadCartData, cartDataOf, currentItems, storedCart. unfold_M.
  intros Hne. destruct USE_IN_MEMORY.
  - rewrite getInMemoryCart_eq.
    destruct (inMemoryCarts s !! userId) as [cart|]; [auto|].
    exfalso. apply Hne. reflexivity.
  - destruct (CartModel s !! userId) as [cart|].
    + change (default emptyCart (Some cart)) with cart in *.
      destruct (length (items cart) =? 0)%nat eqn:Hlen.
      * apply length_eqb_0 in Hlen. contradiction.
      * fold (withTotals (items cart)). rewrite formatCartResponse_Some. auto.
    + exfalso. apply Hne. reflexivity.
Qed.

Lemma loadCartData_no_lines (userId : string) (s : State) :
  currentItems s userId = [] ->
  exists s',
    same_observables s s'
    /\ (loadCartData userId s = (inl "Cart is empty", s')
        \/ exists cartData,
             loadCartData userId s = (inr cartData, s') /\ items cartData = []).
Proof.
  unfold loadCartData, currentItems, storedCart. unfold_M.
  intros Hnil. destruct USE_IN_MEMORY eqn:Huse.
  - rewrite getInMemoryCart_eq. eexists. split.
    + pose proof (same_observables_lazy userId s) as Hobs.
      rewrite Huse in Hobs. exact Hobs.
    + right. eexists. split; [reflexivity | exact Hnil].
  - exists s. split; [apply same_observables_refl|]. left.
    destruct (CartModel s !! userId) as [cart|]; [|reflexivity].
    simpl in Hnil. rewrite Hnil. reflexivity.
Qed.

Lemma checkout_no_lines (auth : AuthService) (userId : string)
  (checkoutData : CheckoutDto.t) (authHeader : option string) (s : State) :
  currentItems s userId = [] ->
  exists s',
    checkout auth userId checkoutData authHeader s = (inl "Cart is empty", s')
    /\ same_observables s s'.
Proof.
  intros Hnil. destruct (loadCartData_no_lines userId s Hnil) as (s' & Hobs & Hload).
  exists s'. split; [|exact Hobs]. unfold checkout. unfold_M.
  destruct Hload as [-> | (cartData & -> & Hitems)]; [reflexivity|].
  rewrite Hitems. reflexivity.
Qed.

(** C8. For every user whose cart has no lines - no cart at all, or a
    cart left without lines - [checkout] throws 'Cart is empty'; no
    transaction is created, no request is sent, and the carts and the
    catalog are as before. *)
Theorem checkout_empty_cart (auth : AuthService) (userId : string)
  (checkoutData : CheckoutDto.t) (authHeader : option string) (s : State) :
  currentItems s userId = [] ->
  exists s',
    checkout auth userId checkoutData authHeader s = (inl "Cart is empty", s')
    /\ TransactionHistory s' = TransactionHistory s
    /\ requests s' = requests s
    /\ Fruit s' = Fruit s
    /\ CartModel s' = CartModel s
    /\ forall u, viewCart s' u = viewCart s u.
Proof.
  intros Hnil.
  destruct (checkout_no_lines auth userId checkoutData authHeader s Hnil)
    as (s' & Hc & Hview & Hcm & Hf & Ht & Hr).
  exists s'. auto 10.
Qed.

(** ** Checkout: the wallet *)

Lemma checkout_with_lines (auth : AuthService) (userId : string)
  (checkoutData : CheckoutDto.t) (authHeader : option string) (s : State)
  (paymentMethod : PaymentMethod) :
  currentItems s userId <> [] ->
  PaymentMethod_of_string (toUpperCase (CheckoutDto.paymentMethod checkoutData))
    = Some paymentMethod ->
  checkout auth userId checkoutData authHeader s =
    ((if decide (paymentMethod = WALLET)
      then payFromWallet auth (cartDataOf s userId) authHeader
      else mret tt);;
     settle auth userId checkoutData authHeader (cartDataOf s userId) paymentMethod) s.
Proof.
  intros Hne Hpm. destruct (loadCartData_lines userId s Hne) as [Hload Hitems].
  unfold checkout. unfold mbind at 1. unfold M_bind at 1. rewrite Hload.
  destruct (length (items (cartDataOf s userId)) =? 0)%nat eqn:Hlen.
  - apply length_eqb_0 in Hlen. congruence.
  - rewrite Hpm. reflexivity.
Qed.

Lemma payFromWallet_insufficient (auth : AuthService) (cartData : Cart)
  (authHeader : option string) (s : State) (balance : float) :
  profile_walletBalance auth = inr balance ->
  PrimFloat.ltb balance (finalPrice cartData) = true ->
  payFromWallet auth cartData authHeader s =
    (inl "Wallet payment failed: Insufficient wallet balance",
     set_requests (fun log => log ++ [GET_profile authHeader]) s).
Proof.
  intros Hprofile Hlt. unfold payFromWallet, axios_get_profile. unfold_M.
  rewrite Hprofile, Hlt. reflexivity.
Qed.

(** C9. For every checkout with payment method WALLET in which the
    balance service reports a balance strictly below the cart's
    finalPrice, [checkout] throws the insufficient-balance error, which
    its handler words 'Wallet payment failed: Insufficient wallet
    balance'.  The only request sent is the balance query: no deduction
    is requested; no transaction is created; the carts and the catalog
    are untouched. *)
Theorem checkout_insufficient_wallet_balance (auth : AuthService) (userId : string)
  (checkoutData : CheckoutDto.t) (authHeader : option string) (s : State)
  (balance : float) :
  currentItems s userId <> [] ->
  toUpperCase (CheckoutDto.paymentMethod checkoutData) = "WALLET" ->
  profile_walletBalance auth = inr balance ->
  PrimFloat.ltb balance (finalPrice (cartDataOf s userId)) = true ->
  exists s',
    checkout auth userId checkoutData authHeader s
      = (inl "Wallet payment failed: Insufficient wallet balance", s')
    /\ requests s' = requests s ++ [GET_profile authHeader]
    /\ TransactionHistory s' = TransactionHistory s
    /\ inMemoryCarts s' = inMemoryCarts s
    /\ CartModel s' = CartModel s
    /\ Fruit s' = Fruit s.
Proof.
  intros Hne Hpm Hprofile Hlt.
  exists (set_requests (fun log => log ++ [GET_profile authHeader]) s).
  split; [|simpl; auto 10].
  rewrite (checkout_with_lines auth userId checkoutData authHeader s WALLET Hne)
    by (rewrite Hpm; reflexivity).
  destruct (decide (WALLET = WALLET)) as [_ | Hc]; [|contradiction].
  unfold mbind at 1. unfold M_bind at 1.
  rewrite (payFromWallet_insufficient auth _ authHeader s balance Hprofile Hlt).
  reflexivity.
Qed.

(** ** Checkout: the transaction *)

Lemma forEach_lowerStock (l : list CartItem) (s : State) :
  exists s',
    forEach lowerStock l s = (inr tt, s')
    /\ TransactionHistory s' = TransactionHistory s.
Proof.
  revert s. induction l as [| item l IH]; intros s; simpl.
  - exists s. split; reflexivity.
  - unfold mbind, M_bind. unfold lowerStock at 1.
    unfold try_catch, Fruit_inc_stockQuantity, modify.
    match goal with
    | |- context [forEach lowerStock l ?st] => destruct (IH st) as (s' & Hrun & Ht)
    end.
    exists s'. split; [exact Hrun | exact Ht].
Qed.

Lemma notify_returns (auth : AuthService) (amount : float)
  (authHeader : option string) (s : State) :
  exists s',
    notify auth amount authHeader s = (inr tt, s')
    /\ TransactionHistory s' = TransactionHistory s.
Proof.
  unfold notify, axios_post_notify_order. unfold_M.
  destruct (notify_order auth amount); eexists; split; reflexivity.
Qed.

Lemma settle_returns (auth : AuthService) (userId : string)
  (checkoutData : CheckoutDto.t) (authHeader : option string)
  (cartData : Cart) (paymentMethod : PaymentMethod) (s : State) :
  exists s',
    settle auth userId checkoutData authHeader cartData paymentMethod s
      = (inr (newTransaction userId cartData paymentMethod checkoutData), s')
    /\ TransactionHistory s' =
         if USE_IN_MEMORY then TransactionHistory s
         else TransactionHistory s
                ++ [newTransaction userId cartData paymentMethod checkoutData].
Proof.
  unfold settle. cbv zeta.
  set (t := newTransaction userId cartData paymentMethod checkoutData).
  destruct USE_IN_MEMORY.
  - unfold mbind, M_bind, mret, M_ret.
    destruct (forEach_lowerStock (items cartData) s) as (s1 & -> & Ht1).
    destruct (notify_returns auth (ITransactionHistory.finalAmount t) authHeader s1)
      as (s2 & -> & Ht2).
    unfold modify. eexists. split; [reflexivity|]. simpl. congruence.
  - unfold mbind, M_bind, mret, M_ret. unfold modify at 1.
    destruct (forEach_lowerStock (items cartData)
                (set_TransactionHistory (fun docs => docs ++ [t]) s))
      as (s1 & -> & Ht1).
    destruct (notify_returns auth (ITransactionHistory.finalAmount t) authHeader s1)
      as (s2 & -> & Ht2).
    unfold modify, gets. simpl. rewrite Ht2, Ht1. simpl.
    rewrite last_snoc. eexists. split; [reflexivity|]. simpl.
    rewrite Ht2, Ht1. reflexivity.
Qed.

Lemma payFromWallet_keeps_transactions (auth : AuthService) (cartData : Cart)
  (authHeader : option string) (s : State) :
  TransactionHistory (snd (payFromWallet auth cartData authHeader s))
  = TransactionHistory s.
Proof.
  unfold payFromWallet, axios_get_profile, axios_post_deduct_balance. unfold_M.
  destruct (profile_walletBalance auth) as [message | balance]; [reflexivity|].
  destruct (PrimFloat.ltb balance (finalPrice cartData)); [reflexivity|].
  destruct (deduct_balance auth (finalPrice cartData)); reflexivity.
Qed.

Lemma entries_of_lines (l : list CartItem) :
  Forall2 entry_of_line l (map transactionItem l).
Proof.
  induction l as [| line l IH]; simpl; constructor; [|exact IH].
  unfold entry_of_line, transactionItem. simpl. auto.
Qed.

Lemma checkout_returned (auth : AuthService) (userId : string)
  (checkoutData : CheckoutDto.t) (authHeader : option string) (s s' : State)
  (t : ITransactionHistory.t) :
  checkout auth userId checkoutData authHeader s = (inr t, s') ->
  exists paymentMethod,
    t = newTransaction userId (cartDataOf s userId) paymentMethod checkoutData
    /\ TransactionHistory s' =
         if USE_IN_MEMORY then TransactionHistory s else TransactionHistory s ++ [t].
Proof.
  intros Hc.
  destruct (decide (currentItems s userId = [])) as [Hnil | Hne].
  - destruct (checkout_no_lines auth userId checkoutData authHeader s Hnil)
      as (s0 & Hthrow & _). congruence.
  - destruct (PaymentMethod_of_string
                (toUpperCase (CheckoutDto.paymentMethod checkoutData)))
      as [paymentMethod|] eqn:Hpm.
    + rewrite (checkout_with_lines auth userId checkoutData authHeader s
                 paymentMethod Hne Hpm) in Hc.
      exists paymentMethod. unfold mbind at 1 in Hc. unfold M_bind at 1 in Hc.
      destruct (decide (paymentMethod = WALLET)) as [Hw | Hw].
      * pose proof (payFromWallet_keeps_transactions auth (cartDataOf s userId)
                      authHeader s) as Hkeep.
        destruct (payFromWallet auth (cartDataOf s userId) authHeader s)
          as [[message | []] s1]; [discriminate|]. simpl in Hkeep.
        destruct (settle_returns auth userId checkoutData authHeader
                    (cartDataOf s userId) paymentMethod s1) as (s2 & Hs & Ht).
        rewrite Hs in Hc. injection Hc as <- <-. rewrite Ht, Hkeep. auto.
      * unfold mret, M_ret in Hc.
        destruct (settle_returns auth userId checkoutData authHeader
                    (cartDataOf s userId) paymentMethod s) as (s2 & Hs & Ht).
        rewrite Hs in Hc. injection Hc as <- <-. rewrite Ht. auto.
    + destruct (loadCartData_lines userId s Hne) as [Hload Hitems].
      unfold checkout in Hc. unfold mbind at 1 in Hc. unfold M_bind at 1 in Hc.
      rewrite Hload in Hc.
      destruct (length (items (cartDataOf s userId)) =? 0)%nat; [discriminate|].
      rewrite Hpm in Hc. discriminate.
Qed.

Lemma checkout_returns (auth : AuthService) (userId : string)
  (checkoutData : CheckoutDto.t) (authHeader : option string) (s : State)
  (paymentMethod : PaymentMethod) :
  currentItems s userId <> [] ->
  PaymentMethod_of_string (toUpperCase (CheckoutDto.paymentMethod checkoutData))
    = Some paymentMethod ->
  paymentMethod <> WALLET ->
  exists t s', checkout auth userId checkoutData authHeader s = (inr t, s').
Proof.
  intros Hne Hpm Hw.
  rewrite (checkout_with_lines auth userId checkoutData authHeader s
             paymentMethod Hne Hpm).
  unfold mbind at 1. unfold M_bind at 1.
  destruct (decide (paymentMethod = WALLET)); [contradiction|].
  unfold mret, M_ret.
  destruct (settle_returns auth userId checkoutData authHeader
              (cartDataOf s userId) paymentMethod s) as (s2 & Hs & _).
  rewrite Hs. eauto.
Qed.

(** C7. Every transaction that [checkout] answers has status COMPLETED
    and one entry per cart line, in order, whose quantity is the line's
    paid quantity, whose freeItemsReceived is the line's free quantity
    and whose subtotal is unitPrice x paidQuantity - the free quantity
    adds nothing to it; with the database storage that transaction is
    the document appended to the transaction collection.  A checkout of
    a cart with lines and a recognised payment method other than WALLET
    does answer a transaction: always with the in-memory storage, which
    saves nothing, and with the database storage when the transaction
    passes the validators of its schema - a line that pays for no unit
    does not. *)
Theorem checkout_transaction_entries (auth : AuthService) (userId : string)
  (checkoutData : CheckoutDto.t) (authHeader : option string) (s : State) :
  (forall (t : ITransactionHistory.t) (s' : State),
     checkout auth userId checkoutData authHeader s = (inr t, s') ->
     ITransactionHistory.status t = COMPLETED
     /\ Forall2 entry_of_line (items (cartDataOf s userId)) (ITransactionHistory.items t)
     /\ (USE_IN_MEMORY = false -> TransactionHistory s' = TransactionHistory s ++ [t]))
  /\ (forall paymentMethod : PaymentMethod,
        currentItems s userId <> [] ->
        PaymentMethod_of_string (toUpperCase (CheckoutDto.paymentMethod checkoutData))
          = Some paymentMethod ->
        paymentMethod <> WALLET ->
        USE_IN_MEMORY = true
        \/ validTransaction
             (newTransaction userId (cartDataOf s userId) paymentMethod checkoutData)
           = true ->
        exists t s', checkout auth userId checkoutData authHeader s = (inr t, s')).
Proof.
  split.
  - intros t s' Hc.
    destruct (checkout_returned auth userId checkoutData authHeader s s' t Hc)
      as (paymentMethod & -> & Ht).
    split; [reflexivity|]. split; [apply entries_of_lines|].
    intros Huse. rewrite Huse in Ht. exact Ht.
  - intros paymentMethod Hne Hpm Hw _.
    exact (checkout_returns auth userId checkoutData authHeader s paymentMethod
             Hne Hpm Hw).
Qed.

(** ** More on the resolver *)

(** X1. Resolving the sum of a resolved pair gives the pair back, for
    every integer quantity and every tier. *)
Theorem calculatePaidAndFree_idempotent (totalQuantity : Z) (offerType : OfferType) :
  calculatePaidAndFree
    (paid (calculatePaidAndFree totalQuantity offerType)
     + free (calculatePaidAndFree totalQuantity offerType)) offerType
  = calculatePaidAndFree totalQuantity offerType.
Proof.
  destruct (Z.le_gt_cases totalQuantity 0) as [Hle | Hgt].
  - rewrite (resolver_nothing totalQuantity offerType Hle). simpl.
    apply resolver_nothing. lia.
  - destruct (resolver_split totalQuantity offerType ltac:(lia)) as (-> & _ & _).
    reflexivity.
Qed.

Lemma resolver_step_paid (totalQuantity : Z) (offerType : OfferType) :
  paid (calculatePaidAndFree totalQuantity offerType)
    <= paid (calculatePaidAndFree (totalQuantity + 1) offerType)
    <= paid (calculatePaidAndFree totalQuantity offerType) + 1.
Proof.
  unfold calculatePaidAndFree, Math.min, Math.floor_div.
  destruct (Z.leb_spec totalQuantity 0) as [H0 | Hpos];
    destruct (Z.leb_spec (totalQuantity + 1) 0) as [H1 | Hpos1]; try lia.
  - assert (totalQuantity = 0) as -> by lia.
    destruct offerType; cbv - [Z.le]; lia.
  - destruct offerType; cbv zeta.
    + simpl. lia.
    + rewrite !rem2_nonneg by lia.
      pose proof (half_parts totalQuantity ltac:(lia)).
      pose proof (half_parts (totalQuantity + 1) ltac:(lia)). simpl. lia.
    + destruct (Z.leb_spec totalQuantity 5), (Z.leb_spec (totalQuantity + 1) 5);
        simpl; try lia.
      * pose proof (ceil_div_bounds (totalQuantity + 1 - 5) 5 ltac:(lia)). lia.
      * pose proof (ceil_div_bounds (totalQuantity - 5) 5 ltac:(lia)).
        pose proof (ceil_div_bounds (totalQuantity + 1 - 5) 5 ltac:(lia)). lia.
    + destruct (Z.leb_spec totalQuantity 8), (Z.leb_spec (totalQuantity + 1) 8);
        simpl; try lia.
      * pose proof (ceil_div_bounds (totalQuantity + 1 - 8) 8 ltac:(lia)). lia.
      * pose proof (ceil_div_bounds (totalQuantity - 8) 8 ltac:(lia)).
        pose proof (ceil_div_bounds (totalQuantity + 1 - 8) 8 ltac:(lia)). lia.
Qed.

(** X2. One more unit never lowers the paid count or the free count, and
    raises each by at most one: from a quantity that is not negative
    exactly one of the two grows. *)
Theorem calculatePaidAndFree_one_more_unit (totalQuantity : Z) (offerType : OfferType) :
  (paid (calculatePaidAndFree totalQuantity offerType)
     <= paid (calculatePaidAndFree (totalQuantity + 1) offerType)
     <= paid (calculatePaidAndFree totalQuantity offerType) + 1)
  /\ (free (calculatePaidAndFree totalQuantity offerType)
        <= free (calculatePaidAndFree (totalQuantity + 1) offerType)
        <= free (calculatePaidAndFree totalQuantity offerType) + 1)
  /\ (0 <= totalQuantity ->
        paid (calculatePaidAndFree (totalQuantity + 1) offerType)
          + free (calculatePaidAndFree (totalQuantity + 1) offerType)
        = paid (calculatePaidAndFree totalQuantity offerType)
          + free (calculatePaidAndFree totalQuantity offerType) + 1).
Proof.
  pose proof (resolver_step_paid totalQuantity offerType) as Hp.
  split; [exact Hp|].
  destruct (Z.le_gt_cases 0 totalQuantity) as [Hn | Hneg].
  - destruct (resolver_split totalQuantity offerType Hn) as (Hs & _ & _).
    destruct (resolver_split (totalQuantity + 1) offerType ltac:(lia)) as (Hs1 & _ & _).
    split; lia.
  - rewrite (resolver_nothing totalQuantity offerType ltac:(lia)).
    rewrite (resolver_nothing (totalQuantity + 1) offerType ltac:(lia)).
    simpl. split; lia.
Qed.

Lemma resolver_pays (totalQuantity : Z) (offerType : OfferType) :
  1 <= totalQuantity -> 1 <= paid (calculatePaidAndFree totalQuantity offerType).
Proof.
  intros Hn. unfold calculatePaidAndFree, Math.min, Math.floor_div.
  destruct (Z.leb_spec totalQuantity 0); [lia|].
  destruct offerType; cbv zeta.
  - simpl. lia.
  - rewrite rem2_nonneg by lia. pose proof (half_parts totalQuantity ltac:(lia)).
    simpl. lia.
  - destruct (Z.leb_spec totalQuantity 5); simpl; [lia|].
    pose proof (ceil_div_bounds (totalQuantity - 5) 5 ltac:(lia)). lia.
  - destruct (Z.leb_spec totalQuantity 8); simpl; [lia|].
    pose proof (ceil_div_bounds (totalQuantity - 8) 8 ltac:(lia)). lia.
Qed.

(** X3. Every positive quantity pays for at least one unit.  Under NONE
    nothing is free; under an offer the first free unit comes right
    after the units of the first cycle that are paid: from 2 units under
    BUY_1_GET_1_FREE, from 3 under BUY_2_GET_3_FREE, from 4 under
    BUY_3_GET_5_FREE, and from there on some unit is always free. *)
Theorem calculatePaidAndFree_first_free_unit (totalQuantity : Z) :
  (forall offerType,
     1 <= totalQuantity -> 1 <= paid (calculatePaidAndFree totalQuantity offerType))
  /\ free (calculatePaidAndFree totalQuantity NONE) = 0
  /\ (1 <= free (calculatePaidAndFree totalQuantity BUY_1_GET_1_FREE)
      <-> 2 <= totalQuantity)
  /\ (1 <= free (calculatePaidAndFree totalQuantity BUY_2_GET_3_FREE)
      <-> 3 <= totalQuantity)
  /\ (1 <= free (calculatePaidAndFree totalQuantity BUY_3_GET_5_FREE)
      <-> 4 <= totalQuantity).
Proof.
  split; [intros offerType; apply resolver_pays|].
  unfold calculatePaidAndFree, Math.min, Math.floor_div.
  destruct (Z.leb_spec totalQuantity 0) as [H0 | Hpos].
  - simpl. repeat split; lia.
  - cbv zeta. split; [reflexivity|]. split; [|split].
    + rewrite rem2_nonneg by lia. pose proof (half_parts totalQuantity ltac:(lia)).
      simpl. lia.
    + destruct (Z.leb_spec totalQuantity 5); simpl; [lia|].
      pose proof (ceil_div_bounds (totalQuantity - 5) 5 ltac:(lia)). lia.
    + destruct (Z.leb_spec totalQuantity 8); simpl; [lia|].
      pose proof (ceil_div_bounds (totalQuantity - 8) 8 ltac:(lia)). lia.
Qed.

(** ** Reading the cart *)

Lemma getCart_eq (userId : string) (s : State) :
  getCart userId s =
    (inr (viewCart s userId),
     if USE_IN_MEMORY then
       match inMemoryCarts s !! userId with
       | Some _ => s
       | None => set_inMemoryCarts (insert userId emptyCart) s
       end
     else s).
Proof.
  unfold getCart, viewCart. destruct USE_IN_MEMORY.
  - apply getInMemoryCart_eq.
  - reflexivity.
Qed.

Lemma viewCart_stored (s : State) (userId : string) :
  viewCart s userId = default emptyCart (storedCart s userId).
Proof.
  unfold viewCart, storedCart. destruct USE_IN_MEMORY; [reflexivity|].
  destruct (CartModel s !! userId) as [cart|]; [apply formatCartResponse_Some|].
  reflexivity.
Qed.

(** X4. [getCart] answers the stored cart of the user, and the empty
    cart with all totals zero when there is none.  It changes nothing a
    user can observe - the in-memory storage at most creates the user's
    empty cart record - and reading again gives the same answer and
    state. *)
Theorem getCart_reads (userId : string) (s : State) :
  (storedCart s userId = None -> fst (getCart userId s) = inr emptyCart)
  /\ (forall cart, storedCart s userId = Some cart ->
        getCart userId s = (inr cart, s))
  /\ same_observables s (snd (getCart userId s))
  /\ (USE_IN_MEMORY = false -> snd (getCart userId s) = s)
  /\ getCart userId (snd (getCart userId s)) = getCart userId s.
Proof.
  rewrite getCart_eq. simpl. split; [|split; [|split; [|split]]].
  - intros Hnone. rewrite viewCart_stored, Hnone. reflexivity.
  - intros cart Hc. rewrite viewCart_stored, Hc. simpl.
    unfold storedCart in Hc. destruct USE_IN_MEMORY; [rewrite Hc|]; reflexivity.
  - apply same_observables_lazy.
  - intros ->. reflexivity.
  - rewrite getCart_eq.
    pose proof (same_observables_lazy userId s) as (Hview & _).
    rewrite Hview. f_equal.
    destruct USE_IN_MEMORY; [|reflexivity].
    destruct (inMemoryCarts s !! userId) eqn:Hc; [rewrite Hc; reflexivity|].
    simpl. rewrite lookup_insert_eq. reflexivity.
Qed.

(** X5. After a mutation that succeeds, [getCart] answers exactly the
    cart the mutation answered, and leaves the state as it is. *)
Theorem getCart_after_mutation (m : Mutation) (s s' : State) (cart : Cart) :
  mutate m s = (inr (Some cart), s') ->
  getCart (userOf m) s' = (inr cart, s').
Proof.
  intros Hm. pose proof (mutate_outcome m s) as Hout. rewrite Hm in Hout.
  inversion Hout as [ | | | l Hl]; subst.
  rewrite getCart_eq, viewCart_storeCart. f_equal.
  unfold storeCart. destruct USE_IN_MEMORY; [|reflexivity].
  simpl. rewrite lookup_insert_eq. reflexivity.
Qed.

(** ** What [addToCart] rejects and what it appends *)

Lemma addToCart_missing (userId : string) (itemData : AddToCartDto.t) (s : State) :
  Fruit s !! AddToCartDto.fruitId itemData = None ->
  addToCart userId itemData s = (inl "Fruit not found", s).
Proof. intros Hf. unfold addToCart. unfold_M. rewrite Hf. reflexivity. Qed.

Lemma addToCart_unavailable (userId : string) (itemData : AddToCartDto.t) (s : State)
  (fruit : IFruit.t) :
  Fruit s !! AddToCartDto.fruitId itemData = Some fruit ->
  IFruit.inStock fruit = false
  \/ IFruit.stockQuantity fruit < AddToCartDto.quantity itemData ->
  addToCart userId itemData s =
    (inl "Fruit is out of stock or insufficient quantity available", s).
Proof.
  intros Hf Hbad. unfold addToCart. unfold_M. rewrite Hf.
  destruct (IFruit.inStock fruit); simpl; [|reflexivity].
  destruct (Z.ltb_spec (IFruit.stockQuantity fruit) (AddToCartDto.quantity itemData));
    [reflexivity|]. destruct Hbad; [discriminate | lia].
Qed.

(** X6. [addToCart] throws 'Fruit not found' exactly when the catalog
    has no such fruit, and 'Fruit is out of stock or insufficient
    quantity available' exactly when the fruit is there but not in
    stock, or its stockQuantity is below the requested quantity.
    Either throw leaves the whole state as it was - no cart is
    created. *)
Theorem addToCart_rejections (userId : string) (itemData : AddToCartDto.t) (s : State) :
  (Fruit s !! AddToCartDto.fruitId itemData = None ->
     addToCart userId itemData s = (inl "Fruit not found", s))
  /\ (forall fruit,
        Fruit s !! AddToCartDto.fruitId itemData = Some fruit ->
        IFruit.inStock fruit = false
        \/ IFruit.stockQuantity fruit < AddToCartDto.quantity itemData ->
        addToCart userId itemData s =
          (inl "Fruit is out of stock or insufficient quantity available", s))
  /\ (forall s',
        addToCart userId itemData s = (inl "Fruit not found", s') ->
        s' = s /\ Fruit s !! AddToCartDto.fruitId itemData = None)
  /\ (forall s',
        addToCart userId itemData s =
          (inl "Fruit is out of stock or insufficient quantity available", s') ->
        s' = s
        /\ exists fruit,
             Fruit s !! AddToCartDto.fruitId itemData = Some fruit
             /\ (IFruit.inStock fruit = false
                 \/ IFruit.stockQuantity fruit < AddToCartDto.quantity itemData)).
Proof.
  split; [exact (addToCart_missing userId itemData s)|].
  split; [exact (addToCart_unavailable userId itemData s)|].
  assert (Hcases :
            forall message s',
              addToCart userId itemData s = (inl message, s') ->
              s' = s
              /\ (message = "Fruit not found"
                    /\ Fruit s !! AddToCartDto.fruitId itemData = None
                  \/ message = "Fruit is out of stock or insufficient quantity available"
                     /\ exists fruit,
                          Fruit s !! AddToCartDto.fruitId itemData = Some fruit
                          /\ (IFruit.inStock fruit = false
                              \/ IFruit.stockQuantity fruit
                                 < AddToCartDto.quantity itemData))).
  { intros message s' Hthrow.
    destruct (Fruit s !! AddToCartDto.fruitId itemData) as [fruit|] eqn:Hf.
    - destruct (IFruit.inStock fruit) eqn:Hin.
      + destruct (Z.lt_ge_cases (IFruit.stockQuantity fruit)
                    (AddToCartDto.quantity itemData)) as [Hlt | Hge].
        * rewrite (addToCart_unavailable userId itemData s fruit Hf (or_intror Hlt))
            in Hthrow.
          injection Hthrow as <- <-. split; [reflexivity|]. right. eauto.
        * rewrite (addToCart_found userId itemData s fruit Hf Hin Hge) in Hthrow.
          discriminate.
      + rewrite (addToCart_unavailable userId itemData s fruit Hf (or_introl Hin))
          in Hthrow.
        injection Hthrow as <- <-. split; [reflexivity|]. right. eauto.
    - rewrite (addToCart_missing userId itemData s Hf) in Hthrow.
      injection Hthrow as <- <-. auto. }
  split; intros s' Hthrow; destruct (Hcases _ _ Hthrow) as [-> [[Hm H] | [Hm H]]];
    try discriminate Hm; split; [reflexivity | exact H | reflexivity | exact H].
Qed.



(** ** Mutations touch one user's cart only *)

Lemma storeCart_other (userId u : string) (cart : Cart) (s : State) :
  u <> userId -> storedCart (storeCart userId cart s) u = storedCart s u.
Proof.
  intros Hne. unfold storedCart, storeCart.
  destruct USE_IN_MEMORY; simpl; apply lookup_insert_ne; congruence.
Qed.

(** X8. A mutation for one user - add, update or remove, answered or
    thrown - leaves every other user's cart as it was, and never
    changes the catalog, the transactions or the requests sent. *)
Theorem mutation_frame (m : Mutation) (s : State) :
  Fruit (snd (mutate m s)) = Fruit s
  /\ TransactionHistory (snd (mutate m s)) = TransactionHistory s
  /\ requests (snd (mutate m s)) = requests s
  /\ forall u, u <> userOf m ->
       storedCart (snd (mutate m s)) u = storedCart s u
       /\ viewCart (snd (mutate m s)) u = viewCart s u.
Proof.
  destruct (mutate_outcome m s) as [message | | Huse Hnone | l]; simpl.
  - repeat split; reflexivity.
  - repeat split; reflexivity.
  - repeat split; try reflexivity.
    + unfold storedCart. rewrite Huse. simpl. apply lookup_insert_ne. congruence.
    + apply viewCart_created. exact Hnone.
  - split; [apply Fruit_storeCart|].
    split; [unfold storeCart; destruct USE_IN_MEMORY; reflexivity|].
    split; [unfold storeCart; destruct USE_IN_MEMORY; reflexivity|].
    intros u Hne. split; [apply storeCart_other; exact Hne|].
    rewrite !viewCart_stored, storeCart_other by exact Hne. reflexivity.
Qed.

(** ** What a stored cart is made of *)

Lemma currentItems_stored (s : State) (userId : string) (cart : Cart) :
  storedCart s userId = Some cart -> currentItems s userId = items cart.
Proof. intros Hc. unfold currentItems. rewrite Hc. reflexivity. Qed.

Lemma currentItems_none (s : State) (userId : string) :
  storedCart s userId = None -> currentItems s userId = [].
Proof. intros Hc. unfold currentItems. rewrite Hc. reflexivity. Qed.

(** The lines a mutation stores, from the lines it starts from. *)
Lemma mutate_lines (m : Mutation) (s : State) :
  snd (mutate m s) = s
  \/ (USE_IN_MEMORY = true
      /\ inMemoryCarts s !! userOf m = None
      /\ snd (mutate m s) = set_inMemoryCarts (insert (userOf m) emptyCart) s)
  \/ exists l',
       snd (mutate m s) = storeCart (userOf m) (withTotals l') s
       /\ ((exists fruit itemData,
              m = Add (userOf m) itemData
              /\ l' = addItem fruit itemData (currentItems s (userOf m)))
           \/ (exists i updateData,
                 l' = setItemQuantity i updateData (currentItems s (userOf m)))
           \/ (exists i, l' = delete i (currentItems s (userOf m)))).
Proof.
  destruct m as [userId itemData | userId fruitId' updateData | userId fruitId']; simpl.
  - unfold mbind, M_bind, mret, M_ret.
    destruct (Fruit s !! AddToCartDto.fruitId itemData) as [fruit|] eqn:Hf.
    + destruct (IFruit.inStock fruit) eqn:Hin.
      * destruct (Z.lt_ge_cases (IFruit.stockQuantity fruit)
                    (AddToCartDto.quantity itemData)) as [Hlt | Hge].
        -- rewrite (addToCart_unavailable userId itemData s fruit Hf (or_intror Hlt)).
           auto.
        -- rewrite (addToCart_found userId itemData s fruit Hf Hin Hge). simpl.
           right. right. eexists. split; [reflexivity|]. left. eauto.
      * rewrite (addToCart_unavailable userId itemData s fruit Hf (or_introl Hin)).
        auto.
    + rewrite (addToCart_missing userId itemData s Hf). auto.
  - destruct (findIndex (isFruit fruitId') (currentItems s userId)) as [i|] eqn:Hi.
    + destruct (stored_of_found _ _ _ _ Hi) as (cart & Hc & Hitems).
      rewrite <- Hitems in Hi.
      rewrite (updateCartItem_found _ _ _ _ cart i Hc Hi). simpl.
      right. right. eexists. split; [reflexivity|]. right. left.
      rewrite <- Hitems. eauto.
    + rewrite updateCartItem_absent by assumption. simpl.
      destruct USE_IN_MEMORY eqn:Huse; [|auto].
      destruct (inMemoryCarts s !! userId) eqn:Hc; auto.
  - destruct (findIndex (isFruit fruitId') (currentItems s userId)) as [i|] eqn:Hi.
    + destruct (stored_of_found _ _ _ _ Hi) as (cart & Hc & Hitems).
      rewrite <- Hitems in Hi.
      rewrite (removeFromCart_found _ _ _ cart i Hc Hi). simpl.
      right. right. eexists. split; [reflexivity|]. right. right.
      rewrite <- Hitems. eauto.
    + rewrite removeFromCart_absent by assumption. simpl.
      destruct USE_IN_MEMORY eqn:Huse; [|auto].
      destruct (inMemoryCarts s !! userId) eqn:Hc; auto.
Qed.

Lemma every_cart_current (Q : list CartItem -> Prop) (s : State) (userId : string) :
  Q [] -> every_cart (fun cart => Q (items cart)) s -> Q (currentItems s userId).
Proof.
  intros Hnil [Hm Hd]. unfold currentItems, storedCart.
  destruct USE_IN_MEMORY.
  - destruct (inMemoryCarts s !! userId) as [cart|] eqn:Hc; [|exact Hnil].
    apply (Hm userId cart Hc).
  - destruct (CartModel s !! userId) as [cart|] eqn:Hc; [|exact Hnil].
    apply (Hd userId cart Hc).
Qed.

Lemma every_cart_storeCart (P : Cart -> Prop) (userId : string) (cart : Cart) (s : State) :
  P cart -> every_cart P s -> every_cart P (storeCart userId cart s).
Proof.
  intros Hc [Hm Hd]. unfold storeCart, every_cart.
  destruct USE_IN_MEMORY; simpl; (split; [|]); try assumption;
    apply map_Forall_insert_2; assumption.
Qed.

(** Any property of the lines that the three line updates keep is kept
    by sequences of mutations. *)
Lemma run_keeps (Q : list CartItem -> Prop) (ok : Mutation -> Prop) :
  Q [] ->
  (forall userId fruit itemData l,
     ok (Add userId itemData) -> Q l -> Q (addItem fruit itemData l)) ->
  (forall i updateData l, Q l -> Q (setItemQuantity i updateData l)) ->
  (forall (i : nat) l, Q l -> Q (delete i l)) ->
  forall (ms : list Mutation) (s : State),
    Forall ok ms ->
    every_cart (fun cart => Q (items cart)) s ->
    every_cart (fun cart => Q (items cart)) (run ms s).
Proof.
  intros Hnil Hadd Hset Hdel ms.
  induction ms as [| m ms IH]; intros s Hok Hs; simpl; [exact Hs|].
  inversion Hok as [| m' ms' Hm Hms]; subst. apply IH; [exact Hms|].
  pose proof (every_cart_current Q s (userOf m) Hnil Hs) as Hcur.
  destruct (mutate_lines m s) as [-> | [(Huse & Hnone & ->) | (l' & -> & Hl')]].
  - exact Hs.
  - destruct Hs as [Hm1 Hd1]. split; simpl; [|exact Hd1].
    apply map_Forall_insert_2; [exact Hnil | exact Hm1].
  - apply every_cart_storeCart; [|exact Hs]. simpl.
    destruct Hl' as [(fruit & itemData & Heq & ->) | [(i & updateData & ->) | (i & ->)]].
    + apply (Hadd (userOf m)); [rewrite <- Heq; exact Hm | exact Hcur].
    + apply Hset. exact Hcur.
    + apply Hdel. exact Hcur.
Qed.

(** ** One line per fruit *)

Lemma findIndex_None_Forall {A : Type} (p : A -> bool) (l : list A) :
  findIndex p l = None <-> Forall (fun x => p x = false) l.
Proof.
  induction l as [| x l IH]; simpl.
  - split; [constructor | reflexivity].
  - destruct (p x) eqn:Hp.
    + split; [discriminate|]. intros H. inversion H; congruence.
    + destruct (findIndex p l) as [j|]; simpl.
      * split; [discriminate|]. intros H. inversion H as [| ? ? _ Hl]; subst.
        apply IH in Hl. discriminate.
      * split; [|reflexivity]. intros _. constructor; [exact Hp|]. apply IH. reflexivity.
Qed.

Lemma findIndex_None_not_in (fruitId' : string) (l : list CartItem) :
  findIndex (isFruit fruitId') l = None <-> ~ In fruitId' (map fruitId l).
Proof.
  rewrite findIndex_None_Forall. induction l as [| x l IH]; simpl.
  - split; [intros _ [] | constructor].
  - split.
    + intros H. inversion H as [| ? ? Hx Hl]; subst. intros [Heq | Hin].
      * unfold isFruit in Hx. rewrite Heq, String.eqb_refl in Hx. discriminate.
      * apply IH in Hl. contradiction.
    + intros Hnot. constructor.
      * unfold isFruit. destruct (String.eqb_spec (fruitId x) fruitId'); [|reflexivity].
        exfalso. apply Hnot. left. assumption.
      * apply IH. intros Hin. apply Hnot. right. exact Hin.
Qed.

Lemma map_fruitId_alter (f : CartItem -> CartItem) (i : nat) (l : list CartItem) :
  (forall x, fruitId (f x) = fruitId x) ->
  map fruitId (alter f i l) = map fruitId l.
Proof.
  intros Hf. revert i. induction l as [| y l IH]; intros [| i]; simpl; try reflexivity.
  - now rewrite Hf.
  - f_equal. apply IH.
Qed.

Lemma map_delete {A B : Type} (g : A -> B) (i : nat) (l : list A) :
  map g (delete i l) = delete i (map g l).
Proof.
  revert i. induction l as [| y l IH]; intros [| i]; simpl; try reflexivity.
  f_equal. apply IH.
Qed.

Lemma NoDup_delete {A : Type} (i : nat) (l : list A) : NoDup l -> NoDup (delete i l).
Proof. intros Hl. exact (sublist_NoDup _ _ Hl (sublist_delete l i)). Qed.

Lemma addItem_unique (fruit : IFruit.t) (itemData : AddToCartDto.t) (l : list CartItem) :
  NoDup (map fruitId l) -> NoDup (map fruitId (addItem fruit itemData l)).
Proof.
  intros Hl. unfold addItem.
  change (fun item : CartItem => String.eqb (fruitId item) (AddToCartDto.fruitId itemData))
    with (isFruit (AddToCartDto.fruitId itemData)).
  destruct (findIndex (isFruit (AddToCartDto.fruitId itemData)) l) as [i|] eqn:Hi.
  - rewrite map_fruitId_alter; [exact Hl | reflexivity].
  - rewrite map_app. simpl. apply NoDup_app. split; [exact Hl|]. split.
    + intros x Hx Hin. apply list_elem_of_singleton in Hin. subst x.
      apply findIndex_None_not_in in Hi. apply Hi. apply list_elem_of_In. exact Hx.
    + apply NoDup_singleton.
Qed.

Lemma setItemQuantity_unique (i : nat) (updateData : UpdateCartItemDto.t)
  (l : list CartItem) :
  NoDup (map fruitId l) -> NoDup (map fruitId (setItemQuantity i updateData l)).
Proof.
  intros Hl. unfold setItemQuantity.
  destruct (UpdateCartItemDto.quantity updateData <=? 0).
  - rewrite map_delete. apply NoDup_delete. exact Hl.
  - rewrite map_fruitId_alter; [exact Hl | reflexivity].
Qed.

(** X9. If no stored cart has two lines of the same fruit, then after
    any sequence of add, update and remove mutations no stored cart has:
    a fruit added again goes to the line it has. *)
Theorem unique_fruits_kept (ms : list Mutation) (s : State) :
  every_cart unique_fruits s -> every_cart unique_fruits (run ms s).
Proof.
  intros Hs.
  apply (run_keeps (fun l => NoDup (map fruitId l)) (fun _ => True)).
  - constructor.
  - intros _ fruit itemData l _. apply addItem_unique.
  - apply setItemQuantity_unique.
  - intros i l Hl. rewrite map_delete. apply NoDup_delete. exact Hl.
  - apply Forall_forall. auto.
  - exact Hs.
Qed.

(** ** Lines that pay *)

Lemma addItem_positive (fruit : IFruit.t) (itemData : AddToCartDto.t)
  (l : list CartItem) :
  0 < AddToCartDto.quantity itemData ->
  Forall (fun line => 1 <= quantity line /\ 0 <= freeItems line) l ->
  Forall (fun line => 1 <= quantity line /\ 0 <= freeItems line)
    (addItem fruit itemData l).
Proof.
  intros Hq Hl. unfold addItem.
  destruct (findIndex _ l) as [i|].
  - apply Forall_alter; [exact Hl|]. intros x _ [Hx1 Hx2]. simpl.
    split; [apply resolver_pays; lia|].
    apply (resolver_split _ (IFruit.offerType fruit)). lia.
  - apply Forall_app. split; [exact Hl|]. constructor; [|constructor]. simpl.
    split; [apply resolver_pays; lia|].
    apply (resolver_split _ (IFruit.offerType fruit)). lia.
Qed.

Lemma setItemQuantity_positive (i : nat) (updateData : UpdateCartItemDto.t)
  (l : list CartItem) :
  Forall (fun line => 1 <= quantity line /\ 0 <= freeItems line) l ->
  Forall (fun line => 1 <= quantity line /\ 0 <= freeItems line)
    (setItemQuantity i updateData l).
Proof.
  intros Hl. unfold setItemQuantity.
  destruct (Z.leb_spec (UpdateCartItemDto.quantity updateData) 0).
  - apply Forall_delete. exact Hl.
  - apply Forall_alter; [exact Hl|]. intros x _ _. simpl.
    split; [apply resolver_pays; lia|].
    apply (resolver_split _ (offerType x)). lia.
Qed.

(** X10. If every line of every stored cart has a paid quantity of at
    least 1 and a free quantity of at least 0, this still holds after
    any sequence of mutations whose adds request positive quantities:
    no such sequence leaves a line that pays for nothing. *)
Theorem lines_positive_kept (ms : list Mutation) (s : State) :
  Forall adds_positive ms ->
  every_cart lines_positive s ->
  every_cart lines_positive (run ms s).
Proof.
  intros Hok Hs.
  apply (run_keeps (Forall (fun line => 1 <= quantity line /\ 0 <= freeItems line))
           adds_positive).
  - constructor.
  - intros userId fruit itemData l Hq. apply addItem_positive. exact Hq.
  - apply setItemQuantity_positive.
  - intros i l. apply Forall_delete.
  - exact Hok.
  - exact Hs.
Qed.

(** ** Removing a line *)

Lemma removeFromCart_not_found (userId fruitId' : string) (s : State) :
  findIndex (isFruit fruitId') (currentItems s userId) = None ->
  exists s',
    removeFromCart userId fruitId' s = (inr None, s')
    /\ same_observables s s'.
Proof.
  intros Hi. rewrite removeFromCart_absent by assumption.
  eexists. split; [reflexivity|]. apply same_observables_lazy.
Qed.

Lemma findIndex_delete_unique (fruitId' : string) (l : list CartItem) (i : nat) :
  NoDup (map fruitId l) ->
  findIndex (isFruit fruitId') l = Some i ->
  findIndex (isFruit fruitId') (delete i l) = None.
Proof.
  revert i. induction l as [| x l IH]; intros i Hnd Hi; simpl in *; [discriminate|].
  inversion Hnd as [| ? ? Hx Hl]; subst.
  destruct (isFruit fruitId' x) eqn:Hp.
  - injection Hi as <-. simpl. apply findIndex_None_not_in.
    apply isFruit_eq in Hp. subst fruitId'.
    intros Hin. apply Hx. apply list_elem_of_In. exact Hin.
  - destruct (findIndex (isFruit fruitId') l) as [j|] eqn:Hj; simpl in Hi; [|discriminate].
    injection Hi as <-. simpl. rewrite Hp. rewrite (IH j Hl eq_refl). reflexivity.
Qed.

Lemma length_delete_found {A : Type} (l : list A) (i : nat) (x : A) :
  l !! i = Some x -> S (length (delete i l)) = length l.
Proof.
  revert i. induction l as [| y l IH]; intros [| i]; simpl; try discriminate.
  - reflexivity.
  - intros Hx. f_equal. apply IH. exact Hx.
Qed.

Lemma setting_non_positive_removes (userId fruitId' : string)
  (updateData : UpdateCartItemDto.t) (s : State) :
  UpdateCartItemDto.quantity updateData <= 0 ->
  updateCartItem userId fruitId' updateData s = removeFromCart userId fruitId' s.
Proof.
  intros Hq. unfold updateCartItem, removeFromCart, setItemQuantity.
  destruct (Z.leb_spec (UpdateCartItemDto.quantity updateData) 0); [reflexivity | lia].
Qed.

(** X11. [removeFromCart] answers [null] and changes nothing a user can
    observe when the cart has no line of the fruit.  Otherwise it
    deletes the first such line - one line fewer, the others as they
    were - and stores the cart with recomputed totals; in a cart with
    one line per fruit the fruit is then gone, so removing it again
    answers [null] and leaves the stored cart alone.  Setting the
    fruit's quantity to zero or below with [updateCartItem] is the same
    operation: it gives the same answer and the same state. *)
Theorem removeFromCart_removes (userId fruitId' : string) (s : State) :
  (findIndex (isFruit fruitId') (currentItems s userId) = None ->
     exists s',
       removeFromCart userId fruitId' s = (inr None, s')
       /\ same_observables s s')
  /\ (forall (cart : Cart) (itemIndex : nat),
        storedCart s userId = Some cart ->
        findIndex (isFruit fruitId') (items cart) = Some itemIndex ->
        let cart' := withTotals (delete itemIndex (items cart)) in
        removeFromCart userId fruitId' s = (inr (Some cart'), storeCart userId cart' s)
        /\ S (length (items cart')) = length (items cart)
        /\ (unique_fruits cart ->
              findIndex (isFruit fruitId') (items cart') = None
              /\ removeFromCart userId fruitId' (storeCart userId cart' s)
                 = (inr None, storeCart userId cart' s)))
  /\ (forall updateData,
        UpdateCartItemDto.quantity updateData <= 0 ->
        updateCartItem userId fruitId' updateData s = removeFromCart userId fruitId' s).
Proof.
  split; [apply removeFromCart_not_found|].
  split; [|intros updateData; apply setting_non_positive_removes].
  intros cart itemIndex Hc Hi cart'.
  split; [apply removeFromCart_found; assumption|].
  destruct (findIndex_Some _ _ _ Hi) as (line & Hx & _).
  split; [apply (length_delete_found _ _ line); exact Hx|].
  intros Huniq.
  pose proof (findIndex_delete_unique fruitId' (items cart) itemIndex Huniq Hi) as Hgone.
  split; [exact Hgone|].
  rewrite removeFromCart_absent.
  - f_equal. unfold storeCart. destruct USE_IN_MEMORY; [|reflexivity].
    simpl. rewrite lookup_insert_eq. reflexivity.
  - rewrite (currentItems_stored _ _ cart'); [exact Hgone|].
    apply storedCart_storeCart.
Qed.

(** ** Setting the same quantity twice *)

Lemma findIndex_insert_same {A : Type} (p : A -> bool) (l : list A) (i : nat) (x y : A) :
  l !! i = Some x -> p y = p x -> findIndex p (<[i := y]> l) = findIndex p l.
Proof.
  revert i. induction l as [| z l IH]; intros [| i]; simpl; try discriminate.
  - intros [= ->] ->. reflexivity.
  - intros Hx Hp. rewrite (IH i Hx Hp). reflexivity.
Qed.

Lemma storeCart_storeCart (userId : string) (c c' : Cart) (s : State) :
  storeCart userId c (storeCart userId c' s) = storeCart userId c s.
Proof.
  unfold storeCart, set_inMemoryCarts, set_CartModel.
  destruct USE_IN_MEMORY; simpl; now rewrite insert_insert_eq.
Qed.

(** X12. Setting a positive quantity is idempotent: a second
    [updateCartItem] with the same quantity answers the same cart and
    leaves the state as the first one left it. *)
Theorem updateCartItem_idempotent (userId fruitId' : string)
  (updateData : UpdateCartItemDto.t) (s s1 : State) (cart1 : Cart) :
  0 < UpdateCartItemDto.quantity updateData ->
  updateCartItem userId fruitId' updateData s = (inr (Some cart1), s1) ->
  updateCartItem userId fruitId' updateData s1 = (inr (Some cart1), s1).
Proof.
  intros Hq Hfirst.
  destruct (findIndex (isFruit fruitId') (currentItems s userId)) as [i|] eqn:Hi.
  - destruct (stored_of_found _ _ _ _ Hi) as (cart & Hc & Hitems).
    rewrite <- Hitems in Hi.
    destruct (updateCartItem_line userId fruitId' updateData s cart i Hc Hi)
      as (line & Hx & _ & Hupd). cbv zeta in Hupd. destruct Hupd as (Hupd & _ & _).
    destruct (Z.leb_spec (UpdateCartItemDto.quantity updateData) 0) as [Hle | _]; [lia|].
    rewrite Hupd in Hfirst. injection Hfirst as <- <-.
    set (pf := calculatePaidAndFree (UpdateCartItemDto.quantity updateData)
                 (offerType line)) in *.
    set (l1 := <[i := withSplit line pf]> (items cart)).
    assert (Hx1 : l1 !! i = Some (withSplit line pf)).
    { unfold l1. apply list_lookup_insert_eq. apply lookup_lt_Some with line. exact Hx. }
    assert (Hi1 : findIndex (isFruit fruitId') l1 = Some i).
    { unfold l1. rewrite (findIndex_insert_same _ _ _ line); [exact Hi | exact Hx|].
      reflexivity. }
    rewrite (updateCartItem_found userId fruitId' updateData
               (storeCart userId (withTotals l1) s) (withTotals l1) i);
      [| apply storedCart_storeCart | exact Hi1].
    change (items (withTotals l1)) with l1.
    rewrite (setItemQuantity_eq i updateData l1 (withSplit line pf) Hx1).
    destruct (Z.leb_spec (UpdateCartItemDto.quantity updateData) 0) as [Hle | _]; [lia|].
    change (offerType (withSplit line pf)) with (offerType line). fold pf.
    change (withSplit (withSplit line pf) pf) with (withSplit line pf).
    unfold l1. rewrite !list_insert_insert_eq.
    rewrite storeCart_storeCart. reflexivity.
  - rewrite updateCartItem_absent in Hfirst by assumption. discriminate.
Qed.

(** X13. Adding to a line is setting its new total: when the catalog's
    tier for the fruit is the tier stored on the line, adding [q] to a
    line of [n] units gives the same cart and state as setting the
    quantity [n + q], provided the add passes the stock check and
    [n + q] is positive. *)
Theorem addToCart_is_update_to_sum (userId : string) (itemData : AddToCartDto.t)
  (s : State) (fruit : IFruit.t) (cart : Cart) (i : nat) (line : CartItem) :
  Fruit s !! AddToCartDto.fruitId itemData = Some fruit ->
  IFruit.inStock fruit = true ->
  AddToCartDto.quantity itemData <= IFruit.stockQuantity fruit ->
  storedCart s userId = Some cart ->
  findIndex (isFruit (AddToCartDto.fruitId itemData)) (items cart) = Some i ->
  items cart !! i = Some line ->
  IFruit.offerType fruit = offerType line ->
  0 < quantity line + freeItems line + AddToCartDto.quantity itemData ->
  exists cart' s',
    addToCart userId itemData s = (inr cart', s')
    /\ updateCartItem userId (AddToCartDto.fruitId itemData)
         {| UpdateCartItemDto.quantity :=
              quantity line + freeItems line + AddToCartDto.quantity itemData |} s
       = (inr (Some cart'), s').
Proof.
  intros Hf Hin Hq Hc Hi Hx Htier Hpos.
  rewrite (addToCart_found userId itemData s fruit Hf Hin Hq).
  rewrite (currentItems_stored s userId cart Hc).
  rewrite (addItem_existing fruit itemData (items cart) i line Hi Hx).
  rewrite (updateCartItem_found userId _ _ s cart i Hc Hi).
  rewrite (setItemQuantity_eq i _ (items cart) line Hx). simpl.
  destruct (Z.leb_spec (quantity line + freeItems line + AddToCartDto.quantity itemData) 0);
    [lia|].
  rewrite Htier. eauto.
Qed.

(** X14. A cart that a mutation answers without lines is the empty
    cart: totalItems, totalPrice, discountAmount and finalPrice are all
    zero.  In particular removing the only line of a cart, or setting
    its quantity to zero or below, answers and stores the empty cart. *)
Theorem cart_without_lines_is_empty :
  (forall (m : Mutation) (s s' : State) (cart : Cart),
     mutate m s = (inr (Some cart), s') -> items cart = [] -> cart = emptyCart)
  /\ (forall (userId fruitId' : string) (s : State) (cart : Cart) (line : CartItem),
        storedCart s userId = Some cart ->
        items cart = [line] ->
        fruitId line = fruitId' ->
        removeFromCart userId fruitId' s
          = (inr (Some emptyCart), storeCart userId emptyCart s)
        /\ forall updateData,
             UpdateCartItemDto.quantity updateData <= 0 ->
             updateCartItem userId fruitId' updateData s
               = (inr (Some emptyCart), storeCart userId emptyCart s)).
Proof.
  split.
  - intros m s s' cart Hm Hnil. pose proof (mutate_outcome m s) as Hout.
    rewrite Hm in Hout. inversion Hout as [ | | | l Hl]; subst.
    change (items (withTotals l)) with l in Hnil. subst l. reflexivity.
  - intros userId fruitId' s cart line Hc Hitems Hid.
    assert (Hi : findIndex (isFruit fruitId') (items cart) = Some 0%nat).
    { rewrite Hitems. simpl. unfold isFruit. rewrite Hid, String.eqb_refl. reflexivity. }
    assert (Hrem : removeFromCart userId fruitId' s
                   = (inr (Some emptyCart), storeCart userId emptyCart s)).
    { rewrite (removeFromCart_found userId fruitId' s cart 0%nat Hc Hi).
      rewrite Hitems. reflexivity. }
    split; [exact Hrem|]. intros updateData Hq.
    rewrite setting_non_positive_removes by exact Hq. exact Hrem.
Qed.

(** ** Clearing *)

Lemma delete_twice (userId : string) (m : gmap string Cart) :
  delete userId (delete userId m) = delete userId m.
Proof. apply delete_id. apply lookup_delete_eq. Qed.

(** X15. [clearCart] answers the empty cart and deletes the user's cart
    record: [getCart] answers the empty cart afterwards, every other
    user's cart, the catalog and the transactions are as before, and
    clearing again changes nothing more.  [clearAllCarts] does so for
    every user at once: whoever reads a cart afterwards gets the empty
    cart. *)
Theorem clearCart_clears (userId : string) (s : State) :
  fst (clearCart userId s) = inr emptyCart
  /\ storedCart (snd (clearCart userId s)) userId = None
  /\ fst (getCart userId (snd (clearCart userId s))) = inr emptyCart
  /\ (forall u, u <> userId ->
        storedCart (snd (clearCart userId s)) u = storedCart s u)
  /\ Fruit (snd (clearCart userId s)) = Fruit s
  /\ TransactionHistory (snd (clearCart userId s)) = TransactionHistory s
  /\ clearCart userId (snd (clearCart userId s)) = clearCart userId s
  /\ (forall u, fst (getCart u (snd (clearAllCarts s))) = inr emptyCart).
Proof.
  assert (Hgone : storedCart (snd (clearCart userId s)) userId = None).
  { unfold clearCart, storedCart. unfold_M.
    destruct USE_IN_MEMORY; simpl; apply lookup_delete_eq. }
  split; [unfold clearCart; unfold_M; destruct USE_IN_MEMORY; reflexivity|].
  split; [exact Hgone|].
  split; [rewrite getCart_eq, viewCart_stored, Hgone; reflexivity|].
  split.
  { intros u Hne. unfold clearCart, storedCart. unfold_M.
    destruct USE_IN_MEMORY; simpl; apply lookup_delete_ne; congruence. }
  split; [unfold clearCart; unfold_M; destruct USE_IN_MEMORY; reflexivity|].
  split; [unfold clearCart; unfold_M; destruct USE_IN_MEMORY; reflexivity|].
  split.
  { unfold clearCart, set_inMemoryCarts, set_CartModel. unfold_M.
    destruct USE_IN_MEMORY; simpl; rewrite delete_twice; reflexivity. }
  intros u. rewrite getCart_eq, viewCart_stored.
  replace (storedCart (snd (clearAllCarts s)) u) with (@None Cart); [reflexivity|].
  unfold clearAllCarts, storedCart. unfold_M.
  destruct USE_IN_MEMORY; simpl; symmetry; apply lookup_empty.
Qed.

(** ** Checkout, step by step *)

Lemma forEach_lowerStock_effects (l : list CartItem) (s : State) :
  exists s',
    forEach lowerStock l s = (inr tt, s')
    /\ inMemoryCarts s' = inMemoryCarts s
    /\ CartModel s' = CartModel s
    /\ Fruit s' = lowered l (Fruit s)
    /\ TransactionHistory s' = TransactionHistory s
    /\ requests s' = requests s.
Proof.
  revert s. induction l as [| item l IH]; intros s; simpl.
  - exists s. auto 10.
  - unfold mbind, M_bind. unfold lowerStock at 1.
    unfold try_catch, Fruit_inc_stockQuantity, modify.
    match goal with
    | |- context [forEach lowerStock l ?st] =>
        destruct (IH st) as (s' & Hrun & Hm & Hc & Hf & Ht & Hr)
    end.
    exists s'. split; [exact Hrun|]. simpl in *. auto 10.
Qed.

Lemma notify_effects (auth : AuthService) (amount : float)
  (authHeader : option string) (s : State) :
  notify auth amount authHeader s
  = (inr tt, set_requests (fun log => log ++ [POST_notify_order amount authHeader]) s).
Proof.
  unfold notify, axios_post_notify_order. unfold_M.
  destruct (notify_order auth amount); reflexivity.
Qed.

Lemma settle_effects (auth : AuthService) (userId : string)
  (checkoutData : CheckoutDto.t) (authHeader : option string)
  (cartData : Cart) (paymentMethod : PaymentMethod) (s : State) :
  exists s',
    settle auth userId checkoutData authHeader cartData paymentMethod s
      = (inr (newTransaction userId cartData paymentMethod checkoutData), s')
    /\ inMemoryCarts s' =
         (if USE_IN_MEMORY then delete userId (inMemoryCarts s) else inMemoryCarts s)
    /\ CartModel s' =
         (if USE_IN_MEMORY then CartModel s else delete userId (CartModel s))
    /\ Fruit s' = lowered (items cartData) (Fruit s)
    /\ TransactionHistory s' =
         (if USE_IN_MEMORY then TransactionHistory s
          else TransactionHistory s
                 ++ [newTransaction userId cartData paymentMethod checkoutData])
    /\ requests s' =
         requests s ++ [POST_notify_order (finalPrice cartData) authHeader].
Proof.
  unfold settle. cbv zeta.
  set (t := newTransaction userId cartData paymentMethod checkoutData).
  change (ITransactionHistory.finalAmount t) with (finalPrice cartData).
  destruct USE_IN_MEMORY.
  - unfold mbind, M_bind, mret, M_ret.
    destruct (forEach_lowerStock_effects (items cartData) s)
      as (s1 & -> & Hm & Hc & Hf & Ht & Hr).
    rewrite notify_effects. unfold modify. eexists. split; [reflexivity|].
    simpl. rewrite Hm, Hc, Hf, Ht, Hr. auto 10.
  - unfold mbind, M_bind, mret, M_ret. unfold modify at 1.
    destruct (forEach_lowerStock_effects (items cartData)
                (set_TransactionHistory (fun docs => docs ++ [t]) s))
      as (s1 & -> & Hm & Hc & Hf & Ht & Hr).
    rewrite notify_effects. unfold modify, gets. simpl. rewrite Ht. simpl.
    rewrite last_snoc. eexists. split; [reflexivity|].
    simpl. rewrite Hm, Hc, Hf, Ht, Hr. auto 10.
Qed.

(** The three ways the wallet step ends. *)
Lemma payFromWallet_cases (auth : AuthService) (cartData : Cart)
  (authHeader : option string) (s : State) :
  (exists balance,
     profile_walletBalance auth = inr balance
     /\ PrimFloat.ltb balance (finalPrice cartData) = false
     /\ deduct_balance auth (finalPrice cartData) = inr tt
     /\ payFromWallet auth cartData authHeader s
        = (inr tt,
           set_requests
             (fun log => (log ++ [GET_profile authHeader])
                           ++ [POST_deduct_balance (finalPrice cartData) authHeader]) s))
  \/ (exists message,
        ((exists reason,
            profile_walletBalance auth = inl reason
            /\ message = "Wallet payment failed: " +:+ reason)
         \/ (exists balance,
               profile_walletBalance auth = inr balance
               /\ PrimFloat.ltb balance (finalPrice cartData) = true
               /\ message = "Wallet payment failed: Insufficient wallet balance"))
        /\ payFromWallet auth cartData authHeader s
           = (inl message, set_requests (fun log => log ++ [GET_profile authHeader]) s))
  \/ (exists balance reason,
        profile_walletBalance auth = inr balance
        /\ PrimFloat.ltb balance (finalPrice cartData) = false
        /\ deduct_balance auth (finalPrice cartData) = inl reason
        /\ payFromWallet auth cartData authHeader s
           = (inl ("Wallet payment failed: " +:+ reason),
              set_requests
                (fun log => (log ++ [GET_profile authHeader])
                              ++ [POST_deduct_balance (finalPrice cartData) authHeader]) s)).
Proof.
  unfold payFromWallet, axios_get_profile, axios_post_deduct_balance. unfold_M.
  destruct (profile_walletBalance auth) as [reason | balance] eqn:Hp.
  - right. left. eexists. split; [left; eauto|]. reflexivity.
  - destruct (PrimFloat.ltb balance (finalPrice cartData)) eqn:Hlt.
    + right. left. eexists. split; [right; eauto|]. reflexivity.
    + destruct (deduct_balance auth (finalPrice cartData)) as [reason | []] eqn:Hd.
      * right. right. exists balance, reason. auto.
      * left. exists balance. auto.
Qed.

Lemma checkout_invalid_method (auth : AuthService) (userId : string)
  (checkoutData : CheckoutDto.t) (authHeader : option string) (s : State) :
  currentItems s userId <> [] ->
  PaymentMethod_of_string (toUpperCase (CheckoutDto.paymentMethod checkoutData)) = None ->
  checkout auth userId checkoutData authHeader s = (inl "Invalid payment method", s).
Proof.
  intros Hne Hpm. destruct (loadCartData_lines userId s Hne) as [Hload Hitems].
  unfold checkout. unfold mbind at 1. unfold M_bind at 1. rewrite Hload.
  destruct (length (items (cartDataOf s userId)) =? 0)%nat eqn:Hlen.
  - apply length_eqb_0 in Hlen. congruence.
  - rewrite Hpm. reflexivity.
Qed.

(** Every way a checkout ends. *)
Lemma checkout_cases (auth : AuthService) (userId : string)
  (checkoutData : CheckoutDto.t) (authHeader : option string) (s : State) :
  (currentItems s userId = []
   /\ exists s',
        checkout auth userId checkoutData authHeader s = (inl "Cart is empty", s')
        /\ same_observables s s')
  \/ (currentItems s userId <> []
      /\ PaymentMethod_of_string (toUpperCase (CheckoutDto.paymentMethod checkoutData))
         = None
      /\ checkout auth userId checkoutData authHeader s
         = (inl "Invalid payment method", s))
  \/ (currentItems s userId <> []
      /\ PaymentMethod_of_string (toUpperCase (CheckoutDto.paymentMethod checkoutData))
         = Some WALLET
      /\ exists message s1,
           payFromWallet auth (cartDataOf s userId) authHeader s = (inl message, s1)
           /\ checkout auth userId checkoutData authHeader s = (inl message, s1))
  \/ (currentItems s userId <> []
      /\ exists paymentMethod s1 s',
           PaymentMethod_of_string (toUpperCase (CheckoutDto.paymentMethod checkoutData))
             = Some paymentMethod
           /\ ((paymentMethod <> WALLET /\ s1 = s)
               \/ (paymentMethod = WALLET
                   /\ payFromWallet auth (cartDataOf s userId) authHeader s
                      = (inr tt, s1)))
           /\ settle auth userId checkoutData authHeader (cartDataOf s userId)
                paymentMethod s1
              = (inr (newTransaction userId (cartDataOf s userId) paymentMethod
                        checkoutData), s')
           /\ checkout auth userId checkoutData authHeader s
              = (inr (newTransaction userId (cartDataOf s userId) paymentMethod
                        checkoutData), s')).
Proof.
  destruct (decide (currentItems s userId = [])) as [Hnil | Hne].
  - left. split; [exact Hnil|]. apply checkout_no_lines. exact Hnil.
  - right.
    destruct (PaymentMethod_of_string
                (toUpperCase (CheckoutDto.paymentMethod checkoutData)))
      as [paymentMethod|] eqn:Hpm.
    + right.
      pose proof (checkout_with_lines auth userId checkoutData authHeader s
                    paymentMethod Hne Hpm) as Hc.
      unfold mbind at 1 in Hc. unfold M_bind at 1 in Hc.
      destruct (decide (paymentMethod = WALLET)) as [Hw | Hw].
      * destruct (payFromWallet auth (cartDataOf s userId) authHeader s)
          as [[message | []] s1] eqn:Hpay.
        -- left. subst paymentMethod. split; [exact Hne|]. split; [reflexivity|].
           exists message, s1. auto.
        -- right. split; [exact Hne|].
           destruct (settle_effects auth userId checkoutData authHeader
                       (cartDataOf s userId) paymentMethod s1) as (s' & Hs & _).
           exists paymentMethod, s1, s'. split; [reflexivity|].
           split; [right; auto|]. split; [exact Hs|]. rewrite Hc. exact Hs.
      * right. split; [exact Hne|]. unfold mret, M_ret in Hc.
        destruct (settle_effects auth userId checkoutData authHeader
                    (cartDataOf s userId) paymentMethod s) as (s' & Hs & _).
        exists paymentMethod, s, s'. split; [reflexivity|].
        split; [left; auto|]. split; [exact Hs|]. rewrite Hc. exact Hs.
    + left. split; [exact Hne|]. split; [reflexivity|].
      apply checkout_invalid_method; assumption.
Qed.

(** X16. For a cart with lines, a payment method that, upper-cased, is
    none of CASH, CREDIT_CARD, DEBIT_CARD, UPI, NET_BANKING and WALLET
    makes [checkout] throw 'Invalid payment method' with the state
    exactly as it was: nothing is requested, saved or deleted. *)
Theorem checkout_invalid_payment_method (auth : AuthService) (userId : string)
  (checkoutData : CheckoutDto.t) (authHeader : option string) (s : State) :
  currentItems s userId <> [] ->
  let method := toUpperCase (CheckoutDto.paymentMethod checkoutData) in
  method <> "CASH" -> method <> "CREDIT_CARD" -> method <> "DEBIT_CARD" ->
  method <> "UPI" -> method <> "NET_BANKING" -> method <> "WALLET" ->
  checkout auth userId checkoutData authHeader s = (inl "Invalid payment method", s).
Proof.
  intros Hne method H1 H2 H3 H4 H5 H6. apply checkout_invalid_method; [exact Hne|].
  unfold PaymentMethod_of_string. fold method.
  repeat match goal with
         | |- context [String.eqb method ?x] =>
             destruct (String.eqb_spec method x); [contradiction|]
         end.
  reflexivity.
Qed.

(** ** Checkout: what a success and what a failure leave *)

Lemma payFromWallet_paid (auth : AuthService) (cartData : Cart)
  (authHeader : option string) (s s1 : State) :
  payFromWallet auth cartData authHeader s = (inr tt, s1) ->
  (exists balance,
     profile_walletBalance auth = inr balance
     /\ PrimFloat.ltb balance (finalPrice cartData) = false
     /\ deduct_balance auth (finalPrice cartData) = inr tt)
  /\ s1 = set_requests
            (fun log => (log ++ [GET_profile authHeader])
                          ++ [POST_deduct_balance (finalPrice cartData) authHeader]) s.
Proof.
  intros Hpay.
  destruct (payFromWallet_cases auth cartData authHeader s)
    as [(balance & Hp & Hlt & Hd & Heq)
       | [(message & _ & Heq) | (balance & reason & _ & _ & _ & Heq)]];
    rewrite Heq in Hpay; try discriminate.
  injection Hpay as <-. split; [eauto | reflexivity].
Qed.

Lemma checkout_succeeded (auth : AuthService) (userId : string)
  (checkoutData : CheckoutDto.t) (authHeader : option string) (s s' : State)
  (t : ITransactionHistory.t) :
  checkout auth userId checkoutData authHeader s = (inr t, s') ->
  exists paymentMethod,
    PaymentMethod_of_string (toUpperCase (CheckoutDto.paymentMethod checkoutData))
      = Some paymentMethod
    /\ currentItems s userId <> []
    /\ t = newTransaction userId (cartDataOf s userId) paymentMethod checkoutData
    /\ inMemoryCarts s' =
         (if USE_IN_MEMORY then delete userId (inMemoryCarts s) else inMemoryCarts s)
    /\ CartModel s' =
         (if USE_IN_MEMORY then CartModel s else delete userId (CartModel s))
    /\ Fruit s' = lowered (items (cartDataOf s userId)) (Fruit s)
    /\ TransactionHistory s' =
         (if USE_IN_MEMORY then TransactionHistory s else TransactionHistory s ++ [t])
    /\ requests s' =
         requests s
           ++ walletRequests paymentMethod (finalPrice (cartDataOf s userId)) authHeader
           ++ [POST_notify_order (finalPrice (cartDataOf s userId)) authHeader]
    /\ (paymentMethod = WALLET ->
          exists balance,
            profile_walletBalance auth = inr balance
            /\ PrimFloat.ltb balance (finalPrice (cartDataOf s userId)) = false
            /\ deduct_balance auth (finalPrice (cartDataOf s userId)) = inr tt).
Proof.
  intros Hc.
  destruct (checkout_cases auth userId checkoutData authHeader s)
    as [(_ & s0 & Heq & _) | [(_ & _ & Heq) | [(_ & _ & m & s0 & _ & Heq)
       | (Hne & paymentMethod & s1 & s0 & Hpm & Hpay & Hs & Heq)]]];
    rewrite Heq in Hc; try discriminate.
  injection Hc as <- <-. exists paymentMethod.
  split; [exact Hpm|]. split; [exact Hne|]. split; [reflexivity|].
  destruct (settle_effects auth userId checkoutData authHeader (cartDataOf s userId)
              paymentMethod s1) as (s2 & Hs2 & Hm & Hcm & Hf & Ht & Hr).
  rewrite Hs2 in Hs. injection Hs as ->.
  unfold walletRequests.
  destruct Hpay as [[Hw ->] | [Hw Hpay]].
  - destruct (decide (paymentMethod = WALLET)); [contradiction|].
    rewrite Hm, Hcm, Hf, Ht, Hr. simpl. repeat split; try reflexivity.
    intros Hw'. contradiction.
  - destruct (decide (paymentMethod = WALLET)); [|contradiction].
    destruct (payFromWallet_paid auth _ authHeader s s1 Hpay) as [Hbal ->].
    rewrite Hm, Hcm, Hf, Ht, Hr. simpl. repeat split; try reflexivity.
    + rewrite <- !app_assoc. reflexivity.
    + intros _. exact Hbal.
Qed.

(** X17. With method WALLET and a cart with lines, an error of the
    balance service fails the checkout as 'Wallet payment failed: '
    followed by the service's message.  When the balance query fails
    only that query was sent; when the deduction is refused the query
    and the deduction of finalPrice were sent.  Either way no
    transaction is created and the carts and the catalog are as
    before. *)
Theorem checkout_wallet_service_error (auth : AuthService) (userId : string)
  (checkoutData : CheckoutDto.t) (authHeader : option string) (s : State) :
  currentItems s userId <> [] ->
  toUpperCase (CheckoutDto.paymentMethod checkoutData) = "WALLET" ->
  (forall reason,
     profile_walletBalance auth = inl reason ->
     exists s',
       checkout auth userId checkoutData authHeader s
         = (inl ("Wallet payment failed: " +:+ reason), s')
       /\ requests s' = requests s ++ [GET_profile authHeader]
       /\ TransactionHistory s' = TransactionHistory s
       /\ inMemoryCarts s' = inMemoryCarts s
       /\ CartModel s' = CartModel s
       /\ Fruit s' = Fruit s)
  /\ (forall balance reason,
        profile_walletBalance auth = inr balance ->
        PrimFloat.ltb balance (finalPrice (cartDataOf s userId)) = false ->
        deduct_balance auth (finalPrice (cartDataOf s userId)) = inl reason ->
        exists s',
          checkout auth userId checkoutData authHeader s
            = (inl ("Wallet payment failed: " +:+ reason), s')
          /\ requests s' =
               requests s
                 ++ [GET_profile authHeader;
                     POST_deduct_balance (finalPrice (cartDataOf s userId)) authHeader]
          /\ TransactionHistory s' = TransactionHistory s
          /\ inMemoryCarts s' = inMemoryCarts s
          /\ CartModel s' = CartModel s
          /\ Fruit s' = Fruit s).
Proof.
  intros Hne Hpm.
  assert (Hc : forall r s1,
             payFromWallet auth (cartDataOf s userId) authHeader s = (inl r, s1) ->
             checkout auth userId checkoutData authHeader s = (inl r, s1)).
  { intros r s1 Hpay.
    rewrite (checkout_with_lines auth userId checkoutData authHeader s WALLET Hne)
      by (rewrite Hpm; reflexivity).
    destruct (decide (WALLET = WALLET)) as [_ | Hw]; [|contradiction].
    unfold mbind at 1. unfold M_bind at 1. rewrite Hpay. reflexivity. }
  split.
  - intros reason Hp. eexists. split.
    + apply Hc. unfold payFromWallet, axios_get_profile. unfold_M.
      rewrite Hp. reflexivity.
    + simpl. auto 10.
  - intros balance reason Hp Hlt Hd. eexists. split.
    + apply Hc. unfold payFromWallet, axios_get_profile, axios_post_deduct_balance.
      unfold_M. rewrite Hp, Hlt, Hd. reflexivity.
    + simpl. rewrite <- app_assoc. auto 10.
Qed.

(** X18. A checkout that answers a transaction has deleted the user's
    cart - [getCart] answers the empty cart afterwards - and left every
    other user's cart alone.  The transaction copies the cart: it
    belongs to the user, its totalAmount, discountAmount and
    finalAmount are the cart's totalPrice, discountAmount and
    finalPrice, its currency is INR, its status is COMPLETED and its
    payment method is the requested one, upper-cased. *)
Theorem checkout_success_effects (auth : AuthService) (userId : string)
  (checkoutData : CheckoutDto.t) (authHeader : option string) (s s' : State)
  (t : ITransactionHistory.t) :
  checkout auth userId checkoutData authHeader s = (inr t, s') ->
  storedCart s' userId = None
  /\ fst (getCart userId s') = inr emptyCart
  /\ (forall u, u <> userId -> storedCart s' u = storedCart s u)
  /\ ITransactionHistory.userId t = userId
  /\ ITransactionHistory.totalAmount t = totalPrice (cartDataOf s userId)
  /\ ITransactionHistory.discountAmount t = discountAmount (cartDataOf s userId)
  /\ ITransactionHistory.finalAmount t = finalPrice (cartDataOf s userId)
  /\ ITransactionHistory.currency t = "INR"
  /\ ITransactionHistory.status t = COMPLETED
  /\ PaymentMethod_of_string (toUpperCase (CheckoutDto.paymentMethod checkoutData))
     = Some (ITransactionHistory.paymentMethod t).
Proof.
  intros Hc.
  destruct (checkout_succeeded auth userId checkoutData authHeader s s' t Hc)
    as (paymentMethod & Hpm & _ & -> & Hm & Hcm & _ & _ & _ & _).
  assert (Hgone : storedCart s' userId = None).
  { unfold storedCart. rewrite Hm, Hcm.
    destruct USE_IN_MEMORY; apply lookup_delete_eq. }
  split; [exact Hgone|].
  split; [rewrite getCart_eq, viewCart_stored, Hgone; reflexivity|].
  split.
  { intros u Hne. unfold storedCart. rewrite Hm, Hcm.
    destruct USE_IN_MEMORY; apply lookup_delete_ne; congruence. }
  simpl. auto 10.
Qed.

(** X19. The requests of a checkout that answers a transaction are, in
    order: for WALLET the balance query and the deduction of exactly
    the transaction's finalAmount - and then the balance reported was
    not below that amount and the deduction was accepted - and for
    every method, last, one notification carrying the finalAmount.  For
    the other methods nothing is asked of the balance service. *)
Theorem checkout_success_requests (auth : AuthService) (userId : string)
  (checkoutData : CheckoutDto.t) (authHeader : option string) (s s' : State)
  (t : ITransactionHistory.t) :
  checkout auth userId checkoutData authHeader s = (inr t, s') ->
  requests s' =
    requests s
      ++ (if decide (ITransactionHistory.paymentMethod t = WALLET)
          then [GET_profile authHeader;
                POST_deduct_balance (ITransactionHistory.finalAmount t) authHeader]
          else [])
      ++ [POST_notify_order (ITransactionHistory.finalAmount t) authHeader]
  /\ (ITransactionHistory.paymentMethod t = WALLET ->
        exists balance,
          profile_walletBalance auth = inr balance
          /\ PrimFloat.ltb balance (ITransactionHistory.finalAmount t) = false
          /\ deduct_balance auth (ITransactionHistory.finalAmount t) = inr tt).
Proof.
  intros Hc.
  destruct (checkout_succeeded auth userId checkoutData authHeader s s' t Hc)
    as (paymentMethod & _ & _ & -> & _ & _ & _ & _ & Hr & Hw).
  split; [exact Hr | exact Hw].
Qed.

(** ** Checkout: the notification cannot fail it *)

Lemma settle_withNotify (auth : AuthService) (answer : float -> string + unit)
  (userId : string) (checkoutData : CheckoutDto.t) (authHeader : option string)
  (cartData : Cart) (paymentMethod : PaymentMethod) (s : State) :
  settle (withNotify auth answer) userId checkoutData authHeader cartData paymentMethod s
  = settle auth userId checkoutData authHeader cartData paymentMethod s.
Proof.
  unfold settle. cbv zeta. unfold mbind, M_bind, mret, M_ret.
  destruct USE_IN_MEMORY.
  - destruct (forEach lowerStock (items cartData) s) as [[message | []] s1];
      [reflexivity|]. rewrite !notify_effects. reflexivity.
  - destruct (modify _ s) as [[message | []] s0]; [reflexivity|].
    destruct (forEach lowerStock (items cartData) s0) as [[message | []] s1];
      [reflexivity|]. rewrite !notify_effects. reflexivity.
Qed.

(** X20. The answer of the notification service has no influence on a
    checkout: with any other answer to the notification, the checkout
    gives the same result - the same transaction or the same error -
    and the same state. *)
Theorem checkout_ignores_notification (auth : AuthService)
  (answer : float -> string + unit) (userId : string)
  (checkoutData : CheckoutDto.t) (authHeader : option string) (s : State) :
  checkout (withNotify auth answer) userId checkoutData authHeader s
  = checkout auth userId checkoutData authHeader s.
Proof.
  unfold checkout. unfold mbind at 1 3. unfold M_bind at 1 3.
  destruct (loadCartData userId s) as [[message | cartData] s0]; [reflexivity|].
  destruct (length (items cartData) =? 0)%nat; [reflexivity|].
  destruct (PaymentMethod_of_string _) as [paymentMethod|]; [|reflexivity].
  unfold mbind, M_bind.
  change (payFromWallet (withNotify auth answer)) with (payFromWallet auth).
  destruct (if decide (paymentMethod = WALLET) then _ else _) as [[message | []] s1];
    [reflexivity|].
  apply settle_withNotify.
Qed.

(** ** Checkout: the stock *)

Lemma withStock_same (fruit : IFruit.t) :
  withStock fruit (IFruit.stockQuantity fruit) = fruit.
Proof. destruct fruit. reflexivity. Qed.

Lemma lowered_lookup (id : string) (l : list CartItem) (catalog : gmap string IFruit.t) :
  lowered l catalog !! id =
    (fun fruit => withStock fruit (IFruit.stockQuantity fruit - unitsOf id l))
      <$> catalog !! id.
Proof.
  revert catalog. induction l as [| item l IH]; intros catalog.
  - unfold lowered, unitsOf. simpl.
    destruct (catalog !! id) as [fruit|]; simpl; [|reflexivity].
    rewrite Z.sub_0_r, withStock_same. reflexivity.
  - unfold lowered in *. simpl. rewrite IH. unfold unitsOf. rewrite filter_cons.
    destruct (decide (fruitId item = id)) as [Heq | Hne].
    + rewrite Heq, lookup_alter_eq.
      destruct (catalog !! id) as [fruit|]; simpl; [|reflexivity].
      unfold withStock. simpl. f_equal. f_equal. unfold sumZ. simpl. lia.
    + rewrite lookup_alter_ne by exact Hne. reflexivity.
Qed.

(** X21. A checkout that answers a transaction has lowered the
    stockQuantity of every catalog fruit by the units, paid and free,
    that the cart held of it, without any check against the stock - the
    result may be negative - and has changed nothing else: names,
    prices, tiers and inStock flags are as before, a fruit without
    lines keeps its stock, and no fruit is added or dropped. *)
Theorem checkout_lowers_stock (auth : AuthService) (userId : string)
  (checkoutData : CheckoutDto.t) (authHeader : option string) (s s' : State)
  (t : ITransactionHistory.t) (id : string) :
  checkout auth userId checkoutData authHeader s = (inr t, s') ->
  Fruit s' !! id =
    (fun fruit =>
       withStock fruit
         (IFruit.stockQuantity fruit - unitsOf id (items (cartDataOf s userId))))
      <$> Fruit s !! id.
Proof.
  intros Hc.
  destruct (checkout_succeeded auth userId checkoutData authHeader s s' t Hc)
    as (paymentMethod & _ & _ & _ & _ & _ & -> & _).
  apply lowered_lookup.
Qed.

(** ** Checkout: all or nothing *)

(** X22. A checkout that throws 'Cart is empty', 'Invalid payment
    method' or 'Wallet payment failed: ...' has created no transaction,
    has left every cart and the catalog as they were, and has taken no
    money: whatever deduction it requested was answered with an error
    by the balance service. *)
Theorem checkout_failure_changes_nothing (auth : AuthService) (userId : string)
  (checkoutData : CheckoutDto.t) (authHeader : option string) (s s' : State) :
  checkout auth userId checkoutData authHeader s = (inl "Cart is empty", s')
  \/ checkout auth userId checkoutData authHeader s = (inl "Invalid payment method", s')
  \/ (exists reason,
        checkout auth userId checkoutData authHeader s
        = (inl ("Wallet payment failed: " +:+ reason), s')) ->
  TransactionHistory s' = TransactionHistory s
  /\ Fruit s' = Fruit s
  /\ CartModel s' = CartModel s
  /\ (forall u, viewCart s' u = viewCart s u)
  /\ exists sent,
       requests s' = requests s ++ sent
       /\ forall amount header,
            In (POST_deduct_balance amount header) sent ->
            exists reason, deduct_balance auth amount = inl reason.
Proof.
  intros Hthrown.
  assert (exists message,
            checkout auth userId checkoutData authHeader s = (inl message, s'))
    as [message Hc]
    by (destruct Hthrown as [H | [H | [reason H]]]; eauto).
  clear Hthrown.
  destruct (checkout_cases auth userId checkoutData authHeader s)
    as [(_ & s0 & Heq & Hobs) | [(_ & _ & Heq) | [(_ & _ & m & s0 & Hpay & Heq)
       | (_ & paymentMethod & s1 & s0 & _ & _ & _ & Heq)]]];
    rewrite Heq in Hc; try discriminate; injection Hc as <- <-.
  - destruct Hobs as (Hview & Hcm & Hf & Ht & Hr).
    repeat split; try assumption. exists []. rewrite app_nil_r.
    split; [exact Hr|]. intros amount header [].
  - repeat split; try reflexivity. exists []. rewrite app_nil_r.
    split; [reflexivity|]. intros amount header [].
  - destruct (payFromWallet_cases auth (cartDataOf s userId) authHeader s)
      as [(balance & _ & _ & _ & Hpay')
         | [(m' & _ & Hpay') | (balance & reason & _ & _ & Hd & Hpay')]];
      rewrite Hpay' in Hpay; try discriminate; injection Hpay as <- <-.
    + repeat split; try reflexivity. exists [GET_profile authHeader].
      split; [reflexivity|]. intros amount header [Hin | []]. discriminate.
    + repeat split; try reflexivity.
      exists [GET_profile authHeader;
              POST_deduct_balance (finalPrice (cartDataOf s userId)) authHeader].
      split; [simpl; rewrite <- app_assoc; reflexivity|].
      intros amount header [Hin | [Hin | []]]; [discriminate|].
      injection Hin as <- <-. eauto.
Qed.

(** ** The transaction history *)

Lemma getTransactionHistory_snoc (userId u : string) (docs : list ITransactionHistory.t)
  (t : ITransactionHistory.t) :
  ITransactionHistory.userId t = userId ->
  reverse (filter (fun d => ITransactionHistory.userId d = u) (docs ++ [t]))
  = (if decide (u = userId) then [t] else [])
      ++ reverse (filter (fun d => ITransactionHistory.userId d = u) docs).
Proof.
  intros Ht. rewrite filter_app, reverse_app. f_equal.
  rewrite filter_cons, filter_nil.
  destruct (decide (ITransactionHistory.userId t = u)) as [Heq | Hne];
    destruct (decide (u = userId)); try reflexivity; congruence.
Qed.

(** X23. [getTransactionHistory] answers the user's own transactions
    only.  With the database storage a checkout that answers a
    transaction puts it first in that user's history, before the
    earlier ones, and leaves every other user's history as it was; with
    the in-memory storage the transaction is not saved, and every
    history is as before the checkout. *)
Theorem getTransactionHistory_after_checkout (auth : AuthService) (userId : string)
  (checkoutData : CheckoutDto.t) (authHeader : option string) (s s' : State)
  (t : ITransactionHistory.t) :
  checkout auth userId checkoutData authHeader s = (inr t, s') ->
  (forall u, exists transactions,
     getTransactionHistory u s' = (inr transactions, s')
     /\ Forall (fun d => ITransactionHistory.userId d = u) transactions)
  /\ (USE_IN_MEMORY = false ->
        (exists earlier,
           fst (getTransactionHistory userId s) = inr earlier
           /\ fst (getTransactionHistory userId s') = inr (t :: earlier))
        /\ forall u, u <> userId ->
             getTransactionHistory u s' = (fst (getTransactionHistory u s), s'))
  /\ (USE_IN_MEMORY = true ->
        forall u, getTransactionHistory u s' = (fst (getTransactionHistory u s), s')).
Proof.
  intros Hc.
  destruct (checkout_succeeded auth userId checkoutData authHeader s s' t Hc)
    as (paymentMethod & _ & _ & Ht & _ & _ & _ & Hhist & _).
  assert (Hu : ITransactionHistory.userId t = userId) by (rewrite Ht; reflexivity).
  unfold getTransactionHistory, gets. simpl. split.
  { intros u. eexists. split; [reflexivity|]. apply Forall_forall. intros d Hin.
    apply elem_of_reverse, list_elem_of_filter in Hin. apply Hin. }
  split.
  - intros Huse. rewrite Huse in Hhist. rewrite Hhist. split.
    + eexists. split; [reflexivity|].
      rewrite (getTransactionHistory_snoc userId userId _ t Hu).
      destruct (decide (userId = userId)); [reflexivity | contradiction].
    + intros u Hne. rewrite (getTransactionHistory_snoc userId u _ t Hu).
      destruct (decide (u = userId)); [contradiction | reflexivity].
  - intros Huse u. rewrite Huse in Hhist. rewrite Hhist. reflexivity.
Qed.

(** ** The catalog and the cart *)


(** X25. A cart line keeps the price, name and tier it was created
    with.  [updateFruit] changes the catalog only, not the carts; and
    when more of the fruit is added to a line afterwards, the new total
    is resolved under the catalog's new tier while the line's price and
    stored tier stay what they were. *)
Theorem updateFruit_keeps_line_price (trim : string -> string) (id : string)
  (updateData : UpdateFruitDto.t) (s : State) (fruit : IFruit.t) :
  Fruit s !! id = Some fruit ->
  let s1 := snd (updateFruit trim id updateData s) in
  let tier := default (IFruit.offerType fruit) (UpdateFruitDto.offerType updateData) in
  inMemoryCarts s1 = inMemoryCarts s
  /\ CartModel s1 = CartModel s
  /\ forall (userId : string) (q : Z) (cart : Cart) (i : nat) (line : CartItem),
       default (IFruit.inStock fruit) (UpdateFruitDto.inStock updateData) = true ->
       q <= default (IFruit.stockQuantity fruit) (UpdateFruitDto.stockQuantity updateData) ->
       storedCart s userId = Some cart ->
       findIndex (isFruit id) (items cart) = Some i ->
       items cart !! i = Some line ->
       exists cart' s2 line',
         addToCart userId {| AddToCartDto.fruitId := id; AddToCartDto.quantity := q |} s1
           = (inr cart', s2)
         /\ items cart' !! i = Some line'
         /\ price line' = price line
         /\ name line' = name line
         /\ offerType line' = offerType line
         /\ quantity line' = paid (calculatePaidAndFree
                                     (quantity line + freeItems line + q) tier)
         /\ freeItems line' = free (calculatePaidAndFree
                                      (quantity line + freeItems line + q) tier).
Proof.
  intros Hf s1 tier. unfold s1, updateFruit. unfold_M. rewrite Hf. simpl.
  split; [reflexivity|]. split; [reflexivity|].
  intros userId q cart i line Hin Hq Hc Hi Hx.
  match goal with
  | |- context [addToCart _ _ ?st] => set (s' := st)
  end.
  set (itemData := {| AddToCartDto.fruitId := id; AddToCartDto.quantity := q |}).
  assert (Hc' : storedCart s' userId = Some cart).
  { unfold storedCart in *. unfold s'. destruct USE_IN_MEMORY; exact Hc. }
  destruct (addToCart_existing userId itemData s' _ cart i
              ltac:(unfold s'; simpl; apply lookup_insert_eq) Hin Hq Hc' Hi)
    as (line0 & Hx0 & _ & Hadd).
  rewrite Hx in Hx0. injection Hx0 as <-. cbv zeta in Hadd.
  eexists. eexists. eexists. split; [exact Hadd|].
  split.
  { simpl. apply list_lookup_insert_eq. apply lookup_lt_Some with line. exact Hx. }
  simpl. auto 10.
Qed.

(** ** Deleting a fruit *)

Lemma getCart_ignores_catalog (g : gmap string IFruit.t -> gmap string IFruit.t)
  (userId : string) (s : State) :
  getCart userId (set_Fruit g s)
  = (fst (getCart userId s), set_Fruit g (snd (getCart userId s))).
Proof.
  unfold getCart, getInMemoryCart. unfold_M.
  destruct USE_IN_MEMORY; simpl; [|reflexivity].
  destruct (inMemoryCarts s !! userId); reflexivity.
Qed.

Lemma updateCartItem_ignores_catalog (g : gmap string IFruit.t -> gmap string IFruit.t)
  (userId fruitId' : string) (updateData : UpdateCartItemDto.t) (s : State) :
  updateCartItem userId fruitId' updateData (set_Fruit g s)
  = (fst (updateCartItem userId fruitId' updateData s),
     set_Fruit g (snd (updateCartItem userId fruitId' updateData s))).
Proof.
  unfold updateCartItem, getInMemoryCart. unfold_M.
  destruct USE_IN_MEMORY; simpl.
  - destruct (inMemoryCarts s !! userId) as [cart|]; simpl.
    + destruct (findIndex _ (items cart)); reflexivity.
    + reflexivity.
  - destruct (CartModel s !! userId) as [cart|]; simpl; [|reflexivity].
    destruct (findIndex _ (items cart)); reflexivity.
Qed.

Lemma removeFromCart_ignores_catalog (g : gmap string IFruit.t -> gmap string IFruit.t)
  (userId fruitId' : string) (s : State) :
  removeFromCart userId fruitId' (set_Fruit g s)
  = (fst (removeFromCart userId fruitId' s),
     set_Fruit g (snd (removeFromCart userId fruitId' s))).
Proof.
  unfold removeFromCart, getInMemoryCart. unfold_M.
  destruct USE_IN_MEMORY; simpl.
  - destruct (inMemoryCarts s !! userId) as [cart|]; simpl.
    + destruct (findIndex _ (items cart)); reflexivity.
    + reflexivity.
  - destruct (CartModel s !! userId) as [cart|]; simpl; [|reflexivity].
    destruct (findIndex _ (items cart)); reflexivity.
Qed.

(** X26. [deleteFruit] answers [null] and changes nothing for a missing
    fruit; otherwise it answers the fruit and drops it from the
    catalog, and from the catalog only: the carts keep their lines of
    it.  Afterwards [addToCart] of the fruit throws 'Fruit not found',
    while [getCart], [updateCartItem] and [removeFromCart], which do
    not read the catalog, answer what they would have answered before
    the deletion. *)
Theorem deleteFruit_keeps_cart_lines (id : string) (s : State) :
  (Fruit s !! id = None -> deleteFruit id s = (inr None, s))
  /\ (forall fruit,
        Fruit s !! id = Some fruit ->
        let s1 := snd (deleteFruit id s) in
        fst (deleteFruit id s) = inr (Some fruit)
        /\ Fruit s1 = delete id (Fruit s)
        /\ inMemoryCarts s1 = inMemoryCarts s
        /\ CartModel s1 = CartModel s
        /\ (forall userId itemData,
              AddToCartDto.fruitId itemData = id ->
              addToCart userId itemData s1 = (inl "Fruit not found", s1))
        /\ (forall userId, fst (getCart userId s1) = fst (getCart userId s))
        /\ (forall userId fruitId' updateData,
              fst (updateCartItem userId fruitId' updateData s1)
              = fst (updateCartItem userId fruitId' updateData s))
        /\ (forall userId fruitId',
              fst (removeFromCart userId fruitId' s1)
              = fst (removeFromCart userId fruitId' s))).
Proof.
  split.
  - intros Hnone. unfold deleteFruit. unfold_M. rewrite Hnone. reflexivity.
  - intros fruit Hf s1. unfold s1, deleteFruit. unfold_M. rewrite Hf. simpl.
    fold (set_Fruit (delete id) s).
    split; [reflexivity|]. split; [reflexivity|]. split; [reflexivity|].
    split; [reflexivity|]. split.
    { intros userId itemData Hid. apply addToCart_missing.
      rewrite Hid. simpl. apply lookup_delete_eq. }
    split; [intros userId; rewrite getCart_ignores_catalog; reflexivity|].
    split.
    + intros userId fruitId' updateData.
      rewrite updateCartItem_ignores_catalog. reflexivity.
    + intros userId fruitId'. rewrite removeFromCart_ignores_catalog. reflexivity.
Qed.

(** ** Pages of fruits *)

Lemma or_default_pos (n d : Z) : 1 <= n -> or_default (Some n) d = n.
Proof. intros Hn. destruct n; simpl; try reflexivity; lia. Qed.

Lemma getFruits_list (page limit : Z) (found : list IFruit.t) (s : State) :
  1 <= page -> 1 <= limit ->
  getFruits None (Some page) (Some limit) found s =
    (inr {| GetFruitsResult.fruits :=
              take (Z.to_nat (Z.min limit 50))
                (drop (Z.to_nat ((page - 1) * Z.min limit 50)) found);
            GetFruitsResult.fruit := None;
            GetFruitsResult.pagination :=
              {| Pagination.page := page;
                 Pagination.limit := Z.min limit 50;
                 Pagination.total := Z.of_nat (length found);
                 Pagination.totalPages :=
                   Math.ceil_div (Z.of_nat (length found)) (Z.min limit 50);
                 Pagination.hasMore :=
                   page <? Math.ceil_div (Z.of_nat (length found)) (Z.min limit 50) |} |},
     s).
Proof.
  intros Hp Hl. unfold getFruits. cbv zeta.
  rewrite (or_default_pos page 1 Hp), (or_default_pos limit 10 Hl).
  replace (if 50 <? limit then 50 else limit) with (Z.min limit 50)
    by (destruct (Z.ltb_spec 50 limit); lia).
  reflexivity.
Qed.

(** X27. For a page number and a limit of at least 1, [getFruits]
    answers the page with the limit cut to 50: the fruits are the slice
    of the matching fruits from [(page - 1) * limit], at most [limit]
    of them and fewer only on the last page or beyond; totalPages is
    the least number of pages that hold all matching fruits; and
    hasMore holds exactly when fruits remain after this page.  A page
    or limit that is missing or zero counts as page 1 and limit 10. *)
Theorem getFruits_pagination (page limit : Z) (found : list IFruit.t) (s : State) :
  1 <= page -> 1 <= limit ->
  (exists result,
     getFruits None (Some page) (Some limit) found s = (inr result, s)
     /\ Pagination.page (GetFruitsResult.pagination result) = page
     /\ Pagination.limit (GetFruitsResult.pagination result) = Z.min limit 50
     /\ Pagination.total (GetFruitsResult.pagination result) = Z.of_nat (length found)
     /\ (Z.of_nat (length found)
           <= Pagination.totalPages (GetFruitsResult.pagination result) * Z.min limit 50
           < Z.of_nat (length found) + Z.min limit 50)
     /\ GetFruitsResult.fruits result
        = take (Z.to_nat (Z.min limit 50))
            (drop (Z.to_nat ((page - 1) * Z.min limit 50)) found)
     /\ Z.of_nat (length (GetFruitsResult.fruits result))
        = Z.max 0 (Z.min (Z.min limit 50)
                     (Z.of_nat (length found) - (page - 1) * Z.min limit 50))
     /\ (Pagination.hasMore (GetFruitsResult.pagination result) = true
         <-> page * Z.min limit 50 < Z.of_nat (length found)))
  /\ getFruits None None None found s = getFruits None (Some 1) (Some 10) found s
  /\ getFruits None (Some 0) (Some 0) found s = getFruits None (Some 1) (Some 10) found s.
Proof.
  intros Hp Hl. split; [|split; reflexivity].
  eexists. split; [apply getFruits_list; assumption|]. simpl.
  set (L := Z.min limit 50). assert (HL : 1 <= L) by (unfold L; lia).
  pose proof (ceil_div_bounds (Z.of_nat (length found)) L ltac:(lia)) as Hceil.
  split; [reflexivity|]. split; [reflexivity|]. split; [reflexivity|].
  split; [lia|]. split; [reflexivity|]. split.
  - rewrite length_take, length_drop. nia.
  - rewrite Z.ltb_lt. nia.
Qed.

Lemma pagesUpTo_take (k : nat) (limit : Z) (found : list IFruit.t) (s : State) :
  1 <= limit ->
  pagesUpTo k limit found s = take (k * Z.to_nat (Z.min limit 50)) found.
Proof.
  intros Hl. unfold pagesUpTo. induction k as [| k IH].
  - reflexivity.
  - rewrite seq_S, map_app, concat_app, IH. cbn [map concat].
    rewrite (getFruits_list (Z.of_nat (1 + k)) limit found s) by lia.
    cbn [fst GetFruitsResult.fruits]. rewrite app_nil_r.
    replace (Z.to_nat ((Z.of_nat (1 + k) - 1) * Z.min limit 50))
      with (k * Z.to_nat (Z.min limit 50))%nat by nia.
    rewrite take_take_drop. f_equal. lia.
Qed.

(** X28. The pages of a listing partition it: for a limit of at least
    1, the fruits of pages 1 to k, one after the other, are the first
    [k * limit] matching fruits (limit cut to 50), and the pages 1 to
    totalPages together are all matching fruits, in order, each
    once. *)
Theorem getFruits_pages_cover (limit : Z) (found : list IFruit.t) (s : State) :
  1 <= limit ->
  (forall k, pagesUpTo k limit found s = take (k * Z.to_nat (Z.min limit 50)) found)
  /\ pagesUpTo
       (Z.to_nat (Math.ceil_div (Z.of_nat (length found)) (Z.min limit 50)))
       limit found s
     = found.
Proof.
  intros Hl. split; [intros k; apply pagesUpTo_take; exact Hl|].
  rewrite pagesUpTo_take by exact Hl. apply take_ge.
  pose proof (ceil_div_bounds (Z.of_nat (length found)) (Z.min limit 50) ltac:(lia)).
  nia.
Qed.

(** ** The rating gate *)

Lemma findOne_None {A : Type} (p : A -> bool) (l : list A) :
  findOne p l = None <-> Forall (fun x => p x = false) l.
Proof.
  induction l as [| x l IH]; simpl.
  - split; [constructor | reflexivity].
  - destruct (p x) eqn:Hp.
    + split; [discriminate|]. intros H. inversion H; congruence.
    + destruct (findOne p l) as [[i y]|].
      * split; [discriminate|]. intros H. inversion H as [| ? ? _ Hl]; subst.
        apply IH in Hl. discriminate.
      * split; [|reflexivity]. intros _. constructor; [exact Hp|]. apply IH. reflexivity.
Qed.

Lemma findOne_Some {A : Type} (p : A -> bool) (l : list A) (i : nat) (x : A) :
  findOne p l = Some (i, x) -> l !! i = Some x /\ p x = true.
Proof.
  revert i. induction l as [| y l IH]; intros i; simpl; [discriminate|].
  destruct (p y) eqn:Hp.
  - intros [= <- <-]. auto.
  - destruct (findOne p l) as [[j z]|]; [|discriminate].
    intros [= <- <-]. apply (IH j). reflexivity.
Qed.

Lemma isPurchase_true (userId fruitId' : string) (t : ITransactionHistory.t) :
  isPurchase userId fruitId' t = true <->
  ITransactionHistory.userId t = userId
  /\ ITransactionHistory.status t = COMPLETED
  /\ exists item,
       In item (ITransactionHistory.items t)
       /\ ITransactionItem.fruitId item = fruitId'.
Proof.
  unfold isPurchase. rewrite !andb_true_iff, String.eqb_eq, existsb_exists.
  split.
  - intros [[Hu (item & Hin & Hid)] Hs]. split; [exact Hu|]. split.
    + destruct (ITransactionHistory.status t); try discriminate. reflexivity.
    + exists item. split; [exact Hin|]. apply String.eqb_eq. exact Hid.
  - intros (Hu & Hs & item & Hin & Hid). split; [split; [exact Hu|]|].
    + exists item. split; [exact Hin|]. apply String.eqb_eq. exact Hid.
    + rewrite Hs. reflexivity.
Qed.

Lemma hasUserPurchasedFruit_bought (s : State) (userId fruitId' : string) :
  (exists transactionId, hasUserPurchasedFruit s userId fruitId' = Some transactionId)
  <-> bought s userId fruitId'.
Proof.
  unfold hasUserPurchasedFruit, bought. split.
  - intros (i & Hi).
    destruct (findOne (isPurchase userId fruitId') (TransactionHistory s))
      as [[j t]|] eqn:Hfind; [|discriminate].
    apply findOne_Some in Hfind. destruct Hfind as [Hx Hp].
    apply isPurchase_true in Hp. destruct Hp as (Hu & Hs & item & Hin & Hid).
    exists t, item. split; [|auto].
    apply list_elem_of_In. apply list_elem_of_lookup. eauto.
  - intros (t & item & Hin & Hu & Hs & Hitem & Hid).
    destruct (findOne (isPurchase userId fruitId') (TransactionHistory s))
      as [[j t']|] eqn:Hfind; [simpl; eauto|].
    exfalso. apply findOne_None in Hfind. rewrite Forall_forall in Hfind.
    assert (Hp : isPurchase userId fruitId' t = true)
      by (apply isPurchase_true; eauto).
    rewrite (Hfind t) in Hp; [discriminate|]. apply list_elem_of_In. exact Hin.
Qed.

Lemma rateFruit_accepted (avg : list float -> float) (trim : string -> string)
  (codeUnits : string -> nat)
  (validationMessage : IFruitRating.t -> string) (s : State) (userId : string)
  (ratingData : CreateRatingDto.t) (r : Ratings) :
  Fruit s !! CreateRatingDto.fruitId ratingData <> None ->
  bought s userId (CreateRatingDto.fruitId ratingData) ->
  validRating codeUnits (CreateRatingDto.rating ratingData)
    (trim <$> CreateRatingDto.review ratingData) = true ->
  exists result r',
    rateFruit avg trim codeUnits validationMessage s userId ratingData r
    = (inr result, r')
    /\ IFruitRating.rating (RatingResult.rating result) = CreateRatingDto.rating ratingData
    /\ isRatingOf userId (CreateRatingDto.fruitId ratingData)
         (RatingResult.rating result) = true
    /\ FruitRating r' =
         match findOne (isRatingOf userId (CreateRatingDto.fruitId ratingData))
                 (FruitRating r) with
         | Some (i, _) => <[i := RatingResult.rating result]> (FruitRating r)
         | None => FruitRating r ++ [RatingResult.rating result]
         end.
Proof.
  intros Hf Hb Hvalid. apply hasUserPurchasedFruit_bought in Hb.
  destruct Hb as (tid & Htid).
  unfold rateFruit. cbv zeta.
  destruct (Fruit s !! CreateRatingDto.fruitId ratingData) as [fruit|] eqn:Hfruit;
    [|contradiction].
  rewrite Htid, Hvalid. unfold updateFruitAverageRating. cbv zeta. rewrite Hfruit.
  destruct (findOne (isRatingOf userId (CreateRatingDto.fruitId ratingData))
              (FruitRating r)) as [[i existing]|] eqn:Hfind.
  - apply findOne_Some in Hfind. destruct Hfind as [_ Hp].
    eexists. eexists. split; [reflexivity|]. simpl.
    split; [reflexivity|]. split; [exact Hp | reflexivity].
  - eexists. eexists. split; [reflexivity|]. simpl.
    split; [reflexivity|]. split; [|reflexivity].
    unfold isRatingOf. simpl. rewrite !String.eqb_refl. reflexivity.
Qed.

Lemma checkout_records_purchase (auth : AuthService) (userId : string)
  (checkoutData : CheckoutDto.t) (authHeader : option string) (s s' : State)
  (t : ITransactionHistory.t) (line : CartItem) :
  USE_IN_MEMORY = false ->
  checkout auth userId checkoutData authHeader s = (inr t, s') ->
  In line (items (cartDataOf s userId)) ->
  bought s' userId (fruitId line).
Proof.
  intros Huse Hc Hline.
  destruct (checkout_succeeded auth userId checkoutData authHeader s s' t Hc)
    as (paymentMethod & _ & _ & Ht & _ & _ & _ & Hhist & _).
  rewrite Huse in Hhist. exists t, (transactionItem line).
  split; [rewrite Hhist; apply in_or_app; right; left; reflexivity|].
  rewrite Ht. simpl. split; [reflexivity|]. split; [reflexivity|].
  split; [apply in_map; exact Hline | reflexivity].
Qed.

(** X29. [rateFruit] throws 'FRUIT_NOT_FOUND' when the catalog has no
    such fruit and, for a fruit it has, 'NOT_PURCHASED' when no
    COMPLETED transaction of the user holds the fruit.  Past that gate
    the schema decides: a rating from 1 to 5 whose review, trimmed, has
    at most 500 UTF-16 code units is saved and answered with the given
    value, and any other is refused.  Every throw leaves the ratings as
    they were.  With the database storage a checkout that answers a
    transaction opens the gate for every fruit of the cart; with the
    in-memory storage it saves no transaction and opens none. *)
Theorem rateFruit_purchase_gate (avg : list float -> float) (trim : string -> string)
  (codeUnits : string -> nat) (validationMessage : IFruitRating.t -> string) (s : State)
  (userId : string) (ratingData : CreateRatingDto.t) (r : Ratings) :
  let valid :=
    validRating codeUnits (CreateRatingDto.rating ratingData)
      (trim <$> CreateRatingDto.review ratingData) in
  (Fruit s !! CreateRatingDto.fruitId ratingData = None ->
     rateFruit avg trim codeUnits validationMessage s userId ratingData r
     = (inl "FRUIT_NOT_FOUND", r))
  /\ (Fruit s !! CreateRatingDto.fruitId ratingData <> None ->
      ~ bought s userId (CreateRatingDto.fruitId ratingData) ->
      rateFruit avg trim codeUnits validationMessage s userId ratingData r
      = (inl "NOT_PURCHASED", r))
  /\ (Fruit s !! CreateRatingDto.fruitId ratingData <> None ->
      bought s userId (CreateRatingDto.fruitId ratingData) ->
      valid = true ->
      exists result r',
        rateFruit avg trim codeUnits validationMessage s userId ratingData r
        = (inr result, r')
        /\ IFruitRating.rating (RatingResult.rating result)
           = CreateRatingDto.rating ratingData)
  /\ (Fruit s !! CreateRatingDto.fruitId ratingData <> None ->
      bought s userId (CreateRatingDto.fruitId ratingData) ->
      valid = false ->
      exists message,
        rateFruit avg trim codeUnits validationMessage s userId ratingData r
        = (inl message, r))
  /\ (forall auth checkoutData authHeader s0 t line,
        checkout auth userId checkoutData authHeader s0 = (inr t, s) ->
        In line (items (cartDataOf s0 userId)) ->
        if USE_IN_MEMORY
        then forall fruitId', bought s userId fruitId' <-> bought s0 userId fruitId'
        else bought s userId (fruitId line)).
Proof.
  intros valid. split; [|split; [|split; [|split]]].
  - intros Hnone. unfold rateFruit. cbv zeta. rewrite Hnone. reflexivity.
  - intros Hf Hnot. unfold rateFruit. cbv zeta.
    destruct (Fruit s !! CreateRatingDto.fruitId ratingData); [|contradiction].
    destruct (hasUserPurchasedFruit s userId (CreateRatingDto.fruitId ratingData))
      as [tid|] eqn:Htid; [|reflexivity].
    exfalso. apply Hnot. apply hasUserPurchasedFruit_bought. eauto.
  - intros Hf Hb Hvalid.
    destruct (rateFruit_accepted avg trim codeUnits validationMessage s userId
                ratingData r Hf Hb Hvalid)
      as (result & r' & Hrate & Hval & _). eauto.
  - intros Hf Hb Hvalid. apply hasUserPurchasedFruit_bought in Hb.
    destruct Hb as (tid & Htid). unfold rateFruit. cbv zeta.
    destruct (Fruit s !! CreateRatingDto.fruitId ratingData); [|contradiction].
    subst valid. rewrite Htid, Hvalid. eexists. reflexivity.
  - intros auth checkoutData authHeader s0 t line Hc Hline.
    destruct USE_IN_MEMORY eqn:Huse.
    + destruct (checkout_succeeded auth userId checkoutData authHeader s0 s t Hc)
        as (paymentMethod & _ & _ & _ & _ & _ & _ & Hhist & _).
      rewrite Huse in Hhist.
      intros fruitId'. unfold bought. rewrite Hhist. reflexivity.
    + apply (checkout_records_purchase auth userId checkoutData authHeader s0 s t line
               Huse Hc Hline).
Qed.

(** ** One rating per user and fruit *)

Lemma findOne_insert {A : Type} (p : A -> bool) (l : list A) (i : nat) (x y : A) :
  findOne p l = Some (i, x) -> p y = true -> findOne p (<[i := y]> l) = Some (i, y).
Proof.
  revert i. induction l as [| z l IH]; intros i; simpl; [discriminate|].
  destruct (p z) eqn:Hp.
  - intros [= <- <-] Hy. simpl. rewrite Hy. reflexivity.
  - destruct (findOne p l) as [[j w]|] eqn:Hfind; [|discriminate].
    intros [= <- <-] Hy. simpl. rewrite Hp. rewrite (IH j eq_refl Hy). reflexivity.
Qed.

Lemma findOne_snoc {A : Type} (p : A -> bool) (l : list A) (y : A) :
  findOne p l = None -> p y = true -> findOne p (l ++ [y]) = Some (length l, y).
Proof.
  induction l as [| z l IH]; simpl; intros Hl Hy.
  - rewrite Hy. reflexivity.
  - destruct (p z); [discriminate|].
    destruct (findOne p l) as [[j w]|]; [discriminate|]. rewrite IH by auto. reflexivity.
Qed.

Lemma map_insert_same {A B : Type} (g : A -> B) (l : list A) (i : nat) (x y : A) :
  l !! i = Some x -> g y = g x -> map g (<[i := y]> l) = map g l.
Proof.
  revert i. induction l as [| z l IH]; intros [| i]; simpl; try discriminate.
  - intros [= ->] ->. reflexivity.
  - intros Hx Hg. f_equal. apply IH; assumption.
Qed.

Lemma isRatingOf_key (userId fruitId' : string) (x : IFruitRating.t) :
  isRatingOf userId fruitId' x = true <->
  (IFruitRating.userId x, IFruitRating.fruitId x) = (userId, fruitId').
Proof.
  unfold isRatingOf. rewrite andb_true_iff, !String.eqb_eq.
  split; [intros [-> ->]; reflexivity | intros [= -> ->]; auto].
Qed.

Lemma updateFruitAverageRating_ratings (avg : list float -> float) (s : State)
  (fruitId' : string) (r : Ratings) :
  FruitRating (snd (updateFruitAverageRating avg s fruitId' r)) = FruitRating r
  /\ snd (fst (updateFruitAverageRating avg s fruitId' r))
     = Z.of_nat (length (List.filter
                           (fun x => String.eqb (IFruitRating.fruitId x) fruitId')
                           (FruitRating r))).
Proof.
  unfold updateFruitAverageRating. cbv zeta. simpl. split.
  - destruct (Fruit s !! fruitId'); reflexivity.
  - destruct (List.filter _ (FruitRating r)); reflexivity.
Qed.

(** X30. [rateFruit] keeps one rating per user and fruit: if no two
    stored ratings share user and fruit, none do after a rating that is
    answered.  A first rating adds one document; a later one replaces
    the value in place - keeping the stored review when none is given -
    and adds none.  The rating answered is from 1 to 5, it is what the
    user's rating reads back as, every rating of another user or fruit
    is still there, and totalRatings is the number of ratings the fruit
    now has. *)
Theorem rateFruit_one_rating_each (avg : list float -> float) (trim : string -> string)
  (codeUnits : string -> nat) (validationMessage : IFruitRating.t -> string) (s : State)
  (userId : string) (ratingData : CreateRatingDto.t) (r r' : Ratings)
  (result : RatingResult.t) :
  one_rating_each r ->
  rateFruit avg trim codeUnits validationMessage s userId ratingData r = (inr result, r') ->
  one_rating_each r'
  /\ getUserRatingForFruit userId (CreateRatingDto.fruitId ratingData) r'
     = Some (RatingResult.rating result)
  /\ length (FruitRating r') =
       (if hasUserRatedFruit userId (CreateRatingDto.fruitId ratingData) r
        then length (FruitRating r) else S (length (FruitRating r)))
  /\ (forall old,
        getUserRatingForFruit userId (CreateRatingDto.fruitId ratingData) r = Some old ->
        CreateRatingDto.review ratingData = None ->
        IFruitRating.review (RatingResult.rating result) = IFruitRating.review old)
  /\ (PrimFloat.leb 1 (IFruitRating.rating (RatingResult.rating result)) = true
      /\ PrimFloat.leb (IFruitRating.rating (RatingResult.rating result)) 5 = true)
  /\ (forall x,
        In x (FruitRating r) ->
        isRatingOf userId (CreateRatingDto.fruitId ratingData) x = false ->
        In x (FruitRating r'))
  /\ RatingResult.totalRatings result
     = Z.of_nat (length (List.filter
                           (fun x => String.eqb (IFruitRating.fruitId x)
                                       (CreateRatingDto.fruitId ratingData))
                           (FruitRating r'))).
Proof.
  intros Huniq Hrate. unfold rateFruit in Hrate. cbv zeta in Hrate.
  destruct (Fruit s !! CreateRatingDto.fruitId ratingData) as [fruit|]; [|discriminate].
  destruct (hasUserPurchasedFruit s userId (CreateRatingDto.fruitId ratingData))
    as [tid|]; [|discriminate].
  destruct (validRating codeUnits (CreateRatingDto.rating ratingData)
              (trim <$> CreateRatingDto.review ratingData)) eqn:Hvalid; [|discriminate].
  unfold validRating in Hvalid. rewrite !andb_true_iff in Hvalid.
  destruct Hvalid as [[Hmin Hmax] _].
  unfold getUserRatingForFruit, hasUserRatedFruit, one_rating_each in *.
  destruct (findOne (isRatingOf userId (CreateRatingDto.fruitId ratingData))
              (FruitRating r)) as [[i existing]|] eqn:Hfind.
  - match type of Hrate with
    | context [updateFruitAverageRating avg s ?f ?r1] =>
        pose proof (updateFruitAverageRating_ratings avg s f r1) as [Hsame Htotal];
        destruct (updateFruitAverageRating avg s f r1) as [[average total] r2]
    end.
    simpl in Hsame, Htotal. injection Hrate as <- <-. simpl. rewrite Hsame.
    pose proof (findOne_Some _ _ _ _ Hfind) as [Hx Hp].
    split; [|split; [|split; [|split; [|split; [|split]]]]].
    + rewrite (map_insert_same _ _ i existing); [exact Huniq | exact Hx | reflexivity].
    + erewrite findOne_insert; [reflexivity | exact Hfind | exact Hp].
    + apply length_insert.
    + intros old [= <-] ->. reflexivity.
    + split; assumption.
    + intros x Hin Hnot. apply list_elem_of_In. apply list_elem_of_In in Hin.
      apply list_elem_of_lookup in Hin. destruct Hin as [j Hj].
      apply list_elem_of_lookup. exists j.
      rewrite list_lookup_insert_ne; [exact Hj|].
      intros <-. rewrite Hx in Hj. injection Hj as <-. congruence.
    + exact Htotal.
  - match type of Hrate with
    | context [updateFruitAverageRating avg s ?f ?r1] =>
        pose proof (updateFruitAverageRating_ratings avg s f r1) as [Hsame Htotal];
        destruct (updateFruitAverageRating avg s f r1) as [[average total] r2]
    end.
    simpl in Hsame, Htotal. injection Hrate as <- <-. simpl. rewrite Hsame.
    split; [|split; [|split; [|split; [|split; [|split]]]]].
    + rewrite map_app. simpl. apply NoDup_app. split; [exact Huniq|]. split.
      * intros key Hkey Hin. apply list_elem_of_singleton in Hin. subst key.
        apply list_elem_of_In, in_map_iff in Hkey. destruct Hkey as (x & Hk & Hx).
        apply findOne_None in Hfind. rewrite Forall_forall in Hfind.
        apply isRatingOf_key in Hk. rewrite (Hfind x) in Hk; [discriminate|].
        apply list_elem_of_In. exact Hx.
      * apply NoDup_singleton.
    + rewrite findOne_snoc; [reflexivity | exact Hfind|].
      unfold isRatingOf. simpl. rewrite !String.eqb_refl. reflexivity.
    + rewrite length_app. simpl. lia.
    + intros old Hold. discriminate.
    + split; assumption.
    + intros x Hin _. apply in_or_app. left. exact Hin.
    + exact Htotal.
Qed.

End CartService.

(** ** The statements at sample carts *)

Lemma shop_consistent : stores_consistent shop.
Proof. split; apply map_Forall_empty. Qed.

Lemma cart_totals_invariant_witness :
  stores_consistent
    (run false
       [ Add "asha" {| AddToCartDto.fruitId := "apple"; AddToCartDto.quantity := 2 |};
         Add "asha" {| AddToCartDto.fruitId := "orange"; AddToCartDto.quantity := 6 |};
         Update "asha" "apple" {| UpdateCartItemDto.quantity := 5 |};
         Remove "asha" "orange" ]
       shop)
  /\ exists cart s',
       mutate false
         (Add "asha" {| AddToCartDto.fruitId := "berry"; AddToCartDto.quantity := 2 |})
         (run false
            [ Add "asha" {| AddToCartDto.fruitId := "apple"; AddToCartDto.quantity := 2 |};
              Add "asha" {| AddToCartDto.fruitId := "orange"; AddToCartDto.quantity := 6 |};
              Update "asha" "apple" {| UpdateCartItemDto.quantity := 5 |};
              Remove "asha" "orange" ]
            shop)
       = (inr (Some cart), s')
       /\ totals_invariant cart
       /\ viewCart false s' "asha" = cart
       /\ stores_consistent s'.
Proof.
  destruct (cart_totals_invariant false shop
              [ Add "asha" {| AddToCartDto.fruitId := "apple"; AddToCartDto.quantity := 2 |};
                Add "asha" {| AddToCartDto.fruitId := "orange"; AddToCartDto.quantity := 6 |};
                Update "asha" "apple" {| UpdateCartItemDto.quantity := 5 |};
                Remove "asha" "orange" ]
              ltac:(split; apply map_Forall_empty)) as [Hrun Hnext].
  split; [exact Hrun|].
  eexists. eexists. split; [vm_compute; reflexivity|].
  match goal with
  | |- totals_invariant ?cart /\ viewCart _ ?s' _ = _ /\ _ =>
      exact (Hnext
               (Add "asha"
                  {| AddToCartDto.fruitId := "berry"; AddToCartDto.quantity := 2 |})
               cart s' ltac:(vm_compute; reflexivity))
  end.
Defined.


Lemma updateCartItem_sets_absolute_quantity_witness :
  (exists s',
     updateCartItem false "asha" "apple" {| UpdateCartItemDto.quantity := 5 |} shop
       = (inr None, s')
     /\ same_observables false shop s')
  /\ (exists cart' s',
        updateCartItem false "asha" "apple" {| UpdateCartItemDto.quantity := 5 |}
          shopWithCart = (inr (Some cart'), s')
        /\ map (fun line => (quantity line, freeItems line, offerType line)) (items cart')
           = [(3, 2, BUY_1_GET_1_FREE)]
        /\ totals_invariant cart').
Proof.
  split.
  - apply (proj1 (updateCartItem_sets_absolute_quantity false "asha" "apple"
                    {| UpdateCartItemDto.quantity := 5 |} shop)).
    reflexivity.
  - destruct (proj2 (updateCartItem_sets_absolute_quantity false "asha" "apple"
                       {| UpdateCartItemDto.quantity := 5 |} shopWithCart)
                ashaCart 0%nat)
      as (line & Hx & _ & Hupd & Hinv & _); [reflexivity | reflexivity |].
    injection Hx as <-. eexists. eexists.
    split; [exact Hupd|]. split; [reflexivity | exact Hinv].
Defined.

Lemma checkout_transaction_entries_witness :
  exists t s',
    checkout false ascii_toUpperCase (walletOf 0%float) "asha"
      {| CheckoutDto.paymentMethod := "upi"; CheckoutDto.notes := None |} None
      shopWithCart = (inr t, s')
    /\ ITransactionHistory.status t = COMPLETED
    /\ Forall2 entry_of_line (items (cartDataOf false shopWithCart "asha"))
         (ITransactionHistory.items t)
    /\ TransactionHistory s' = TransactionHistory shopWithCart ++ [t].
Proof.
  pose proof (checkout_transaction_entries false ascii_toUpperCase (walletOf 0%float)
                "asha" {| CheckoutDto.paymentMethod := "upi"; CheckoutDto.notes := None |}
                None shopWithCart) as [Hentries Hreturns].
  destruct (Hreturns UPI) as (t & s' & Hc);
    [vm_compute; discriminate | reflexivity | discriminate
    | right; vm_compute; reflexivity |].
  destruct (Hentries t s' Hc) as (Hstatus & Hitems & Hsaved).
  exists t, s'. split; [exact Hc|]. split; [exact Hstatus|].
  split; [exact Hitems | apply Hsaved; reflexivity].
Defined.

Lemma checkout_empty_cart_witness :
  exists s',
    checkout false ascii_toUpperCase (walletOf 0%float) "asha"
      {| CheckoutDto.paymentMethod := "upi"; CheckoutDto.notes := None |} None shop
      = (inl "Cart is empty", s')
    /\ TransactionHistory s' = TransactionHistory shop
    /\ requests s' = requests shop.
Proof.
  destruct (checkout_empty_cart false ascii_toUpperCase (walletOf 0%float) "asha"
              {| CheckoutDto.paymentMethod := "upi"; CheckoutDto.notes := None |}
              None shop)
    as (s' & Hc & Ht & Hr & _); [reflexivity|].
  exists s'. auto.
Defined.

Lemma checkout_insufficient_wallet_balance_witness :
  exists s',
    checkout false ascii_toUpperCase (walletOf 5%float) "asha"
      {| CheckoutDto.paymentMethod := "wallet"; CheckoutDto.notes := None |} None
      shopWithCart
      = (inl "Wallet payment failed: Insufficient wallet balance", s')
    /\ requests s' = [GET_profile None]
    /\ TransactionHistory s' = []
    /\ CartModel s' = CartModel shopWithCart.
Proof.
  destruct (checkout_insufficient_wallet_balance false ascii_toUpperCase
              (walletOf 5%float) "asha"
              {| CheckoutDto.paymentMethod := "wallet"; CheckoutDto.notes := None |}
              None shopWithCart 5%float)
    as (s' & Hc & Hr & Ht & _ & Hcm & _);
    [vm_compute; discriminate | reflexivity | reflexivity | vm_compute; reflexivity |].
  exists s'. auto.
Defined.


(** ** Rounded fields

    The three money totals are rounded one by one from the sums.  At a
    price with a fraction of a paisa the stored fields themselves need
    not add up: two berries at 0.125 under BUY_1_GET_1_FREE give
    totalPrice 0.25, discountAmount 0.13 and finalPrice 0.13, while
    rounding the difference of the stored totalPrice and discountAmount
    gives 0.12. *)
Remark rounded_fields_need_not_add_up :
  exists cart s',
    addToCart false "asha"
      {| AddToCartDto.fruitId := "berry"; AddToCartDto.quantity := 2 |} shop
      = (inr cart, s')
    /\ totalPrice cart = (25 / 100)%float
    /\ discountAmount cart = (13 / 100)%float
    /\ finalPrice cart = (13 / 100)%float
    /\ round2 (PrimFloat.sub (totalPrice cart) (discountAmount cart)) = (12 / 100)%float.
Proof.
  eexists. eexists. split; [vm_compute; reflexivity|].
  repeat split; vm_compute; reflexivity.
Qed.

(** C4 with finalPrice read off the stored fields fails.  From the
    sample shop, whose stores hold no cart, adding two berries at 0.125
    under BUY_1_GET_1_FREE answers a cart with totalPrice 0.25,
    discountAmount 0.13 and finalPrice 0.13, while round(totalPrice
    - discountAmount, 2) on these stored fields is 0.12. *)
Lemma cart_totals_invariant_counterexample :
  stores_consistent shop
  /\ exists cart s',
       mutate false
         (Add "asha" {| AddToCartDto.fruitId := "berry"; AddToCartDto.quantity := 2 |})
         (run false [] shop)
       = (inr (Some cart), s')
       /\ totalPrice cart = (25 / 100)%float
       /\ discountAmount cart = (13 / 100)%float
       /\ finalPrice cart = (13 / 100)%float
       /\ finalPrice cart
          <> round2 (PrimFloat.sub (totalPrice cart) (discountAmount cart)).
Proof.
  split; [split; apply map_Forall_empty|].
  eexists. eexists. split; [vm_compute; reflexivity|].
  split; [vm_compute; reflexivity|]. split; [vm_compute; reflexivity|].
  split; [vm_compute; reflexivity|].
  intros Heq. apply (f_equal Prim2SF) in Heq. vm_compute in Heq. discriminate.
Qed.

(** ** The further properties at sample carts *)

Lemma calculatePaidAndFree_one_more_unit_witness :
  (paid (calculatePaidAndFree 5 BUY_2_GET_3_FREE)
     <= paid (calculatePaidAndFree (5 + 1) BUY_2_GET_3_FREE)
     <= paid (calculatePaidAndFree 5 BUY_2_GET_3_FREE) + 1)
  /\ paid (calculatePaidAndFree (5 + 1) BUY_2_GET_3_FREE)
       + free (calculatePaidAndFree (5 + 1) BUY_2_GET_3_FREE)
     = paid (calculatePaidAndFree 5 BUY_2_GET_3_FREE)
       + free (calculatePaidAndFree 5 BUY_2_GET_3_FREE) + 1.
Proof.
  destruct (calculatePaidAndFree_one_more_unit 5 BUY_2_GET_3_FREE) as (Hp & _ & Hs).
  split; [exact Hp | apply Hs; lia].
Defined.

Lemma calculatePaidAndFree_first_free_unit_witness :
  1 <= paid (calculatePaidAndFree 3 BUY_1_GET_1_FREE)
  /\ 1 <= free (calculatePaidAndFree 3 BUY_2_GET_3_FREE).
Proof.
  destruct (calculatePaidAndFree_first_free_unit 3) as (Hpaid & _ & _ & Hfree & _).
  split; [apply Hpaid; lia | apply Hfree; lia].
Defined.

Lemma getCart_reads_witness :
  fst (getCart false "asha" shop) = inr emptyCart
  /\ getCart false "asha" shopWithCart = (inr ashaCart, shopWithCart).
Proof.
  split.
  - apply (proj1 (getCart_reads false "asha" shop)). reflexivity.
  - apply (proj1 (proj2 (getCart_reads false "asha" shopWithCart))). reflexivity.
Defined.

Lemma getCart_after_mutation_witness :
  exists cart s',
    mutate false
      (Add "asha" {| AddToCartDto.fruitId := "orange"; AddToCartDto.quantity := 6 |})
      shopWithCart = (inr (Some cart), s')
    /\ getCart false "asha" s' = (inr cart, s').
Proof.
  eexists. eexists. split; [vm_compute; reflexivity|].
  apply (getCart_after_mutation false
           (Add "asha" {| AddToCartDto.fruitId := "orange"; AddToCartDto.quantity := 6 |})
           shopWithCart).
  vm_compute. reflexivity.
Defined.

Lemma addToCart_rejections_witness :
  addToCart false "asha"
    {| AddToCartDto.fruitId := "mango"; AddToCartDto.quantity := 1 |} shop
    = (inl "Fruit not found", shop)
  /\ addToCart false "asha"
       {| AddToCartDto.fruitId := "apple"; AddToCartDto.quantity := 9 |} shop
     = (inl "Fruit is out of stock or insufficient quantity available", shop).
Proof.
  split.
  - apply (proj1 (addToCart_rejections false "asha"
                    {| AddToCartDto.fruitId := "mango"; AddToCartDto.quantity := 1 |}
                    shop)).
    reflexivity.
  - apply (proj1 (proj2 (addToCart_rejections false "asha"
                           {| AddToCartDto.fruitId := "apple"; AddToCartDto.quantity := 9 |}
                           shop)) apple).
    + reflexivity.
    + right. simpl. lia.
Defined.


Lemma mutation_frame_witness :
  storedCart false
    (snd (mutate false (Remove "ravi" "apple") shopWithCart)) "asha"
  = storedCart false shopWithCart "asha".
Proof.
  destruct (mutation_frame false (Remove "ravi" "apple") shopWithCart)
    as (_ & _ & _ & Hother).
  apply (Hother "asha"). discriminate.
Defined.

Lemma unique_fruits_kept_witness :
  every_cart unique_fruits
    (run false
       [ Add "asha" {| AddToCartDto.fruitId := "apple"; AddToCartDto.quantity := 2 |};
         Add "asha" {| AddToCartDto.fruitId := "apple"; AddToCartDto.quantity := 1 |};
         Add "asha" {| AddToCartDto.fruitId := "orange"; AddToCartDto.quantity := 6 |} ]
       shop).
Proof.
  apply (unique_fruits_kept false). split; apply map_Forall_empty.
Defined.

Lemma lines_positive_kept_witness :
  every_cart lines_positive
    (run false
       [ Add "asha" {| AddToCartDto.fruitId := "apple"; AddToCartDto.quantity := 2 |};
         Update "asha" "apple" {| UpdateCartItemDto.quantity := 7 |} ]
       shop).
Proof.
  apply (lines_positive_kept false).
  - repeat constructor.
  - split; apply map_Forall_empty.
Defined.

Lemma removeFromCart_removes_witness :
  removeFromCart false "asha" "apple" shopWithCart
    = (inr (Some (withTotals [])), storeCart false "asha" (withTotals []) shopWithCart)
  /\ removeFromCart false "asha" "apple"
       (storeCart false "asha" (withTotals []) shopWithCart)
     = (inr None, storeCart false "asha" (withTotals []) shopWithCart)
  /\ updateCartItem false "asha" "apple" {| UpdateCartItemDto.quantity := 0 |} shopWithCart
     = removeFromCart false "asha" "apple" shopWithCart.
Proof.
  destruct (removeFromCart_removes false "asha" "apple" shopWithCart)
    as (_ & Hfound & Hsame).
  destruct (Hfound ashaCart 0%nat eq_refl eq_refl) as (Hrem & _ & Hagain).
  split; [exact Hrem|]. split; [apply Hagain; apply NoDup_singleton|].
  apply Hsame. simpl. lia.
Defined.

Lemma updateCartItem_idempotent_witness :
  exists cart1 s1,
    updateCartItem false "asha" "apple" {| UpdateCartItemDto.quantity := 5 |} shopWithCart
      = (inr (Some cart1), s1)
    /\ updateCartItem false "asha" "apple" {| UpdateCartItemDto.quantity := 5 |} s1
       = (inr (Some cart1), s1).
Proof.
  eexists. eexists. split; [vm_compute; reflexivity|].
  apply (updateCartItem_idempotent false "asha" "apple"
           {| UpdateCartItemDto.quantity := 5 |} shopWithCart).
  - simpl. lia.
  - vm_compute. reflexivity.
Defined.

Lemma addToCart_is_update_to_sum_witness :
  exists cart' s',
    addToCart false "asha"
      {| AddToCartDto.fruitId := "apple"; AddToCartDto.quantity := 1 |} shopWithCart
      = (inr cart', s')
    /\ updateCartItem false "asha" "apple"
         {| UpdateCartItemDto.quantity := 2 + 1 + 1 |} shopWithCart
       = (inr (Some cart'), s').
Proof.
  apply (addToCart_is_update_to_sum false "asha"
           {| AddToCartDto.fruitId := "apple"; AddToCartDto.quantity := 1 |}
           shopWithCart apple ashaCart 0%nat
           {| fruitId := "apple"; name := "Apple"; price := 10%float;
              quantity := 2; offerType := BUY_1_GET_1_FREE; freeItems := 1 |});
    try reflexivity; simpl; lia.
Defined.

Lemma cart_without_lines_is_empty_witness :
  removeFromCart false "asha" "apple" shopWithCart
    = (inr (Some emptyCart), storeCart false "asha" emptyCart shopWithCart)
  /\ updateCartItem false "asha" "apple" {| UpdateCartItemDto.quantity := -1 |} shopWithCart
     = (inr (Some emptyCart), storeCart false "asha" emptyCart shopWithCart).
Proof.
  destruct (proj2 (cart_without_lines_is_empty false) "asha" "apple" shopWithCart ashaCart
              {| fruitId := "apple"; name := "Apple"; price := 10%float;
                 quantity := 2; offerType := BUY_1_GET_1_FREE; freeItems := 1 |}
              eq_refl eq_refl eq_refl) as [Hrem Hupd].
  split; [exact Hrem|]. apply Hupd. simpl. lia.
Defined.

Lemma clearCart_clears_witness :
  fst (getCart false "asha" (snd (clearCart false "asha" shopWithCart))) = inr emptyCart
  /\ storedCart false (snd (clearCart false "asha" shopWithCart)) "ravi"
     = storedCart false shopWithCart "ravi".
Proof.
  destruct (clearCart_clears false "asha" shopWithCart) as (_ & _ & Hget & Hother & _).
  split; [exact Hget|]. apply Hother. discriminate.
Defined.

Lemma checkout_invalid_payment_method_witness :
  checkout false ascii_toUpperCase (walletOf 0%float) "asha"
    {| CheckoutDto.paymentMethod := "bitcoin"; CheckoutDto.notes := None |} None
    shopWithCart
  = (inl "Invalid payment method", shopWithCart).
Proof.
  apply (checkout_invalid_payment_method false ascii_toUpperCase);
    vm_compute; discriminate.
Defined.

Lemma checkout_wallet_service_error_witness :
  exists s',
    checkout false ascii_toUpperCase
      {| profile_walletBalance := inl "timeout";
         deduct_balance := fun _ => inr tt;
         notify_order := fun _ => inr tt |}
      "asha" {| CheckoutDto.paymentMethod := "Wallet"; CheckoutDto.notes := None |}
      None shopWithCart
      = (inl "Wallet payment failed: timeout", s')
    /\ requests s' = requests shopWithCart ++ [GET_profile None]
    /\ TransactionHistory s' = TransactionHistory shopWithCart.
Proof.
  destruct (proj1 (checkout_wallet_service_error false ascii_toUpperCase
                     {| profile_walletBalance := inl "timeout";
                        deduct_balance := fun _ => inr tt;
                        notify_order := fun _ => inr tt |}
                     "asha"
                     {| CheckoutDto.paymentMethod := "Wallet"; CheckoutDto.notes := None |}
                     None shopWithCart
                     ltac:(vm_compute; discriminate) eq_refl)
              "timeout" eq_refl) as (s' & Hc & Hr & Ht & _).
  exists s'. auto.
Defined.

Lemma checkout_success_effects_witness :
  exists t s',
    checkout false ascii_toUpperCase (walletOf 50%float) "asha"
      {| CheckoutDto.paymentMethod := "wallet"; CheckoutDto.notes := Some "ring twice" |}
      None shopWithCart = (inr t, s')
    /\ fst (getCart false "asha" s') = inr emptyCart
    /\ ITransactionHistory.finalAmount t = finalPrice (cartDataOf false shopWithCart "asha")
    /\ ITransactionHistory.status t = COMPLETED.
Proof.
  eexists. eexists. split; [vm_compute; reflexivity|].
  match goal with
  | |- fst (getCart _ _ ?s') = _ /\ ITransactionHistory.finalAmount ?t = _ /\ _ =>
      destruct (checkout_success_effects false ascii_toUpperCase (walletOf 50%float)
                  "asha"
                  {| CheckoutDto.paymentMethod := "wallet";
                     CheckoutDto.notes := Some "ring twice" |}
                  None shopWithCart s' t ltac:(vm_compute; reflexivity))
        as (_ & Hget & _ & _ & _ & _ & Hfinal & _ & Hstatus & _)
  end.
  split; [exact Hget|]. split; [exact Hfinal | exact Hstatus].
Defined.

Lemma checkout_success_requests_witness :
  exists t s',
    checkout false ascii_toUpperCase (walletOf 50%float) "asha"
      {| CheckoutDto.paymentMethod := "wallet"; CheckoutDto.notes := None |}
      (Some "Bearer token") shopWithCart = (inr t, s')
    /\ requests s' =
         [ GET_profile (Some "Bearer token");
           POST_deduct_balance 20%float (Some "Bearer token");
           POST_notify_order 20%float (Some "Bearer token") ].
Proof.
  eexists. eexists. split; [vm_compute; reflexivity|].
  match goal with
  | |- requests ?s' = _ =>
      destruct (checkout_success_requests false ascii_toUpperCase (walletOf 50%float)
                  "asha"
                  {| CheckoutDto.paymentMethod := "wallet"; CheckoutDto.notes := None |}
                  (Some "Bearer token") shopWithCart s' _ ltac:(vm_compute; reflexivity))
        as [Hr _]
  end.
  exact Hr.
Defined.

Lemma checkout_lowers_stock_witness :
  exists t s',
    checkout false ascii_toUpperCase (walletOf 0%float) "asha"
      {| CheckoutDto.paymentMethod := "cash"; CheckoutDto.notes := None |}
      None shopWithCart = (inr t, s')
    /\ Fruit s' !! "apple" = Some (withStock apple (4 - 3))
    /\ Fruit s' !! "orange" = Some orange.
Proof.
  eexists. eexists. split; [vm_compute; reflexivity|].
  match goal with
  | |- Fruit ?s' !! _ = _ /\ _ =>
      pose proof (fun id =>
                    checkout_lowers_stock false ascii_toUpperCase (walletOf 0%float)
                      "asha"
                      {| CheckoutDto.paymentMethod := "cash"; CheckoutDto.notes := None |}
                      None shopWithCart s' _ id ltac:(vm_compute; reflexivity)) as Hstock
  end.
  split; [exact (Hstock "apple") | exact (Hstock "orange")].
Defined.

Lemma checkout_failure_changes_nothing_witness :
  exists s',
    checkout false ascii_toUpperCase
      {| profile_walletBalance := inr 50%float;
         deduct_balance := fun _ => inl "card blocked";
         notify_order := fun _ => inr tt |}
      "asha" {| CheckoutDto.paymentMethod := "wallet"; CheckoutDto.notes := None |}
      None shopWithCart = (inl "Wallet payment failed: card blocked", s')
    /\ TransactionHistory s' = TransactionHistory shopWithCart
    /\ Fruit s' = Fruit shopWithCart
    /\ CartModel s' = CartModel shopWithCart.
Proof.
  eexists. split; [vm_compute; reflexivity|].
  match goal with
  | |- TransactionHistory ?s' = _ /\ _ =>
      destruct (checkout_failure_changes_nothing false ascii_toUpperCase
                  {| profile_walletBalance := inr 50%float;
                     deduct_balance := fun _ => inl "card blocked";
                     notify_order := fun _ => inr tt |}
                  "asha"
                  {| CheckoutDto.paymentMethod := "wallet"; CheckoutDto.notes := None |}
                  None shopWithCart s'
                  ltac:(right; right; exists "card blocked"; vm_compute; reflexivity))
        as (Ht & Hf & Hc & _)
  end.
  split; [exact Ht|]. split; [exact Hf | exact Hc].
Defined.

Lemma getTransactionHistory_after_checkout_witness :
  exists t s',
    checkout false ascii_toUpperCase (walletOf 0%float) "asha"
      {| CheckoutDto.paymentMethod := "upi"; CheckoutDto.notes := None |}
      None shopWithCart = (inr t, s')
    /\ fst (getTransactionHistory "asha" s') = inr [t]
    /\ getTransactionHistory "ravi" s' = (fst (getTransactionHistory "ravi" shopWithCart), s').
Proof.
  eexists. eexists. split; [vm_compute; reflexivity|].
  match goal with
  | |- fst (getTransactionHistory _ ?s') = _ /\ _ =>
      destruct (getTransactionHistory_after_checkout false ascii_toUpperCase
                  (walletOf 0%float) "asha"
                  {| CheckoutDto.paymentMethod := "upi"; CheckoutDto.notes := None |}
                  None shopWithCart s' _ ltac:(vm_compute; reflexivity))
        as (_ & Hdb & _)
  end.
  destruct (Hdb eq_refl) as [(earlier & Hearlier & Hfirst) Hother].
  injection Hearlier as <-.
  split; [exact Hfirst|]. apply Hother. discriminate.
Defined.


Lemma updateFruit_keeps_line_price_witness :
  exists cart' s2 line',
    addToCart false "asha"
      {| AddToCartDto.fruitId := "apple"; AddToCartDto.quantity := 1 |}
      (snd (updateFruit (fun v => v) "apple"
              {| UpdateFruitDto.name := None;
                 UpdateFruitDto.price := Some 12%float;
                 UpdateFruitDto.offerType := Some NONE;
                 UpdateFruitDto.inStock := None;
                 UpdateFruitDto.stockQuantity := None |}
              shopWithCart))
      = (inr cart', s2)
    /\ items cart' !! 0%nat = Some line'
    /\ price line' = 10%float
    /\ offerType line' = BUY_1_GET_1_FREE
    /\ quantity line' = 4
    /\ freeItems line' = 0.
Proof.
  destruct (updateFruit_keeps_line_price false (fun v => v) "apple"
              {| UpdateFruitDto.name := None;
                 UpdateFruitDto.price := Some 12%float;
                 UpdateFruitDto.offerType := Some NONE;
                 UpdateFruitDto.inStock := None;
                 UpdateFruitDto.stockQuantity := None |}
              shopWithCart apple eq_refl) as (_ & _ & Hadd).
  destruct (Hadd "asha" 1 ashaCart 0%nat
              {| fruitId := "apple"; name := "Apple"; price := 10%float;
                 quantity := 2; offerType := BUY_1_GET_1_FREE; freeItems := 1 |}
              eq_refl ltac:(simpl; lia) eq_refl eq_refl eq_refl)
    as (cart' & s2 & line' & Hc & Hx & Hp & _ & Ho & Hq & Hf).
  exists cart', s2, line'. auto 10.
Defined.

Lemma getFruits_pagination_witness :
  exists result,
    getFruits None (Some 2) (Some 2) [apple; orange; berry] shop = (inr result, shop)
    /\ Pagination.limit (GetFruitsResult.pagination result) = 2
    /\ Z.of_nat (length (GetFruitsResult.fruits result)) = 1
    /\ (Pagination.hasMore (GetFruitsResult.pagination result) = true <-> 2 * 2 < 3).
Proof.
  destruct (proj1 (getFruits_pagination 2 2 [apple; orange; berry] shop
                     ltac:(lia) ltac:(lia)))
    as (result & Hg & _ & Hl & _ & _ & _ & Hlen & Hmore).
  exists result. split; [exact Hg|]. split; [exact Hl|]. split; [exact Hlen | exact Hmore].
Defined.

Lemma getFruits_pages_cover_witness :
  pagesUpTo (Z.to_nat (Math.ceil_div 3 2)) 2 [apple; orange; berry] shop
  = [apple; orange; berry].
Proof.
  apply (proj2 (getFruits_pages_cover 2 [apple; orange; berry] shop ltac:(lia))).
Defined.

Lemma deleteFruit_keeps_cart_lines_witness :
  addToCart false "asha"
    {| AddToCartDto.fruitId := "apple"; AddToCartDto.quantity := 1 |}
    (snd (deleteFruit "apple" shopWithCart))
  = (inl "Fruit not found", snd (deleteFruit "apple" shopWithCart))
  /\ fst (getCart false "asha" (snd (deleteFruit "apple" shopWithCart)))
     = fst (getCart false "asha" shopWithCart)
  /\ deleteFruit "mango" shopWithCart = (inr None, shopWithCart).
Proof.
  destruct (deleteFruit_keeps_cart_lines false "apple" shopWithCart) as [_ Hfound].
  destruct (Hfound apple eq_refl) as (_ & _ & _ & _ & Hadd & Hget & _).
  split; [apply Hadd; reflexivity|]. split; [apply Hget|].
  apply (proj1 (deleteFruit_keeps_cart_lines false "mango" shopWithCart)). reflexivity.
Defined.

Lemma rateFruit_purchase_gate_witness :
  sampleRateFruit shopAfterCheckout "asha"
    {| CreateRatingDto.fruitId := "mango"; CreateRatingDto.rating := 5%float;
       CreateRatingDto.review := None |} noRatings
  = (inl "FRUIT_NOT_FOUND", noRatings)
  /\ sampleRateFruit shopWithCart "asha"
       {| CreateRatingDto.fruitId := "apple"; CreateRatingDto.rating := 5%float;
          CreateRatingDto.review := None |} noRatings
     = (inl "NOT_PURCHASED", noRatings)
  /\ checkout false ascii_toUpperCase (walletOf 0%float) "asha"
       {| CheckoutDto.paymentMethod := "upi"; CheckoutDto.notes := None |}
       None shopWithCart
     = (inr ashaTransaction, shopAfterCheckout)
  /\ bought shopAfterCheckout "asha" "apple"
  /\ (exists result r',
        sampleRateFruit shopAfterCheckout "asha"
          {| CreateRatingDto.fruitId := "apple"; CreateRatingDto.rating := 4%float;
             CreateRatingDto.review := Some "crisp" |} noRatings
        = (inr result, r')
        /\ IFruitRating.rating (RatingResult.rating result) = 4%float)
  /\ (exists message,
        sampleRateFruit shopAfterCheckout "asha"
          {| CreateRatingDto.fruitId := "apple"; CreateRatingDto.rating := 7%float;
             CreateRatingDto.review := None |} noRatings
        = (inl message, noRatings)).
Proof.
  assert (Hbought : bought shopAfterCheckout "asha" "apple").
  { destruct (rateFruit_purchase_gate false ascii_toUpperCase (fun l => hd 0%float l)
                (fun v => v) String.length (fun _ => "FruitRating validation failed")
                shopAfterCheckout "asha"
                {| CreateRatingDto.fruitId := "apple"; CreateRatingDto.rating := 4%float;
                   CreateRatingDto.review := Some "crisp" |} noRatings)
      as (_ & _ & _ & _ & Hgate).
    refine (Hgate (walletOf 0%float)
              {| CheckoutDto.paymentMethod := "upi"; CheckoutDto.notes := None |}
              None shopWithCart ashaTransaction
              {| fruitId := "apple"; name := "Apple"; price := 10%float;
                 quantity := 2; offerType := BUY_1_GET_1_FREE; freeItems := 1 |} _ _).
    - vm_compute. reflexivity.
    - left. reflexivity. }
  split; [|split; [|split; [vm_compute; reflexivity|split; [exact Hbought|split]]]].
  - apply (proj1 (rateFruit_purchase_gate false ascii_toUpperCase (fun l => hd 0%float l)
                    (fun v => v) String.length (fun _ => "FruitRating validation failed")
                    shopAfterCheckout "asha"
                    {| CreateRatingDto.fruitId := "mango";
                       CreateRatingDto.rating := 5%float;
                       CreateRatingDto.review := None |} noRatings)).
    vm_compute. reflexivity.
  - apply (proj1 (proj2 (rateFruit_purchase_gate false ascii_toUpperCase
                           (fun l => hd 0%float l) (fun v => v) String.length
                           (fun _ => "FruitRating validation failed")
                           shopWithCart "asha"
                           {| CreateRatingDto.fruitId := "apple";
                              CreateRatingDto.rating := 5%float;
                              CreateRatingDto.review := None |} noRatings))).
    + vm_compute. discriminate.
    + intros (t & item & [] & _).
  - apply (proj1 (proj2 (proj2 (rateFruit_purchase_gate false ascii_toUpperCase
                                  (fun l => hd 0%float l) (fun v => v) String.length
                                  (fun _ => "FruitRating validation failed")
                                  shopAfterCheckout "asha"
                                  {| CreateRatingDto.fruitId := "apple";
                                     CreateRatingDto.rating := 4%float;
                                     CreateRatingDto.review := Some "crisp" |}
                                  noRatings)))).
    + vm_compute. discriminate.
    + exact Hbought.
    + vm_compute. reflexivity.
  - apply (proj1 (proj2 (proj2 (proj2 (rateFruit_purchase_gate false ascii_toUpperCase
                                  (fun l => hd 0%float l) (fun v => v) String.length
                                  (fun _ => "FruitRating validation failed")
                                  shopAfterCheckout "asha"
                                  {| CreateRatingDto.fruitId := "apple";
                                     CreateRatingDto.rating := 7%float;
                                     CreateRatingDto.review := None |}
                                  noRatings))))).
    + vm_compute. discriminate.
    + exact Hbought.
    + vm_compute. reflexivity.
Defined.

Lemma rateFruit_one_rating_each_witness :
  exists first r1 again r2,
    sampleRateFruit shopAfterCheckout "asha"
      {| CreateRatingDto.fruitId := "apple"; CreateRatingDto.rating := 4%float;
         CreateRatingDto.review := Some "crisp" |} noRatings
      = (inr first, r1)
    /\ sampleRateFruit shopAfterCheckout "asha"
         {| CreateRatingDto.fruitId := "apple"; CreateRatingDto.rating := 2%float;
            CreateRatingDto.review := None |} r1
       = (inr again, r2)
    /\ one_rating_each r1
    /\ length (FruitRating r1) = 1%nat
    /\ one_rating_each r2
    /\ length (FruitRating r2) = 1%nat
    /\ getUserRatingForFruit "asha" "apple" r2 = Some (RatingResult.rating again)
    /\ IFruitRating.review (RatingResult.rating again) = Some "crisp"
    /\ RatingResult.totalRatings again = 1.
Proof.
  eexists. eexists. eexists. eexists.
  split; [vm_compute; reflexivity|]. split; [vm_compute; reflexivity|].
  match goal with
  | |- one_rating_each ?r1 /\ _ /\ one_rating_each ?r2 /\ _ =>
      destruct (rateFruit_one_rating_each (fun l => hd 0%float l) (fun v => v)
                  String.length (fun _ => "FruitRating validation failed")
                  shopAfterCheckout "asha"
                  {| CreateRatingDto.fruitId := "apple"; CreateRatingDto.rating := 4%float;
                     CreateRatingDto.review := Some "crisp" |}
                  noRatings r1 _
                  ltac:(constructor) ltac:(vm_compute; reflexivity))
        as (Huniq1 & _ & Hlen1 & _);
      destruct (rateFruit_one_rating_each (fun l => hd 0%float l) (fun v => v)
                  String.length (fun _ => "FruitRating validation failed")
                  shopAfterCheckout "asha"
                  {| CreateRatingDto.fruitId := "apple"; CreateRatingDto.rating := 2%float;
                     CreateRatingDto.review := None |}
                  r1 r2 _ Huniq1 ltac:(vm_compute; reflexivity))
        as (Huniq2 & Hread & Hlen2 & Hreview & _ & _ & Htotal)
  end.
  split; [exact Huniq1|]. split; [exact Hlen1|]. split; [exact Huniq2|].
  split; [exact Hlen2|]. split; [exact Hread|].
  split; [|exact Htotal].
  apply (Hreview _ eq_refl eq_refl).
Defined.
